(** * GitHub Contest Analytics dashboard: the aggregation logic of
      [src/pages/Dashboard.jsx]

    The component keeps four pieces of state ([webhookData], [timeRange],
    [selectedRepo], [currentPage]) and, on every render, recomputes from them
    the per-category counts, the zero-filled daily series, the "today"
    figures, the rankings, the page of the activity table and the list of
    repositories offered by the selector.

    Modelling conventions.
    - A JavaScript number is an integer of [Z]; the only division of the
      code, [Math.ceil(length / rowsPerPage)], is taken over [Q].
    - A [Date] is its time value in milliseconds, [None] being
      [Invalid Date] (what [new Date(x)] yields for an absent or unparsable
      [x]).  [toLocaleDateString] renders the local calendar day through a
      locale-dependent function [localeDate], a parameter of the
      development.
    - The component is modelled twice.  [Module Plain] and [Module Faithful]
      follow the language: a plain object has the members it inherits from
      [Object.prototype], ignores an assignment of a number to [__proto__]
      and lists its array-index keys first; local time is given by the two
      conversions of an arbitrary time zone, so that [setHours] and
      [setDate] move through changes of offset.  [Section Host] is the
      restriction used for the properties that depend on neither: a plain
      object is an association list in insertion order, and local time is
      UTC shifted by a fixed [tzOffset].  The two agree when every key is
      ordinary (not inherited, not an array index) and the zone keeps one
      offset; outside of that only the first is the code.
    - A [Set] is the list of its members in insertion order.
    - The clock is read once per render ([now]).
    - An expression that can throw returns a [JsResult]. *)

From Stdlib Require Import ZArith QArith Qround List String Ascii Bool Lia.
From Stdlib Require Import Permutation Sorted DecimalString DecimalZ.
Import ListNotations.

Open Scope string_scope.
Open Scope list_scope.
Open Scope Z_scope.

(** ** JavaScript values and operators *)

(** [a || b] where [a] is a possibly absent string: [undefined] and the empty
    string are falsy. *)
Definition truthy (a : option string) : bool :=
  match a with
  | Some s => negb (s =? "")%string
  | None => false
  end.

Definition or_opt (a b : option string) : option string :=
  if truthy a then a else b.

Definition or_str (a : option string) (b : string) : string :=
  match or_opt a (Some b) with
  | Some s => s
  | None => b
  end.

(** [(x || 0)] where [x] is a possibly absent number. *)
Definition or_zero (x : option Z) : Z :=
  match x with
  | Some v => v
  | None => 0
  end.

(** The index clamping shared by [Array.prototype.slice] and
    [String.prototype.slice]. *)
Definition relative_index (len i : Z) : Z :=
  if i <? 0 then Z.max (len + i) 0 else Z.min i len.

(** [l.slice(start, end)]. *)
Definition slice {A : Type} (l : list A) (start end_ : Z) : list A :=
  let len := Z.of_nat (List.length l) in
  let k := relative_index len start in
  let final := relative_index len end_ in
  firstn (Z.to_nat (Z.max (final - k) 0)) (skipn (Z.to_nat k) l).

(** [s.slice(n)] on a string, for [0 <= n]. *)
Fixpoint string_slice (n : nat) (s : string) : string :=
  match n, s with
  | O, _ => s
  | S _, EmptyString => EmptyString
  | S n', String _ s' => string_slice n' s'
  end.

(** [Math.ceil(a / b)]. *)
Definition Math_ceil_div (a b : Z) : Z :=
  Qceiling (inject_Z a / inject_Z b).

(** A thrown [TypeError] (reading a property of [undefined]). *)
Inductive JsResult (A : Type) : Type :=
| Ok (a : A)
| TypeError.
Arguments Ok {A} a.
Arguments TypeError {A}.

Definition bind {A B : Type} (m : JsResult A) (k : A -> JsResult B)
  : JsResult B :=
  match m with
  | Ok a => k a
  | TypeError => TypeError
  end.

Notation "x <- m ;; k" := (bind m (fun x => k))
  (at level 61, m at next level, right associativity).

(** [l.map(f)] with a callback that can throw: elements are visited from
    left to right and the first exception aborts the traversal. *)
Fixpoint map_js {A B : Type} (f : A -> JsResult B) (l : list A)
  : JsResult (list B) :=
  match l with
  | [] => Ok []
  | x :: l' => y <- f x ;; ys <- map_js f l' ;; Ok (y :: ys)
  end.

(** ** Objects used as dictionaries

    The association-list layer: what [{}] is for keys that are neither
    inherited from [Object.prototype] nor array indices.  [Module Plain]
    below covers every key. *)

Definition JsObject : Type := list (string * Z).

Fixpoint obj_get (o : JsObject) (k : string) : option Z :=
  match o with
  | [] => None
  | (k', v) :: o' => if (k' =? k)%string then Some v else obj_get o' k
  end.

(** [o[k] = v] for an ordinary key [k]: an existing key keeps its position,
    a new one goes last. *)
Fixpoint obj_set (o : JsObject) (k : string) (v : Z) : JsObject :=
  match o with
  | [] => [(k, v)]
  | (k', v') :: o' =>
      if (k' =? k)%string then (k', v) :: o' else (k', v') :: obj_set o' k v
  end.

Definition Object_keys (o : JsObject) : list string := map fst o.
Definition Object_values (o : JsObject) : list Z := map snd o.
Definition Object_entries (o : JsObject) : list (string * Z) := o.

Definition sum (l : list Z) : Z := fold_right Z.add 0 l.

(** [o[k] = (o[k] || 0) + 1] for an ordinary key [k] *)
Definition increment (o : JsObject) (k : string) : JsObject :=
  obj_set o k (or_zero (obj_get o k) + 1).

(** [const o = {}; l.forEach(item => { const k = key(item); o[k] = (o[k] || 0) + 1 })] *)
Definition tally {A : Type} (key : A -> string) (l : list A) : JsObject :=
  fold_left (fun o item => increment o (key item)) l [].

(** ** Sets *)

Definition set_add (s : list string) (x : string) : list string :=
  if existsb (String.eqb x) s then s else s ++ [x].

(** [new Set(l)] *)
Definition new_Set (l : list string) : list string :=
  fold_left set_add l [].

(** ** Sorting

    [Array.prototype.sort] is stable; with a comparator that is a total
    preorder its result is the one stable arrangement of the input, which
    insertion from the right computes. *)
Section Sort.
Context {A : Type} (compare : A -> A -> Z).

Fixpoint insert (x : A) (l : list A) : list A :=
  match l with
  | [] => [x]
  | y :: l' => if compare x y <=? 0 then x :: l else y :: insert x l'
  end.

Fixpoint sort (l : list A) : list A :=
  match l with
  | [] => []
  | x :: l' => insert x (sort l')
  end.
End Sort.

(** ** Event records *)

Record Repository : Type := {
  name : option string
}.

Definition Date : Type := option Z.

(** One document of the [github_webhooks] collection.  [receivedAt] is
    [new Date(item.receivedAt)]; [sender_login], [pusher_name] and
    [pull_request_user_login] are [item.sender?.login], [item.pusher?.name]
    and [item.pull_request?.user?.login]. *)
Record Event : Type := {
  id : string;
  receivedAt : Date;
  githubEvent : option string;
  repository : option Repository;
  sender_login : option string;
  pusher_name : option string;
  pull_request_user_login : option string
}.

(** [item.repository?.name] *)
Definition repository_name (item : Event) : option string :=
  match repository item with
  | Some r => name r
  | None => None
  end.

(** [item.repository?.name.slice(5) || 'Unknown']: the optional chain stops
    at an absent [repository]; a present [repository] without [name] makes
    [.slice] a property read on [undefined]. *)
Definition team_cell (item : Event) : JsResult string :=
  match repository item with
  | None => Ok (or_str None "Unknown")
  | Some r =>
      match name r with
      | None => TypeError
      | Some n => Ok (or_str (Some (string_slice 5 n)) "Unknown")
      end
  end.

(** [item.repository?.name || 'Unknown'] *)
Definition repoName (item : Event) : string :=
  or_str (repository_name item) "Unknown".

(** [repoName.slice(5)] *)
Definition teamName (item : Event) : string :=
  string_slice 5 (repoName item).

(** [item.githubEvent || 'Unknown'] *)
Definition eventType (item : Event) : string :=
  or_str (githubEvent item) "Unknown".

(** [item.sender?.login || item.pusher?.name || item.pull_request?.user?.login || 'Unknown'] *)
Definition username (item : Event) : string :=
  or_str (or_opt (or_opt (sender_login item) (pusher_name item))
            (pull_request_user_login item)) "Unknown".

(** ** Dates *)

Definition msPerDay : Z := 86400000.

Definition date_ge (a b : Date) : bool :=
  match a, b with
  | Some x, Some y => x >=? y
  | _, _ => false
  end.

Definition date_lt (a b : Date) : bool :=
  match a, b with
  | Some x, Some y => x <? y
  | _, _ => false
  end.

Definition date_gt (a b : Date) : bool := date_lt b a.

Definition date_le (a b : Date) : bool := date_ge b a.

(** * Plain objects and local time in full

    The two places where the host shows through the component are the plain
    objects it uses as dictionaries and the local calendar of its [Date]s.
    [Plain] and [Faithful] give them as ECMAScript defines them; the model
    of [Section Host] further down is what they come to when every label is
    an ordinary key and local time keeps one offset from UTC (see
    [plain_tally_agrees] and [processData_agrees]). *)

Module Plain.

(** What a property read on [{}] can yield, and what the component can
    store: a number, a string, a built-in function inherited from
    [Object.prototype], or [Object.prototype] itself (the value of
    [__proto__]). *)
Inductive Value : Type :=
| Num (n : Z)
| Str (s : string)
| Fn (name : string)
| ObjectPrototype.

(** The own enumerable properties of an object created by [{}], in the
    order of their creation. *)
Definition Obj : Type := list (string * Value).

(** The function-valued properties of [Object.prototype], each with the
    name of the function it holds. *)
Definition prototype_functions : list (string * string) :=
  [("constructor", "Object");
   ("__defineGetter__", "__defineGetter__");
   ("__defineSetter__", "__defineSetter__");
   ("hasOwnProperty", "hasOwnProperty");
   ("__lookupGetter__", "__lookupGetter__");
   ("__lookupSetter__", "__lookupSetter__");
   ("isPrototypeOf", "isPrototypeOf");
   ("propertyIsEnumerable", "propertyIsEnumerable");
   ("toString", "toString");
   ("valueOf", "valueOf");
   ("toLocaleString", "toLocaleString")].

Fixpoint lookup {V : Type} (l : list (string * V)) (k : string) : option V :=
  match l with
  | [] => None
  | (k', v) :: l' => if (k' =? k)%string then Some v else lookup l' k
  end.

(** What [Object.prototype] answers for [k]. *)
Definition inherited (k : string) : option Value :=
  if (k =? "__proto__")%string then Some ObjectPrototype
  else option_map Fn (lookup prototype_functions k).

(** [o[k]]: the own property, else the inherited one, else [undefined]. *)
Definition get (o : Obj) (k : string) : option Value :=
  match lookup o k with
  | Some v => Some v
  | None => inherited k
  end.

Fixpoint define (o : Obj) (k : string) (v : Value) : Obj :=
  match o with
  | [] => [(k, v)]
  | (k', v') :: o' =>
      if (k' =? k)%string then (k', v) :: o' else (k', v') :: define o' k v
  end.

(** [o[k] = v].  An assignment to [__proto__] reaches the inherited setter,
    which ignores a number or a string; the only object the component can
    assign there is [Object.prototype], which is the prototype already.  Any
    other key becomes, or stays, an own property. *)
Definition set (o : Obj) (k : string) (v : Value) : Obj :=
  if (k =? "__proto__")%string then o else define o k v.

Definition truthy (v : Value) : bool :=
  match v with
  | Num n => negb (n =? 0)
  | Str s => negb (s =? "")%string
  | Fn _ => true
  | ObjectPrototype => true
  end.

(** [x || 0] *)
Definition or_zero (x : option Value) : Value :=
  match x with
  | Some v => if truthy v then v else Num 0
  | None => Num 0
  end.

Section Engine.
(** The source text that the engine prints for the built-in function of a
    given name. *)
Variable nativeSource : string -> string.

(** [v + 1]: addition on a number, concatenation with ["1"] on anything
    else once it is turned into a string. *)
Definition plus_one (v : Value) : Value :=
  match v with
  | Num n => Num (n + 1)
  | Str s => Str (s ++ "1")
  | Fn name => Str (nativeSource name ++ "1")
  | ObjectPrototype => Str ("[object Object]" ++ "1")
  end.

(** [o[k] = (o[k] || 0) + 1] *)
Definition increment (o : Obj) (k : string) : Obj :=
  set o k (plus_one (or_zero (get o k))).

(** [const o = {}; l.forEach(item => { const k = key(item); o[k] = (o[k] || 0) + 1 })] *)
Definition tally {A : Type} (key : A -> string) (l : list A) : Obj :=
  fold_left (fun o item => increment o (key item)) l [].
End Engine.

Definition digit (c : ascii) : option N :=
  let n := N_of_ascii c in
  if ((48 <=? n) && (n <=? 57))%N then Some (n - 48)%N else None.

Fixpoint digits (s : string) (acc : N) : option N :=
  match s with
  | EmptyString => Some acc
  | String c s' =>
      match digit c with
      | Some d => digits s' (10 * acc + d)%N
      | None => None
      end
  end.

(** The array index that a key denotes, if it is the canonical decimal
    writing of an integer from 0 to 2^32 - 2. *)
Definition array_index (k : string) : option N :=
  match k with
  | EmptyString => None
  | String c rest =>
      if ((c =? "0")%char && negb (rest =? "")%string)%bool then None
      else match digits k 0 with
           | Some n => if (n <=? 4294967294)%N then Some n else None
           | None => None
           end
  end.

Definition indexed (o : Obj) : list (N * (string * Value)) :=
  flat_map (fun e => match array_index (fst e) with
                     | Some i => [(i, e)]
                     | None => []
                     end) o.

Definition by_index (a b : N * (string * Value)) : Z :=
  Z.of_N (fst a) - Z.of_N (fst b).

(** [Object.entries(o)]: the properties whose key is an array index, by
    ascending index, then the others in the order of their creation. *)
Definition entries (o : Obj) : list (string * Value) :=
  map snd (sort by_index (indexed o))
  ++ filter (fun e => match array_index (fst e) with
                      | Some _ => false
                      | None => true
                      end) o.

Definition keys (o : Obj) : list string := map fst (entries o).
Definition values (o : Obj) : list Value := map snd (entries o).

(** The sum of a list of values when all of them are numbers. *)
Fixpoint total (vs : list Value) : option Z :=
  match vs with
  | [] => Some 0
  | Num n :: vs' => option_map (Z.add n) (total vs')
  | _ :: _ => None
  end.

(** The entries of an object all of whose values are numbers. *)
Fixpoint numbers (es : list (string * Value)) : option (list (string * Z)) :=
  match es with
  | [] => Some []
  | (k, Num n) :: es' => option_map (cons (k, n)) (numbers es')
  | _ :: _ => None
  end.

(** A key that is neither inherited from [Object.prototype] nor an array
    index. *)
Definition ordinary (k : string) : bool :=
  match inherited k, array_index k with
  | None, None => true
  | _, _ => false
  end.

End Plain.

Module Faithful.

(** The host's time zone, as the two conversions of ECMAScript:
    [LocalTime t] is the local time value of the instant [t], and [UTC l]
    the instant that the local time value [l] designates. *)
Record TimeZone : Type := {
  LocalTime : Z -> Z;
  UTC : Z -> Z
}.

(** A zone that keeps one offset from UTC. *)
Definition fixed_offset (tz : Z) : TimeZone :=
  {| LocalTime := fun t => t + tz; UTC := fun l => l - tz |}.

(** A zone that moves its clocks forward once, from the offset [before] to
    the offset [after] at the instant [transition].  A local time that the
    change skips is read with the offset before it. *)
Definition spring_forward (before after transition : Z) : TimeZone :=
  {| LocalTime := fun t => if t <? transition then t + before else t + after;
     UTC := fun l => if l <? transition + after then l - before else l - after |}.

Section Engine.
Variable zone : TimeZone.
(** The locale's rendering of a calendar day (days since the epoch). *)
Variable localeDate : Z -> string.
Variable nativeSource : string -> string.

(** The local day of the instant [t]. *)
Definition localDay (t : Z) : Z := LocalTime zone t / msPerDay.

(** [d.setHours(0,0,0,0)]: the instant that the start of the local day
    designates. *)
Definition setHours0 (d : Date) : Date :=
  option_map (fun t => UTC zone (localDay t * msPerDay)) d.

(** [d.toLocaleDateString()] *)
Definition toLocaleDateString (d : Date) : string :=
  match d with
  | Some t => localeDate (localDay t)
  | None => "Invalid Date"
  end.

(** [d.setDate(d.getDate() + n)]: the same local time of day, [n] local
    days later. *)
Definition addDays (d : Date) (n : Z) : Date :=
  option_map (fun t => UTC zone (LocalTime zone t + n * msPerDay)) d.

(** [selectedRepo === 'all' ? webhookData : webhookData.filter(...)] *)
Definition filteredData (webhookData : list Event) (selectedRepo : string)
  : list Event :=
  if (selectedRepo =? "all")%string then webhookData
  else filter (fun item =>
                 match repository_name item with
                 | Some n => (n =? selectedRepo)%string
                 | None => false
                 end) webhookData.

(** The [switch (timeRange)]. *)
Definition cutoffDate (timeRange : string) (now : Z) : Date :=
  if (timeRange =? "24h")%string then addDays (Some now) (-1)
  else if (timeRange =? "7d")%string then addDays (Some now) (-7)
  else if (timeRange =? "30d")%string then addDays (Some now) (-30)
  else Some 0.

Definition timeFilteredData (webhookData : list Event)
  (timeRange selectedRepo : string) (now : Z) : list Event :=
  filter (fun item => date_ge (receivedAt item) (cutoffDate timeRange now))
    (filteredData webhookData selectedRepo).

Record Daily : Type := {
  daily_counts : Plain.Obj;
  minDate : option Date;
  maxDate : option Date
}.

Definition daily_step (acc : Daily) (item : Event) : Daily :=
  let dateObj := setHours0 (receivedAt item) in
  let date := toLocaleDateString dateObj in
  {| daily_counts := Plain.increment nativeSource (daily_counts acc) date;
     minDate := match minDate acc with
                | None => Some dateObj
                | Some m => if date_lt dateObj m then Some dateObj else Some m
                end;
     maxDate := match maxDate acc with
                | None => Some dateObj
                | Some m => if date_gt dateObj m then Some dateObj else Some m
                end |}.

Definition dailyActivity_raw (l : list Event) : Daily :=
  fold_left daily_step l
    {| daily_counts := []; minDate := None; maxDate := None |}.

(** [while (current <= endDate) { ... }]; [None] when the loop is still
    running after [fuel] tests of its condition. *)
Fixpoint fill_loop (fuel : nat) (daily : Plain.Obj) (endDate current : Date)
  (filled : Plain.Obj) : option Plain.Obj :=
  match fuel with
  | O => None
  | S fuel' =>
      if date_le current endDate then
        let dateStr := toLocaleDateString current in
        fill_loop fuel' daily endDate (addDays current 1)
          (Plain.set filled dateStr (Plain.or_zero (Plain.get daily dateStr)))
      else Some filled
  end.

Definition filledDailyActivity (fuel : nat) (d : Daily) (now : Z)
  : option Plain.Obj :=
  match minDate d, maxDate d with
  | Some minD, Some maxD =>
      let today := setHours0 (Some now) in
      let endDate := if date_gt maxD today then maxD else today in
      fill_loop fuel (daily_counts d) endDate minD []
  | _, _ => Some []
  end.

Record Bundle : Type := {
  eventTypes : Plain.Obj;
  repoActivity : Plain.Obj;
  teamActivity : Plain.Obj;
  userActivity : Plain.Obj;
  dailyActivity : option Plain.Obj;
  totalEvents : Z;
  uniqueRepos : Z;
  uniqueTeams : Z;
  bundle_filteredData : list Event
}.

Definition processData (fuel : nat) (webhookData : list Event)
  (timeRange selectedRepo : string) (now : Z) : Bundle :=
  let filtered := filteredData webhookData selectedRepo in
  let timeFiltered := timeFilteredData webhookData timeRange selectedRepo now in
  let repos := Plain.tally nativeSource repoName timeFiltered in
  let teams := Plain.tally nativeSource teamName timeFiltered in
  {| eventTypes := Plain.tally nativeSource eventType timeFiltered;
     repoActivity := repos;
     teamActivity := teams;
     userActivity := Plain.tally nativeSource username timeFiltered;
     dailyActivity :=
       filledDailyActivity fuel (dailyActivity_raw timeFiltered) now;
     totalEvents := Z.of_nat (List.length timeFiltered);
     uniqueRepos := Z.of_nat (List.length (Plain.keys repos));
     uniqueTeams := Z.of_nat (List.length (Plain.keys teams));
     bundle_filteredData := filtered |}.

Definition todaysEvents (b : Bundle) (now : Z) : list Event :=
  let todayStr := toLocaleDateString (setHours0 (Some now)) in
  filter (fun item =>
            (toLocaleDateString (setHours0 (receivedAt item)) =? todayStr)%string)
    (bundle_filteredData b).

Definition todaysActivity (b : Bundle) (now : Z) : Z :=
  Z.of_nat (List.length (todaysEvents b now)).

(** [Object.entries(o).sort((a, b) => b[1] - a[1])], when every value is a
    number.  With another value the comparator yields [NaN] and the order
    of the result is left to the engine: [None]. *)
Definition ranking (o : Plain.Obj) : option (list (string * Z)) :=
  option_map (sort (fun a b : string * Z => snd b - snd a))
    (Plain.numbers (Plain.entries o)).

Definition leaderboard (b : Bundle) : option (list (string * Z)) :=
  ranking (userActivity b).

(** [{ labels: Object.keys(o), datasets: [{ data: Object.values(o), ... }] }] *)
Record ChartData : Type := {
  chart_labels : list string;
  chart_data : list Plain.Value
}.

Definition chart (o : Plain.Obj) : ChartData :=
  {| chart_labels := Plain.keys o; chart_data := Plain.values o |}.

Definition eventTypeChartData (b : Bundle) : ChartData := chart (eventTypes b).
Definition repoActivityChartData (b : Bundle) : ChartData :=
  chart (repoActivity b).
Definition teamActivityChartData (b : Bundle) : ChartData :=
  chart (teamActivity b).

End Engine.
End Faithful.

(** A sample host: UTC, and a locale that writes a day as its number. *)
Definition utc : Z := 0.

Definition dayNumber (d : Z) : string :=
  NilEmpty.string_of_int (Z.to_int d).

Section Host.
(** Offset of local time from UTC, in milliseconds. *)
Variable tzOffset : Z.
(** The locale's rendering of a calendar day (days since the epoch). *)
Variable localeDate : Z -> string.

Definition localDay (t : Z) : Z := (t + tzOffset) / msPerDay.

(** The instant at which local day [d] starts. *)
Definition dayStart (d : Z) : Z := d * msPerDay - tzOffset.

(** [d.setHours(0,0,0,0)] in a zone that keeps the offset [tzOffset] *)
Definition setHours0 (d : Date) : Date :=
  option_map (fun t => dayStart (localDay t)) d.

(** [d.toLocaleDateString()] *)
Definition toLocaleDateString (d : Date) : string :=
  match d with
  | Some t => localeDate (localDay t)
  | None => "Invalid Date"
  end.

(** [d.setDate(d.getDate() + n)] in a zone that keeps the offset
    [tzOffset]: [n] days of 24 hours later. *)
Definition addDays (d : Date) (n : Z) : Date :=
  option_map (fun t => t + n * msPerDay) d.

(** *** processData *)

(** [selectedRepo === 'all' ? webhookData : webhookData.filter(...)] *)
Definition filteredData (webhookData : list Event) (selectedRepo : string)
  : list Event :=
  if (selectedRepo =? "all")%string then webhookData
  else filter (fun item =>
                 match repository_name item with
                 | Some n => (n =? selectedRepo)%string
                 | None => false
                 end) webhookData.

(** The [switch (timeRange)], in a zone that keeps the offset [tzOffset]. *)
Definition cutoffDate (timeRange : string) (now : Z) : Date :=
  if (timeRange =? "24h")%string then addDays (Some now) (-1)
  else if (timeRange =? "7d")%string then addDays (Some now) (-7)
  else if (timeRange =? "30d")%string then addDays (Some now) (-30)
  else Some 0.

Definition timeFilteredData (webhookData : list Event)
  (timeRange selectedRepo : string) (now : Z) : list Event :=
  filter (fun item => date_ge (receivedAt item) (cutoffDate timeRange now))
    (filteredData webhookData selectedRepo).

(** State of the loop that groups by date: the tally and the two
    nullable bounds. *)
Record Daily : Type := {
  daily_counts : JsObject;
  minDate : option Date;
  maxDate : option Date
}.

Definition daily_step (acc : Daily) (item : Event) : Daily :=
  let dateObj := setHours0 (receivedAt item) in
  let date := toLocaleDateString dateObj in
  {| daily_counts := increment (daily_counts acc) date;
     minDate := match minDate acc with
                | None => Some dateObj
                | Some m => if date_lt dateObj m then Some dateObj else Some m
                end;
     maxDate := match maxDate acc with
                | None => Some dateObj
                | Some m => if date_gt dateObj m then Some dateObj else Some m
                end |}.

Definition dailyActivity_raw (l : list Event) : Daily :=
  fold_left daily_step l
    {| daily_counts := []; minDate := None; maxDate := None |}.

(** [while (current <= endDate) { ... }], unrolled at most [fuel] times. *)
Fixpoint fill_loop (fuel : nat) (daily : JsObject) (endDate current : Date)
  (filled : JsObject) : JsObject :=
  match fuel with
  | O => filled
  | S fuel' =>
      if date_le current endDate then
        let dateStr := toLocaleDateString current in
        fill_loop fuel' daily endDate (addDays current 1)
          (obj_set filled dateStr (or_zero (obj_get daily dateStr)))
      else filled
  end.

(** Number of iterations after which [current] has passed [endDate]. *)
Definition fill_fuel (endDate current : Date) : nat :=
  match endDate, current with
  | Some e, Some c => Z.to_nat ((e - c) / msPerDay + 1)
  | _, _ => O
  end.

Definition filledDailyActivity_fuel (extra : nat) (d : Daily) (now : Z)
  : JsObject :=
  match minDate d, maxDate d with
  | Some minD, Some maxD =>
      let today := setHours0 (Some now) in
      let endDate := if date_gt maxD today then maxD else today in
      fill_loop (fill_fuel endDate minD + extra)
        (daily_counts d) endDate minD []
  | _, _ => []
  end.

Definition filledDailyActivity : Daily -> Z -> JsObject :=
  filledDailyActivity_fuel 0.

Record Bundle : Type := {
  eventTypes : JsObject;
  repoActivity : JsObject;
  teamActivity : JsObject;
  userActivity : JsObject;
  dailyActivity : JsObject;
  totalEvents : Z;
  uniqueRepos : Z;
  uniqueTeams : Z;
  bundle_filteredData : list Event
}.

Definition processData (webhookData : list Event)
  (timeRange selectedRepo : string) (now : Z) : Bundle :=
  let filtered := filteredData webhookData selectedRepo in
  let timeFiltered := timeFilteredData webhookData timeRange selectedRepo now in
  let repos := tally repoName timeFiltered in
  let teams := tally teamName timeFiltered in
  {| eventTypes := tally eventType timeFiltered;
     repoActivity := repos;
     teamActivity := teams;
     userActivity := tally username timeFiltered;
     dailyActivity := filledDailyActivity (dailyActivity_raw timeFiltered) now;
     totalEvents := Z.of_nat (List.length timeFiltered);
     uniqueRepos := Z.of_nat (List.length (Object_keys repos));
     uniqueTeams := Z.of_nat (List.length (Object_keys teams));
     bundle_filteredData := filtered |}.

(** *** The rest of the render *)

Definition rowsPerPage : Z := 10.

Record State : Type := {
  webhookData : list Event;
  timeRange : string;
  selectedRepo : string;
  currentPage : Z
}.

Definition bundle (st : State) (now : Z) : Bundle :=
  processData (webhookData st) (timeRange st) (selectedRepo st) now.

Definition todaysEvents (st : State) (now : Z) : list Event :=
  let todayStr := toLocaleDateString (setHours0 (Some now)) in
  filter (fun item =>
            (toLocaleDateString (setHours0 (receivedAt item)) =? todayStr)%string)
    (bundle_filteredData (bundle st now)).

Definition todaysActivity (st : State) (now : Z) : Z :=
  Z.of_nat (List.length (todaysEvents st now)).

Definition teamsWorkedToday (st : State) (now : Z) : JsResult Z :=
  teams <- map_js team_cell (todaysEvents st now) ;;
  Ok (Z.of_nat (List.length (new_Set teams))).

(** [(a, b) => b[1] - a[1]] *)
Definition by_count_desc (a b : string * Z) : Z := snd b - snd a.

Definition ranking (o : JsObject) : list (string * Z) :=
  sort by_count_desc (Object_entries o).

Definition top5 (o : JsObject) : list (string * Z) :=
  slice (sort by_count_desc (Object_entries o)) 0 5.

Definition topTeams (st : State) (now : Z) : list (string * Z) :=
  top5 (teamActivity (bundle st now)).

Definition topUsers (st : State) (now : Z) : list (string * Z) :=
  top5 (userActivity (bundle st now)).

Definition leaderboard (st : State) (now : Z) : list (string * Z) :=
  ranking (userActivity (bundle st now)).

Definition totalPages (st : State) (now : Z) : Z :=
  Math_ceil_div (Z.of_nat (List.length (bundle_filteredData (bundle st now))))
    rowsPerPage.

Definition paginatedData (st : State) (now : Z) : list Event :=
  slice (bundle_filteredData (bundle st now))
    ((currentPage st - 1) * rowsPerPage) (currentPage st * rowsPerPage).

Definition setCurrentPage (f : Z -> Z) (st : State) : State :=
  {| webhookData := webhookData st;
     timeRange := timeRange st;
     selectedRepo := selectedRepo st;
     currentPage := f (currentPage st) |}.

Definition handlePrevPage (st : State) : State :=
  setCurrentPage (fun p => Z.max 1 (p - 1)) st.

Definition handleNextPage (st : State) (now : Z) : State :=
  setCurrentPage (fun p => Z.min (totalPages st now) (p + 1)) st.

Definition setTimeRange (v : string) (st : State) : State :=
  {| webhookData := webhookData st;
     timeRange := v;
     selectedRepo := selectedRepo st;
     currentPage := currentPage st |}.

Definition setSelectedRepo (v : string) (st : State) : State :=
  {| webhookData := webhookData st;
     timeRange := timeRange st;
     selectedRepo := v;
     currentPage := currentPage st |}.

Definition setWebhookData (data : list Event) (st : State) : State :=
  {| webhookData := data;
     timeRange := timeRange st;
     selectedRepo := selectedRepo st;
     currentPage := currentPage st |}.

(** The [useState] initial values. *)
Definition initialState : State :=
  {| webhookData := []; timeRange := "7d"; selectedRepo := "all";
     currentPage := 1 |}.

(** What the user and the subscription can do to the state. *)
Inductive Action : Type :=
| SelectTimeRange (v : string)
| SelectRepo (v : string)
| PrevPage
| NextPage
| Snapshot (data : list Event).

Definition step (now : Z) (st : State) (a : Action) : State :=
  match a with
  | SelectTimeRange v => setTimeRange v st
  | SelectRepo v => setSelectedRepo v st
  | PrevPage => handlePrevPage st
  | NextPage => handleNextPage st now
  | Snapshot data => setWebhookData data st
  end.

Definition run (now : Z) (st : State) (actions : list Action) : State :=
  fold_left (step now) actions st.

(** [webhookData.map(item => item.repository?.name).filter(Boolean)] *)
Definition present_names (data : list Event) : list string :=
  flat_map (fun o => match o with
                     | Some n => if truthy (Some n) then [n] else []
                     | None => []
                     end)
    (map repository_name data).

(** [[...new Set(present_names)]] *)
Definition repositories (st : State) : list string :=
  new_Set (present_names (webhookData st)).

(** The cells of one row of the Recent Activity table that depend on the
    optional fields. *)
Record Row : Type := {
  row_repository : string;
  row_team : string;
  row_username : string
}.

Definition table_row (item : Event) : JsResult Row :=
  team <- team_cell item ;;
  Ok {| row_repository := repoName item;
        row_team := team;
        row_username := username item |}.

(** Everything the markup reads. *)
Record View : Type := {
  view_bundle : Bundle;
  view_todaysActivity : Z;
  view_teamsWorkedToday : Z;
  view_topTeams : list (string * Z);
  view_topUsers : list (string * Z);
  view_leaderboard : list (string * Z);
  view_totalPages : Z;
  view_rows : list Row;
  view_repositories : list string
}.

Definition render (st : State) (now : Z) : JsResult View :=
  teams <- teamsWorkedToday st now ;;
  rows <- map_js table_row (paginatedData st now) ;;
  Ok {| view_bundle := bundle st now;
        view_todaysActivity := todaysActivity st now;
        view_teamsWorkedToday := teams;
        view_topTeams := topTeams st now;
        view_topUsers := topUsers st now;
        view_leaderboard := leaderboard st now;
        view_totalPages := totalPages st now;
        view_rows := rows;
        view_repositories := repositories st |}.

(** ** Vocabulary of the statements *)

(** [a] does not rank below [b]. *)
Definition count_ge (a b : string * Z) : Prop := snd a >= snd b.

(** The entries whose count is [c]. *)
Definition has_count (c : Z) (e : string * Z) : bool := snd e =? c.

Definition differs (x : string) (y : string) : bool := negb (y =? x)%string.

Definition outside (s : list string) (y : string) : bool :=
  negb (existsb (String.eqb y) s).

(** [receivedAt] is not [Invalid Date]. *)
Definition valid (item : Event) : Prop := receivedAt item <> None.

(** The local calendar day of an event with a valid [receivedAt]. *)
Definition day_of (item : Event) : Z := localDay (or_zero (receivedAt item)).

(** How many events of [l] fall on day [d]. *)
Definition events_on (d : Z) (l : list Event) : Z :=
  Z.of_nat (List.length (filter (fun item => day_of item =? d) l)).

(** The [n] consecutive days [d], [d + 1], ... *)
Fixpoint days_from (d : Z) (n : nat) : list Z :=
  match n with
  | O => []
  | S n' => d :: days_from (d + 1) n'
  end.

(** Every day from [d0] to [d1], both included. *)
Definition days_between (d0 d1 : Z) : list Z :=
  days_from d0 (Z.to_nat (d1 - d0 + 1)).

(** ** Sample data *)

Definition named (n : string) : option Repository :=
  Some {| name := Some n |}.

Definition sampleEvent (i : string) (t : Date) (repo : option Repository)
  : Event :=
  {| id := i; receivedAt := t; githubEvent := Some "push";
     repository := repo; sender_login := Some "octocat";
     pusher_name := None; pull_request_user_login := None |}.

(** Twelve o'clock UTC of day [d]. *)
Definition noon (d : Z) : Z := d * msPerDay + 43200000.

Definition event_teamA_svc : Event :=
  sampleEvent "e1" (Some (noon 20)) (named "teamA-svc").

Definition event_no_repository : Event :=
  sampleEvent "e2" (Some (noon 20)) None.

(** A [repository] object that carries no [name]. *)
Definition event_nameless_repository : Event :=
  sampleEvent "e3" (Some (noon 20)) (Some {| name := None |}).

Definition event_long_ago : Event :=
  sampleEvent "e4" (Some (noon 1)) (named "teamA-svc").

(** Eleven events of one repository followed by one of another. *)
Definition twelve_events : list Event :=
  map (fun i => sampleEvent "e" (Some (noon 20 + Z.of_nat i))
                  (named "team1-api")) (seq 0 11)
  ++ [sampleEvent "last" (Some (noon 20)) (named "team2-web")].

Definition state_of (data : list Event) (range repo : string) (page : Z)
  : State :=
  {| webhookData := data; timeRange := range; selectedRepo := repo;
     currentPage := page |}.

(** The snapshot arrives, the user moves to page 2 and then selects the
    repository that has a single event. *)
Definition after_shrink (now : Z) : State :=
  run now initialState
    [Snapshot twelve_events; NextPage; SelectRepo "team2-web"].

(** Three events on three days of the last week. *)
Definition three_days : list Event :=
  [sampleEvent "a" (Some (noon 19)) (named "team1-api");
   sampleEvent "b" (Some (noon 17)) (named "team2-web");
   sampleEvent "c" (Some (noon 15)) (named "team1-api")].

(** ** Further vocabulary and the rest of the component *)

(** The members of [l] that [key] labels [k]. *)
Definition labelled {A : Type} (key : A -> string) (k : string) (l : list A)
  : list A :=
  filter (fun x => (key x =? k)%string) l.

(** The test of the time filter. *)
Definition in_range (range : string) (now : Z) (item : Event) : bool :=
  date_ge (receivedAt item) (cutoffDate range now).

(** [disabled={currentPage === 1}] and [disabled={currentPage === totalPages}] *)
Definition prevDisabled (st : State) : bool := currentPage st =? 1.

Definition nextDisabled (st : State) (now : Z) : bool :=
  currentPage st =? totalPages st now.

(** The page of the table that [p] designates. *)
Definition page (st : State) (now : Z) (p : Z) : list Event :=
  paginatedData (setCurrentPage (fun _ => p) st) now.

(** [{ labels: Object.keys(o), datasets: [{ data: Object.values(o), ... }] }] *)
Record ChartData : Type := {
  chart_labels : list string;
  chart_data : list Z
}.

Definition chart (o : JsObject) : ChartData :=
  {| chart_labels := Object_keys o; chart_data := Object_values o |}.

Definition eventTypeChartData (st : State) (now : Z) : ChartData :=
  chart (eventTypes (bundle st now)).

Definition repoActivityChartData (st : State) (now : Z) : ChartData :=
  chart (repoActivity (bundle st now)).

Definition teamActivityChartData (st : State) (now : Z) : ChartData :=
  chart (teamActivity (bundle st now)).

Definition dailyActivityChartData (st : State) (now : Z) : ChartData :=
  chart (dailyActivity (bundle st now)).

(** The component with its [loading] flag.  The subscription callback
    replaces the data and clears the flag; the error callback only clears
    the flag. *)
Record Component : Type := {
  loading : bool;
  component_state : State
}.

Definition mounted : Component :=
  {| loading := true; component_state := initialState |}.

Inductive Signal : Type :=
| Delivered (docs : list Event)
| Failed
| User (a : Action).

Definition receive (now : Z) (c : Component) (s : Signal) : Component :=
  match s with
  | Delivered docs =>
      {| loading := false;
         component_state := setWebhookData docs (component_state c) |}
  | Failed => {| loading := false; component_state := component_state c |}
  | User a =>
      {| loading := loading c;
         component_state := step now (component_state c) a |}
  end.

(** What the component returns: the spinner while [loading], the dashboard
    afterwards. *)
Inductive Screen : Type :=
| Spinner
| Page (v : JsResult View).

Definition Dashboard (c : Component) (now : Z) : Screen :=
  if loading c then Spinner else Page (render (component_state c) now).

(** An event whose [repository] is present without a [name]. *)
Definition nameless (item : Event) : bool :=
  match repository item with
  | Some r => match name r with
              | Some _ => false
              | None => true
              end
  | None => false
  end.

(** A signal that comes from the controls, not from the subscription. *)
Definition from_user (s : Signal) : bool :=
  match s with
  | User _ => true
  | _ => false
  end.

(** The event has a valid date on the local day of [now]. *)
Definition is_today (now : Z) (item : Event) : bool :=
  match receivedAt item with
  | Some t => localDay t =? localDay now
  | None => false
  end.

(** Further samples: a repository with a three-letter name, an event
    without a valid date. *)
Definition event_short_name : Event :=
  sampleEvent "e5" (Some (noon 20)) (named "api").

Definition event_undated : Event :=
  sampleEvent "e6" None (named "team1-api").

(** ** The two models side by side *)

(** A dictionary of counts as a plain object. *)
Definition embed (o : JsObject) : Plain.Obj :=
  map (fun e => (fst e, Plain.Num (snd e))) o.

Definition embed_daily (d : Daily) : Faithful.Daily :=
  {| Faithful.daily_counts := embed (daily_counts d);
     Faithful.minDate := minDate d;
     Faithful.maxDate := maxDate d |}.

Definition embed_bundle (b : Bundle) : Faithful.Bundle :=
  {| Faithful.eventTypes := embed (eventTypes b);
     Faithful.repoActivity := embed (repoActivity b);
     Faithful.teamActivity := embed (teamActivity b);
     Faithful.userActivity := embed (userActivity b);
     Faithful.dailyActivity := Some (embed (dailyActivity b));
     Faithful.totalEvents := totalEvents b;
     Faithful.uniqueRepos := uniqueRepos b;
     Faithful.uniqueTeams := uniqueTeams b;
     Faithful.bundle_filteredData := bundle_filteredData b |}.

(** The four labels of the event are ordinary keys. *)
Definition ordinary_labels (item : Event) : bool :=
  Plain.ordinary (eventType item) && Plain.ordinary (repoName item)
  && Plain.ordinary (teamName item) && Plain.ordinary (username item).

(** A value that is a number, at least 1. *)
Definition positive_count (v : Plain.Value) : bool :=
  match v with
  | Plain.Num n => 1 <=? n
  | _ => false
  end.

(** ** Sample hosts and snapshots for the full semantics *)

(** How V8 and JavaScriptCore print a built-in function. *)
Definition nativeCode (name : string) : string :=
  ("function " ++ name ++ "() { [native code] }")%string.

(** A locale that writes a day as the word "day" and its number. *)
Definition dayName (d : Z) : string := ("day " ++ dayNumber d)%string.

(** The year, month and day of the month of a calendar day given as days
    since the epoch (proleptic Gregorian calendar). *)
Definition civil (d : Z) : Z * Z * Z :=
  let z := d + 719468 in
  let era := z / 146097 in
  let doe := z - era * 146097 in
  let yoe := (doe - doe / 1460 + doe / 36524 - doe / 146096) / 365 in
  let doy := doe - (365 * yoe + yoe / 4 - yoe / 100) in
  let mp := (5 * doy + 2) / 153 in
  let day := doy - (153 * mp + 2) / 5 + 1 in
  let month := if mp <? 10 then mp + 3 else mp - 9 in
  let year := yoe + era * 400 + (if month <=? 2 then 1 else 0) in
  (year, month, day).

(** The [en-US] locale: month/day/year. *)
Definition enUS (d : Z) : string :=
  let '(year, month, day) := civil d in
  (dayNumber month ++ "/" ++ dayNumber day ++ "/" ++ dayNumber year)%string.

(** Day 19974 is 8 September 2024.  A zone four hours behind UTC that moves
    to three hours behind at the local midnight that would start that day,
    as Chile did: the day starts at 01:00. *)
Definition midnight_change : Faithful.TimeZone :=
  Faithful.spring_forward (-14400000) (-10800000)
    (19974 * msPerDay + 14400000).

(** In that zone: an event at 10:00 of 9 September, one at noon of
    7 September, the clock at noon of 9 September. *)
Definition across_the_change : list Event :=
  [sampleEvent "t" (Some (19975 * msPerDay + 46800000)) (named "team1-api");
   sampleEvent "y" (Some (19973 * msPerDay + 57600000)) (named "team1-api")].

Definition after_the_change : Z := 19975 * msPerDay + 54000000.

(** Repositories called like members of [Object.prototype]. *)
Definition event_proto : Event :=
  sampleEvent "p" (Some (noon 20)) (named "__proto__").

Definition event_constructor : Event :=
  sampleEvent "k" (Some (noon 20)) (named "constructor").

(** Users whose logins are numbers. *)
Definition event_of_user (login : string) : Event :=
  {| id := login; receivedAt := Some (noon 20); githubEvent := Some "push";
     repository := named "team1-api"; sender_login := Some login;
     pusher_name := None; pull_request_user_login := None |}.

(** * Properties *)

(** ** Dictionaries and tallies *)

Lemma increment_cons k' v o k :
  increment ((k', v) :: o) k =
  if (k' =? k)%string then (k', v + 1) :: o else (k', v) :: increment o k.
Proof.
  unfold increment; simpl.
  destruct (k' =? k)%string; reflexivity.
Qed.

Lemma sum_increment o k :
  sum (Object_values (increment o k)) = sum (Object_values o) + 1.
Proof.
  induction o as [|[k' v] o IH].
  - reflexivity.
  - rewrite increment_cons.
    destruct (k' =? k)%string; simpl in *; lia.
Qed.

Lemma sum_fold_increment {A : Type} (key : A -> string) l o :
  sum (Object_values (fold_left (fun o item => increment o (key item)) l o)) =
  sum (Object_values o) + Z.of_nat (List.length l).
Proof.
  revert o; induction l as [|x l IH]; intros o.
  - simpl; lia.
  - cbn [fold_left List.length]. rewrite IH, sum_increment. lia.
Qed.

Lemma sum_tally {A : Type} (key : A -> string) l :
  sum (Object_values (tally key l)) = Z.of_nat (List.length l).
Proof.
  unfold tally. rewrite sum_fold_increment. reflexivity.
Qed.

(** Association-list layer.  The counts of the event-type mapping and of
    the repository mapping both add up to [totalEvents], the number of
    events that pass the repository filter and the time filter.  For the
    objects of the language this holds on ordinary keys only. *)
Theorem count_conservation (data : list Event) (range repo : string) (now : Z) :
  let b := processData data range repo now in
  sum (Object_values (eventTypes b)) = sum (Object_values (repoActivity b)) /\
  sum (Object_values (repoActivity b)) = totalEvents b /\
  totalEvents b = Z.of_nat (List.length (timeFilteredData data range repo now)).
Proof.
  cbn [processData eventTypes repoActivity totalEvents].
  rewrite !sum_tally. auto.
Qed.

(** ** Slices *)

Lemma slice_firstn_skipn {A : Type} (l : list A) (a b : Z) :
  0 <= a <= b ->
  slice l a b = firstn (Z.to_nat (b - a)) (skipn (Z.to_nat a) l).
Proof.
  intros Hab. unfold slice, relative_index.
  destruct (Z.ltb_spec a 0) as [?|_]; [lia|].
  destruct (Z.ltb_spec b 0) as [?|_]; [lia|].
  set (len := Z.of_nat (List.length l)).
  destruct (Z.le_gt_cases a len) as [Ha|Ha].
  - rewrite (Z.min_l a len) by lia.
    destruct (Z.le_gt_cases b len) as [Hb|Hb].
    + rewrite (Z.min_l b len), Z.max_l by lia. reflexivity.
    + rewrite (Z.min_r b len), Z.max_l by lia.
      rewrite !firstn_all2; try reflexivity; rewrite length_skipn; lia.
  - rewrite (Z.min_r a len) by lia.
    rewrite !skipn_all2 by lia. rewrite !firstn_nil. reflexivity.
Qed.

Lemma length_slice {A : Type} (l : list A) (a b : Z) :
  0 <= a <= b ->
  Z.of_nat (List.length (slice l a b)) =
  Z.max 0 (Z.min (b - a) (Z.of_nat (List.length l) - a)).
Proof.
  intros Hab. rewrite slice_firstn_skipn by assumption.
  rewrite length_firstn, length_skipn. lia.
Qed.

Lemma slice_sublist {A : Type} (l : list A) (a b : Z) :
  exists before after, l = before ++ slice l a b ++ after.
Proof.
  unfold slice.
  set (k := Z.to_nat _). set (n := Z.to_nat _).
  exists (firstn n l), (skipn k (skipn n l)).
  rewrite (firstn_skipn k (skipn n l)), firstn_skipn. reflexivity.
Qed.

(** ** Ranking *)

Lemma insert_perm (x : string * Z) l :
  Permutation (insert by_count_desc x l) (x :: l).
Proof.
  induction l as [|y l IH]; simpl.
  - apply Permutation_refl.
  - destruct (by_count_desc x y <=? 0).
    + apply Permutation_refl.
    + rewrite IH. apply perm_swap.
Qed.

Lemma sort_perm (l : list (string * Z)) :
  Permutation (sort by_count_desc l) l.
Proof.
  induction l as [|x l IH]; simpl.
  - constructor.
  - rewrite insert_perm. constructor. exact IH.
Qed.

Lemma insert_sorted (x : string * Z) l :
  StronglySorted count_ge l ->
  StronglySorted count_ge (insert by_count_desc x l).
Proof.
  induction 1 as [|y l Hs IH Hy]; simpl.
  - repeat constructor.
  - unfold by_count_desc at 1.
    destruct (Z.leb_spec (snd y - snd x) 0) as [Hle|Hgt].
    + constructor; [constructor; assumption|].
      constructor; [unfold count_ge; lia|].
      eapply Forall_impl; [|exact Hy].
      unfold count_ge; intros; lia.
    + constructor; [exact IH|].
      eapply Permutation_Forall; [symmetry; apply insert_perm|].
      constructor; [unfold count_ge; lia | exact Hy].
Qed.

Lemma sort_sorted (l : list (string * Z)) :
  StronglySorted count_ge (sort by_count_desc l).
Proof.
  induction l as [|x l IH]; simpl.
  - constructor.
  - apply insert_sorted, IH.
Qed.

Lemma insert_stable (c : Z) (x : string * Z) l :
  filter (has_count c) (insert by_count_desc x l) =
  filter (has_count c) (x :: l).
Proof.
  induction l as [|y l IH]; [reflexivity|].
  cbn [insert]. unfold by_count_desc at 1.
  destruct (Z.leb_spec (snd y - snd x) 0) as [Hle|Hgt]; [reflexivity|].
  cbn [filter] in *. rewrite IH. unfold has_count.
  destruct (Z.eqb_spec (snd x) c), (Z.eqb_spec (snd y) c);
    try reflexivity; lia.
Qed.

Lemma sort_stable (c : Z) (l : list (string * Z)) :
  filter (has_count c) (sort by_count_desc l) = filter (has_count c) l.
Proof.
  induction l as [|x l IH]; [reflexivity|].
  cbn [sort]. rewrite insert_stable. cbn [filter]. rewrite IH. reflexivity.
Qed.

(** A non-increasing list is determined by its classes of equal count: the
    stable descending arrangement of a list is unique, so [sort] is what
    any stable sorting algorithm returns under [by_count_desc]. *)
Lemma sorted_classes_unique (l1 l2 : list (string * Z)) :
  StronglySorted count_ge l1 ->
  StronglySorted count_ge l2 ->
  (forall c, filter (has_count c) l1 = filter (has_count c) l2) ->
  l1 = l2.
Proof.
  intros H1; revert l2.
  induction H1 as [|x l1 Hs1 IH Hx]; intros l2 H2 Hc.
  - destruct l2 as [|y l2]; [reflexivity|].
    specialize (Hc (snd y)). cbn in Hc. unfold has_count in Hc.
    rewrite Z.eqb_refl in Hc. discriminate.
  - destruct H2 as [|y l2 Hs2 Hy].
    + specialize (Hc (snd x)). cbn in Hc. unfold has_count in Hc.
      rewrite Z.eqb_refl in Hc. discriminate.
    + assert (Hxy : snd x = snd y).
      { pose proof (Hc (snd x)) as Cx. pose proof (Hc (snd y)) as Cy.
        cbn [filter] in Cx, Cy. unfold has_count in Cx, Cy.
        rewrite Z.eqb_refl in Cx, Cy.
        destruct (Z.eqb_spec (snd y) (snd x)) as [E|NE]; [congruence|].
        destruct (Z.eqb_spec (snd x) (snd y)) as [E'|_]; [congruence|].
        assert (In x (filter (fun e => snd e =? snd x) l2)) as Ix
            by (rewrite <- Cx; left; reflexivity).
        assert (In y (filter (fun e => snd e =? snd y) l1)) as Iy
            by (rewrite Cy; left; reflexivity).
        apply filter_In in Ix, Iy.
        rewrite Forall_forall in Hx, Hy.
        pose proof (Hy _ (proj1 Ix)). pose proof (Hx _ (proj1 Iy)).
        unfold count_ge in *. lia. }
      assert (x = y).
      { specialize (Hc (snd x)). cbn [filter] in Hc. unfold has_count in Hc.
        rewrite <- Hxy, Z.eqb_refl in Hc. congruence. }
      subst y. f_equal. apply IH; [exact Hs2|].
      intros c. specialize (Hc c). cbn [filter] in Hc.
      destruct (has_count c x); congruence.
Qed.

Lemma stable_sort_unique (l l' : list (string * Z)) :
  StronglySorted count_ge l' ->
  (forall c, filter (has_count c) l' = filter (has_count c) l) ->
  l' = sort by_count_desc l.
Proof.
  intros Hs Hc. apply sorted_classes_unique; [exact Hs|apply sort_sorted|].
  intros c. rewrite Hc, sort_stable. reflexivity.
Qed.


(** ** Sets and the repository selector *)

Lemma filter_filter {A : Type} (f g : A -> bool) (l : list A) :
  filter f (filter g l) = filter (fun x => g x && f x) l.
Proof.
  induction l as [|x l IH]; [reflexivity|].
  cbn [filter]. destruct (g x); cbn [filter andb]; rewrite IH; reflexivity.
Qed.

Lemma existsb_snoc (y x : string) (s : list string) :
  existsb (String.eqb y) (s ++ [x]) =
  existsb (String.eqb y) s || (y =? x)%string.
Proof.
  rewrite existsb_app. cbn. rewrite orb_false_r. reflexivity.
Qed.

Lemma fold_set_add (l s : list string) :
  fold_left set_add l s = s ++ filter (outside s) (new_Set l).
Proof.
  unfold new_Set. revert s.
  induction l as [|x l IH]; intros s.
  - cbn. rewrite app_nil_r. reflexivity.
  - cbn [fold_left]. rewrite (IH (set_add s x)), (IH (set_add [] x)).
    set (rest := fold_left set_add l []).
    change (set_add [] x) with [x]. cbn [app filter].
    replace (outside s x) with (negb (existsb (String.eqb x) s))
      by reflexivity.
    unfold set_add.
    destruct (existsb (String.eqb x) s) eqn:E; cbn [negb].
    + f_equal. rewrite filter_filter. apply filter_ext_in.
      intros y _. unfold outside. cbn [existsb]. rewrite orb_false_r.
      destruct (String.eqb_spec y x) as [->|_]; [|apply andb_true_l].
      rewrite E. reflexivity.
    + rewrite <- app_assoc. cbn [app]. do 2 f_equal.
      rewrite filter_filter. apply filter_ext_in.
      intros y _. unfold outside. rewrite existsb_snoc.
      cbn [existsb]. rewrite orb_false_r, negb_orb. apply andb_comm.
Qed.

Lemma new_Set_cons (x : string) (l : list string) :
  new_Set (x :: l) = x :: filter (differs x) (new_Set l).
Proof.
  unfold new_Set at 1. cbn [fold_left]. rewrite fold_set_add.
  cbn. f_equal. apply filter_ext. intros y. unfold outside, differs.
  cbn. rewrite orb_false_r. reflexivity.
Qed.

Lemma In_new_Set (r : string) (l : list string) :
  In r (new_Set l) <-> In r l.
Proof.
  clear tzOffset localeDate.
  induction l as [|x l IH]; [cbn; tauto|].
  rewrite new_Set_cons. cbn [In]. rewrite filter_In, IH. unfold differs.
  destruct (String.eqb_spec r x) as [->|Hne]; cbn.
  - tauto.
  - split; [intros [?|[? _]]; auto | intros [?|?]; auto].
Qed.

Lemma NoDup_new_Set (l : list string) : NoDup (new_Set l).
Proof.
  induction l as [|x l IH]; [constructor|].
  rewrite new_Set_cons. constructor.
  - rewrite filter_In. unfold differs. rewrite String.eqb_refl.
    intros [_ H]; discriminate.
  - apply NoDup_filter, IH.
Qed.

Lemma In_present_names (r : string) (data : list Event) :
  In r (present_names data) <->
  r <> "" /\ exists item, In item data /\ repository_name item = Some r.
Proof.
  unfold present_names. rewrite in_flat_map. split.
  - intros [o [Ho Hr]]. apply in_map_iff in Ho. destruct Ho as [item [Hi Hin]].
    destruct o as [n|]; [|contradiction]. cbn in Hr.
    destruct (String.eqb_spec n "") as [->|Hne]; cbn in Hr; [contradiction|].
    destruct Hr as [->|[]]. split; [exact Hne|]. exists item; auto.
  - intros [Hne [item [Hin Hi]]]. exists (Some r). split.
    + rewrite <- Hi. apply in_map, Hin.
    + cbn. destruct (String.eqb_spec r "") as [->|_]; [congruence|].
      left; reflexivity.
Qed.

(** C10.  The selector list is computed from the whole snapshot, whatever
    the filters and the page: it has no duplicates, its members are exactly
    the non-empty repository names that occur in the snapshot, an event
    without such a name adds nothing (so no entry stands for "Unknown"),
    and the names come in the order of their first occurrence: the name of
    the first event leads and is dropped from what the later events
    contribute. *)
Theorem repositories_first_seen (st : State) :
  NoDup (repositories st) /\
  (forall r, In r (repositories st) <->
             r <> "" /\
             exists item, In item (webhookData st) /\
                          repository_name item = Some r) /\
  (forall range repo page,
      repositories {| webhookData := webhookData st; timeRange := range;
                      selectedRepo := repo; currentPage := page |} =
      repositories st) /\
  repositories (setWebhookData [] st) = [] /\
  (forall item data,
      repositories (setWebhookData (item :: data) st) =
      if truthy (repository_name item)
      then repoName item ::
           filter (differs (repoName item))
             (repositories (setWebhookData data st))
      else repositories (setWebhookData data st)).
Proof.
  split; [apply NoDup_new_Set|].
  split.
  { intros r. unfold repositories. rewrite In_new_Set.
    apply In_present_names. }
  split; [reflexivity|].
  split; [reflexivity|].
  intros item data. unfold repositories, repoName, or_str, or_opt.
  cbn [setWebhookData webhookData]. unfold present_names.
  cbn [map flat_map].
  destruct (repository_name item) as [n|]; [|reflexivity].
  destruct (truthy (Some n)) eqn:E; [|reflexivity].
  cbn [app]. apply new_Set_cons.
Qed.

(** ** The today summary *)

(** C9.  Two renders that differ only in [timeRange] show the same count of
    today's events and the same count of teams that worked today (or fail
    alike): today's events are selected from the repository-filtered list,
    to which the time filter has not been applied. *)
Theorem today_summary_ignores_timeRange (st : State) (now : Z)
  (range1 range2 : string) :
  todaysActivity (setTimeRange range1 st) now =
  todaysActivity (setTimeRange range2 st) now /\
  teamsWorkedToday (setTimeRange range1 st) now =
  teamsWorkedToday (setTimeRange range2 st) now /\
  todaysEvents (setTimeRange range1 st) now =
  filter (fun item =>
            (toLocaleDateString (setHours0 (receivedAt item)) =?
             toLocaleDateString (setHours0 (Some now)))%string)
    (filteredData (webhookData st) (selectedRepo st)).
Proof.
  repeat split.
Qed.

(** ** Pagination *)

Lemma Math_ceil_div_rows (L : Z) : Math_ceil_div L rowsPerPage = (L + 9) / 10.
Proof.
  clear tzOffset localeDate.
  unfold Math_ceil_div, rowsPerPage, Qceiling, Qfloor. cbn.
  rewrite Z.mul_1_r. Z.to_euclidean_division_equations. lia.
Qed.

Lemma totalPages_ceil (st : State) (now : Z) :
  totalPages st now =
  (Z.of_nat (List.length (bundle_filteredData (bundle st now))) + 9) / 10.
Proof.
  apply Math_ceil_div_rows.
Qed.

Lemma length_paginatedData (st : State) (now : Z) :
  1 <= currentPage st ->
  Z.of_nat (List.length (paginatedData st now)) =
  Z.max 0 (Z.min rowsPerPage
             (Z.of_nat (List.length (bundle_filteredData (bundle st now)))
              - (currentPage st - 1) * rowsPerPage)).
Proof.
  intros Hp. unfold paginatedData.
  rewrite length_slice by (unfold rowsPerPage; lia).
  unfold rowsPerPage. lia.
Qed.

(** C7 (amended).  [totalPages] is the ceiling of [L / 10] for the list of
    length [L] that is paginated, hence [0] when [L = 0]; from page 1
    onwards the page holds [max 0 (min 10 (L - (currentPage - 1) * 10))]
    events, which is [min 10 (L - (currentPage - 1) * 10)] as long as the
    page starts within the list. *)
Theorem pagination_bounds (st : State) (now : Z) :
  let L := Z.of_nat (List.length (bundle_filteredData (bundle st now))) in
  let shown := Z.of_nat (List.length (paginatedData st now)) in
  totalPages st now = (L + 9) / 10 /\
  rowsPerPage * (totalPages st now - 1) < L <= rowsPerPage * totalPages st now /\
  (totalPages st now = 0 <-> L = 0) /\
  (1 <= currentPage st ->
   shown = Z.max 0 (Z.min rowsPerPage (L - (currentPage st - 1) * rowsPerPage))) /\
  (1 <= currentPage st -> (currentPage st - 1) * rowsPerPage <= L ->
   shown = Z.min rowsPerPage (L - (currentPage st - 1) * rowsPerPage)) /\
  0 <= shown <= rowsPerPage.
Proof.
  intros L shown.
  assert (Htp : totalPages st now = (L + 9) / 10)
    by apply totalPages_ceil.
  assert (HL : 0 <= L) by apply Nat2Z.is_nonneg.
  assert (Hshown : 1 <= currentPage st ->
            shown = Z.max 0 (Z.min rowsPerPage
                               (L - (currentPage st - 1) * rowsPerPage)))
    by apply length_paginatedData.
  assert (Hle : 0 <= shown <= rowsPerPage).
  { split; [apply Nat2Z.is_nonneg|].
    unfold shown, paginatedData, slice.
    rewrite length_firstn. unfold relative_index, rowsPerPage.
    destruct (Z.ltb_spec (currentPage st * 10) 0),
      (Z.ltb_spec ((currentPage st - 1) * 10) 0); lia. }
  rewrite Htp. unfold rowsPerPage in *.
  repeat split; try (Z.to_euclidean_division_equations; lia);
    try exact (proj1 Hle); try exact (proj2 Hle).
Qed.

(** C3 (amended).  The list returned for pagination is the
    repository-filtered list, to which the time filter has not been
    applied: [totalPages] and the page are computed from the events that
    pass the repository filter alone, and do not depend on [timeRange].
    The time-filtered events are among them. *)
Theorem pagination_source (st : State) (now : Z) :
  let source := filteredData (webhookData st) (selectedRepo st) in
  bundle_filteredData (bundle st now) = source /\
  (forall item, In item source <->
                In item (webhookData st) /\
                (selectedRepo st = "all" \/
                 repository_name item = Some (selectedRepo st))) /\
  totalPages st now =
    Math_ceil_div (Z.of_nat (List.length source)) rowsPerPage /\
  paginatedData st now =
    slice source ((currentPage st - 1) * rowsPerPage)
      (currentPage st * rowsPerPage) /\
  (forall range,
      totalPages (setTimeRange range st) now = totalPages st now /\
      paginatedData (setTimeRange range st) now = paginatedData st now) /\
  incl (timeFilteredData (webhookData st) (timeRange st) (selectedRepo st) now)
    source.
Proof.
  intros source. split; [reflexivity|]. split.
  { intros item. unfold source, filteredData.
    destruct (String.eqb_spec (selectedRepo st) "all") as [E|NE].
    - tauto.
    - rewrite filter_In. split.
      + intros [Hin Hn]. split; [exact Hin|]. right.
        destruct (repository_name item) as [n|]; [|discriminate].
        apply String.eqb_eq in Hn. congruence.
      + intros [Hin [E|Hn]]; [contradiction|]. split; [exact Hin|].
        rewrite Hn. apply String.eqb_refl. }
  split; [reflexivity|]. split; [reflexivity|].
  split; [intros range; split; reflexivity|].
  unfold timeFilteredData. apply incl_filter.
Qed.

(** C5 (amended).  Previous sets the page to [max 1 (p - 1)] and Next sets
    it to [min totalPages (p + 1)], both leaving the data and the filters
    alone, so from a page within [1, totalPages] both stay within that
    range.  Selecting a filter or receiving a snapshot
    leaves [currentPage] as it is; when [currentPage] then exceeds
    [totalPages] the page is empty, and the next request for Next sets the
    page to [totalPages].  The page is always a contiguous part of the
    paginated list. *)
Theorem page_navigation (st : State) (now : Z) :
  handlePrevPage st =
    {| webhookData := webhookData st; timeRange := timeRange st;
       selectedRepo := selectedRepo st;
       currentPage := Z.max 1 (currentPage st - 1) |} /\
  handleNextPage st now =
    {| webhookData := webhookData st; timeRange := timeRange st;
       selectedRepo := selectedRepo st;
       currentPage := Z.min (totalPages st now) (currentPage st + 1) |} /\
  1 <= currentPage (handlePrevPage st) /\
  currentPage (handleNextPage st now) <= totalPages st now /\
  (1 <= currentPage st <= totalPages st now ->
   1 <= currentPage (handlePrevPage st) <= totalPages st now /\
   1 <= currentPage (handleNextPage st now) <= totalPages st now) /\
  (forall range, currentPage (step now st (SelectTimeRange range)) =
                 currentPage st) /\
  (forall repo, currentPage (step now st (SelectRepo repo)) =
                currentPage st) /\
  (forall data, currentPage (step now st (Snapshot data)) = currentPage st) /\
  (totalPages st now < currentPage st ->
   paginatedData st now = [] /\
   currentPage (handleNextPage st now) = totalPages st now) /\
  (exists before after,
      bundle_filteredData (bundle st now) =
      before ++ paginatedData st now ++ after).
Proof.
  split; [reflexivity|]. split; [reflexivity|].
  cbn [handlePrevPage handleNextPage setCurrentPage currentPage step
       setTimeRange setSelectedRepo setWebhookData].
  split; [lia|]. split; [lia|]. split; [lia|].
  split; [reflexivity|]. split; [reflexivity|]. split; [reflexivity|].
  split; [|apply slice_sublist].
  intros Hgt. split; [|lia].
  pose proof (totalPages_ceil st now) as Htp.
  pose proof (Nat2Z.is_nonneg
                (List.length (bundle_filteredData (bundle st now)))) as HL.
  assert (Hp : 1 <= currentPage st)
    by (Z.to_euclidean_division_equations; lia).
  pose proof (length_paginatedData st now Hp) as Hshown.
  apply length_zero_iff_nil. unfold rowsPerPage in *.
  Z.to_euclidean_division_equations; lia.
Qed.

(** ** Missing fields *)

(** The render fails as soon as the page shows an event whose [repository]
    is present without a [name]. *)
Lemma render_TypeError (st : State) (now : Z) (item : Event) (r : Repository) :
  In item (paginatedData st now) ->
  repository item = Some r ->
  name r = None ->
  render st now = TypeError.
Proof.
  intros Hin Hr Hn.
  assert (Hrows : map_js table_row (paginatedData st now) = TypeError).
  { induction (paginatedData st now) as [|x l IH]; [contradiction|].
    cbn [map_js]. destruct Hin as [->|Hin].
    - unfold table_row, team_cell. rewrite Hr, Hn. reflexivity.
    - rewrite (IH Hin). destruct (table_row x); reflexivity. }
  unfold render. rewrite Hrows.
  destruct (teamsWorkedToday st now); reflexivity.
Qed.

Lemma map_js_Ok {A B : Type} (f : A -> JsResult B) (l : list A) :
  (forall x, In x l -> exists y, f x = Ok y) ->
  exists ys, map_js f l = Ok ys.
Proof.
  induction l as [|x l IH]; intros H.
  - exists []. reflexivity.
  - destruct (H x (or_introl eq_refl)) as [y Hy].
    destruct IH as [ys Hys]; [intros; apply H; right; assumption|].
    exists (y :: ys). cbn [map_js]. rewrite Hy, Hys. reflexivity.
Qed.

Lemma team_cell_Ok (item : Event) :
  (forall r, repository item = Some r -> name r <> None) ->
  exists t, team_cell item = Ok t.
Proof.
  intros H. unfold team_cell.
  destruct (repository item) as [r|]; [|eauto].
  specialize (H r eq_refl). destruct (name r); [eauto|congruence].
Qed.

(** It succeeds when every [repository] that is present has a [name],
    whatever else is missing. *)
Lemma render_Ok (st : State) (now : Z) :
  (forall item r, In item (webhookData st) -> repository item = Some r ->
                  name r <> None) ->
  exists v, render st now = Ok v.
Proof.
  intros H.
  assert (Hsrc : forall item, In item (bundle_filteredData (bundle st now)) ->
                              In item (webhookData st)).
  { intros item Hin.
    cbn [bundle processData bundle_filteredData] in Hin.
    unfold filteredData in Hin.
    destruct (selectedRepo st =? "all")%string; [exact Hin|].
    apply filter_In in Hin. tauto. }
  destruct (map_js_Ok team_cell (todaysEvents st now)) as [ts Hts].
  { intros item Hin. apply team_cell_Ok. intros r. apply H.
    apply Hsrc. unfold todaysEvents in Hin. apply filter_In in Hin. tauto. }
  destruct (map_js_Ok table_row (paginatedData st now)) as [rows Hrows].
  { intros item Hin.
    destruct (team_cell_Ok item) as [t Ht].
    - intros r. apply H. apply Hsrc.
      destruct (slice_sublist (bundle_filteredData (bundle st now))
                  ((currentPage st - 1) * rowsPerPage)
                  (currentPage st * rowsPerPage)) as (b & a & E).
      rewrite E. apply in_or_app. right. apply in_or_app. left. exact Hin.
    - unfold table_row. rewrite Ht. eexists. reflexivity. }
  unfold render, teamsWorkedToday. rewrite Hts. cbn [bind]. rewrite Hrows.
  eexists. reflexivity.
Qed.

(** ** The daily series *)

Lemma localDay_dayStart (d : Z) : localDay (dayStart d) = d.
Proof.
  unfold localDay, dayStart.
  replace (d * msPerDay - tzOffset + tzOffset) with (d * msPerDay) by lia.
  apply Z.div_mul. discriminate.
Qed.

Lemma dayStart_ltb (a b : Z) : (dayStart a <? dayStart b) = (a <? b).
Proof.
  unfold dayStart, msPerDay.
  destruct (Z.ltb_spec a b), (Z.ltb_spec (a * 86400000 - tzOffset)
                                (b * 86400000 - tzOffset)); lia.
Qed.

Lemma dayStart_geb (a b : Z) : (dayStart a >=? dayStart b) = (a >=? b).
Proof.
  rewrite !Z.geb_leb, !Z.leb_antisym, dayStart_ltb. reflexivity.
Qed.

Lemma dayStart_succ (d : Z) : dayStart d + 1 * msPerDay = dayStart (d + 1).
Proof.
  unfold dayStart. lia.
Qed.

Lemma dayStart_span (d0 d1 : Z) :
  (dayStart d1 - dayStart d0) / msPerDay = d1 - d0.
Proof.
  unfold dayStart.
  replace (d1 * msPerDay - tzOffset - (d0 * msPerDay - tzOffset))
    with ((d1 - d0) * msPerDay) by lia.
  apply Z.div_mul. discriminate.
Qed.

Lemma toLocaleDateString_midnight (t : Z) :
  toLocaleDateString (setHours0 (Some t)) = localeDate (localDay t).
Proof.
  cbn. rewrite localDay_dayStart. reflexivity.
Qed.

Lemma obj_get_increment (o : JsObject) (k k' : string) :
  obj_get (increment o k) k' =
  if (k =? k')%string then Some (or_zero (obj_get o k) + 1)
  else obj_get o k'.
Proof.
  induction o as [|[k0 v] o IH].
  - cbn. reflexivity.
  - rewrite increment_cons. cbn [obj_get].
    destruct (String.eqb_spec k0 k) as [->|Hne].
    + cbn [obj_get or_zero].
      destruct (String.eqb_spec k k'); reflexivity.
    + cbn [obj_get]. rewrite IH.
      destruct (String.eqb_spec k0 k') as [->|Hne'].
      * destruct (String.eqb_spec k k'); [congruence|reflexivity].
      * destruct (String.eqb_spec k k'); reflexivity.
Qed.

Lemma obj_set_fresh (o : JsObject) (k : string) (v : Z) :
  ~ In k (Object_keys o) -> obj_set o k v = o ++ [(k, v)].
Proof.
  clear tzOffset localeDate.
  induction o as [|[k0 v0] o IH]; intros Hk; [reflexivity|].
  cbn in Hk. cbn [obj_set app].
  destruct (String.eqb_spec k0 k) as [->|_]; [tauto|].
  rewrite IH by tauto. reflexivity.
Qed.

Lemma timeFilteredData_valid data range repo now :
  Forall valid (timeFilteredData data range repo now).
Proof.
  apply Forall_forall. intros item Hin.
  apply filter_In in Hin. destruct Hin as [_ Hge].
  unfold valid. destruct (receivedAt item); [discriminate|].
  cbn in Hge. discriminate.
Qed.

Lemma fold_right_min_snoc (a x : Z) (l : list Z) :
  fold_right Z.min a (l ++ [x]) = Z.min x (fold_right Z.min a l).
Proof.
  induction l as [|y l IH]; cbn; lia.
Qed.

Lemma fold_right_max_snoc (a x : Z) (l : list Z) :
  fold_right Z.max a (l ++ [x]) = Z.max x (fold_right Z.max a l).
Proof.
  induction l as [|y l IH]; cbn; lia.
Qed.

Lemma fold_right_min_le (a : Z) (l : list Z) :
  fold_right Z.min a l <= a /\
  Forall (fun x => fold_right Z.min a l <= x) l.
Proof.
  induction l as [|y l [IH1 IH2]]; cbn; [split; [lia|constructor]|].
  split; [lia|]. constructor; [lia|].
  eapply Forall_impl; [|exact IH2]. cbn; intros; lia.
Qed.

Lemma fold_right_max_ge (a : Z) (l : list Z) :
  a <= fold_right Z.max a l /\
  Forall (fun x => x <= fold_right Z.max a l) l.
Proof.
  induction l as [|y l [IH1 IH2]]; cbn; [split; [lia|constructor]|].
  split; [lia|]. constructor; [lia|].
  eapply Forall_impl; [|exact IH2]. cbn; intros; lia.
Qed.

Lemma dailyActivity_raw_snoc (l : list Event) (x : Event) :
  dailyActivity_raw (l ++ [x]) = daily_step (dailyActivity_raw l) x.
Proof.
  unfold dailyActivity_raw. rewrite fold_left_app. reflexivity.
Qed.

Lemma events_on_snoc (d : Z) (l : list Event) (x : Event) :
  events_on d (l ++ [x]) =
  events_on d l + (if day_of x =? d then 1 else 0).
Proof.
  unfold events_on. rewrite filter_app, length_app. cbn [filter].
  destruct (day_of x =? d); cbn [List.length]; lia.
Qed.

Lemma events_on_cons (d : Z) (x : Event) (l : list Event) :
  events_on d (x :: l) =
  (if day_of x =? d then 1 else 0) + events_on d l.
Proof.
  unfold events_on. cbn [filter].
  destruct (day_of x =? d); cbn [List.length]; lia.
Qed.

Lemma midnight_of_valid (item : Event) :
  valid item ->
  setHours0 (receivedAt item) = Some (dayStart (day_of item)).
Proof.
  unfold valid, day_of. destruct (receivedAt item); [reflexivity|congruence].
Qed.

Lemma raw_bounds (first : Event) (rest : list Event) :
  Forall valid (first :: rest) ->
  minDate (dailyActivity_raw (first :: rest)) =
    Some (Some (dayStart (fold_right Z.min (day_of first) (map day_of rest)))) /\
  maxDate (dailyActivity_raw (first :: rest)) =
    Some (Some (dayStart (fold_right Z.max (day_of first) (map day_of rest)))).
Proof.
  induction rest as [|x rest IH] using rev_ind; intros Hv.
  - apply Forall_inv in Hv. cbn. rewrite (midnight_of_valid _ Hv). auto.
  - rewrite app_comm_cons in Hv. apply Forall_app in Hv.
    destruct Hv as [Hv Hx]. apply Forall_inv in Hx.
    destruct (IH Hv) as [Hmin Hmax].
    rewrite app_comm_cons, dailyActivity_raw_snoc.
    cbn [daily_step minDate maxDate]. rewrite Hmin, Hmax.
    rewrite (midnight_of_valid _ Hx), map_app.
    cbn [map]. rewrite fold_right_min_snoc, fold_right_max_snoc.
    unfold date_gt. cbn [date_lt]. rewrite !dayStart_ltb.
    split.
    + destruct (Z.ltb_spec (day_of x)
                  (fold_right Z.min (day_of first) (map day_of rest)));
        do 3 f_equal; lia.
    + destruct (Z.ltb_spec
                  (fold_right Z.max (day_of first) (map day_of rest))
                  (day_of x));
        do 3 f_equal; lia.
Qed.

Section Injective.
(** Two days are not written alike. *)
Hypothesis localeDate_inj :
  forall d d', localeDate d = localeDate d' -> d = d'.

Lemma localeDate_eqb (d d' : Z) :
  (localeDate d =? localeDate d')%string = (d =? d').
Proof.
  destruct (String.eqb_spec (localeDate d) (localeDate d')) as [E|NE],
    (Z.eqb_spec d d') as [E'|NE']; try reflexivity.
  - elim NE'. apply localeDate_inj, E.
  - elim NE. rewrite E'. reflexivity.
Qed.

Lemma raw_counts (l : list Event) (d : Z) :
  Forall valid l ->
  or_zero (obj_get (daily_counts (dailyActivity_raw l)) (localeDate d)) =
  events_on d l.
Proof.
  induction l as [|x l IH] using rev_ind; intros Hv; [reflexivity|].
  apply Forall_app in Hv. destruct Hv as [Hv Hx]. apply Forall_inv in Hx.
  rewrite dailyActivity_raw_snoc, events_on_snoc.
  cbn [daily_step daily_counts].
  rewrite (midnight_of_valid _ Hx). cbn [toLocaleDateString].
  rewrite localDay_dayStart, obj_get_increment, localeDate_eqb.
  destruct (day_of x =? d) eqn:E.
  - apply Z.eqb_eq in E. subst d. cbn [or_zero]. rewrite (IH Hv). lia.
  - rewrite (IH Hv). lia.
Qed.

Lemma fill_loop_days (daily : JsObject) (d1 : Z) (m : nat) :
  forall (c : Z) (filled : JsObject) (n : nat),
    d1 - c + 1 = Z.of_nat m ->
    (m <= n)%nat ->
    (forall d, c <= d -> ~ In (localeDate d) (Object_keys filled)) ->
    fill_loop n daily (Some (dayStart d1)) (Some (dayStart c)) filled =
    filled ++
      map (fun d => (localeDate d, or_zero (obj_get daily (localeDate d))))
        (days_from c m).
Proof.
  induction m as [|m IH]; intros c filled n Hm Hn Hfresh.
  - cbn [days_from map]. rewrite app_nil_r.
    destruct n as [|n]; [reflexivity|].
    cbn [fill_loop]. unfold date_le. cbn [date_ge].
    rewrite dayStart_geb.
    destruct (Z.geb_spec d1 c); [lia|reflexivity].
  - destruct n as [|n]; [lia|].
    cbn [fill_loop]. unfold date_le. cbn [date_ge].
    rewrite dayStart_geb.
    destruct (Z.geb_spec d1 c); [|lia].
    cbn [toLocaleDateString addDays option_map].
    rewrite localDay_dayStart, dayStart_succ.
    rewrite obj_set_fresh by (apply Hfresh; lia).
    rewrite IH; [| lia | lia |].
    + rewrite <- app_assoc. reflexivity.
    + intros d Hd Hin. unfold Object_keys in Hin.
      rewrite map_app in Hin. apply in_app_or in Hin.
      destruct Hin as [Hin|[Hin|[]]].
      * apply (Hfresh d); [lia|exact Hin].
      * cbn in Hin. apply localeDate_inj in Hin. lia.
Qed.

Lemma sum_map_add {A : Type} (f g : A -> Z) (l : list A) :
  sum (map (fun x => f x + g x) l) = sum (map f l) + sum (map g l).
Proof.
  induction l as [|x l IH]; [reflexivity|].
  cbn [map]. unfold sum in *. cbn [fold_right]. lia.
Qed.

Lemma sum_on_day (d : Z) (n : nat) :
  forall c,
    sum (map (fun d' => if d =? d' then 1 else 0) (days_from c n)) =
    if (c <=? d) && (d <? c + Z.of_nat n) then 1 else 0.
Proof.
  induction n as [|n IH]; intros c.
  - cbn [days_from map sum fold_right].
    destruct (Z.leb_spec c d), (Z.ltb_spec d (c + Z.of_nat 0));
      cbn; try reflexivity; lia.
  - cbn [days_from map]. unfold sum in *. cbn [fold_right]. rewrite IH.
    destruct (Z.eqb_spec d c), (Z.leb_spec c d), (Z.leb_spec (c + 1) d),
      (Z.ltb_spec d (c + Z.of_nat (S n))),
      (Z.ltb_spec d (c + 1 + Z.of_nat n)); cbn; try reflexivity; lia.
Qed.

Lemma sum_events_on (c : Z) (n : nat) (l : list Event) :
  Forall (fun item => c <= day_of item < c + Z.of_nat n) l ->
  sum (map (fun d => events_on d l) (days_from c n)) =
  Z.of_nat (List.length l).
Proof.
  induction 1 as [|x l Hx Hl IH].
  - induction (days_from c n) as [|d ds IHd]; [reflexivity|].
    cbn in *. exact IHd.
  - rewrite (map_ext _ _ (fun d => events_on_cons d x l)).
    rewrite sum_map_add, IH, sum_on_day.
    destruct (Z.leb_spec c (day_of x)),
      (Z.ltb_spec (day_of x) (c + Z.of_nat n));
      cbn [andb List.length]; lia.
Qed.

Lemma filled_series (first : Event) (rest : list Event) (now : Z)
  (extra : nat) :
  Forall valid (first :: rest) ->
  filledDailyActivity_fuel extra (dailyActivity_raw (first :: rest)) now =
  map (fun d => (localeDate d, events_on d (first :: rest)))
    (days_between
       (fold_right Z.min (day_of first) (map day_of rest))
       (Z.max (fold_right Z.max (day_of first) (map day_of rest))
          (localDay now))).
Proof.
  intros Hv. destruct (raw_bounds first rest Hv) as [Hmin Hmax].
  set (d0 := fold_right Z.min (day_of first) (map day_of rest)) in *.
  set (dmax := fold_right Z.max (day_of first) (map day_of rest)) in *.
  assert (Hle : d0 <= dmax).
  { pose proof (proj1 (fold_right_min_le (day_of first) (map day_of rest))).
    pose proof (proj1 (fold_right_max_ge (day_of first) (map day_of rest))).
    unfold d0, dmax. lia. }
  unfold filledDailyActivity_fuel. rewrite Hmin, Hmax.
  cbn [setHours0 option_map]. unfold date_gt. cbn [date_lt].
  rewrite dayStart_ltb.
  set (d1 := Z.max dmax (localDay now)).
  match goal with
  | |- context [fill_loop _ _ ?e _ _] =>
      assert (Hend : e = Some (dayStart d1))
  end.
  { unfold d1.
    destruct (Z.ltb_spec (localDay now) dmax); f_equal; f_equal; lia. }
  rewrite Hend. cbn [fill_fuel]. rewrite dayStart_span.
  rewrite (fill_loop_days _ d1 (Z.to_nat (d1 - d0 + 1)));
    [| unfold d1; lia | lia | intros d _ []].
  cbn [app]. unfold days_between. apply map_ext.
  intros d. rewrite (raw_counts _ d Hv). reflexivity.
Qed.

(** Fixed-offset layer.  The events that pass both filters all carry a
    valid date.  When there is none the daily series is empty.  Otherwise its keys are the
    days from the earliest event's day to the later of the latest event's
    day and today, each once and in ascending order, every day is mapped
    to the number of filtered events on it (0 when there is none), and
    the counts add up to the number of filtered events.  The loop that
    fills the series ends by its own condition: more unrollings change
    nothing. *)
Theorem daily_series_complete (data : list Event) (range repo : string)
  (now : Z) :
  let events := timeFilteredData data range repo now in
  let series := dailyActivity (processData data range repo now) in
  Forall valid events /\
  match events with
  | [] => series = []
  | first :: rest =>
      let earliest := fold_right Z.min (day_of first) (map day_of rest) in
      let latest := fold_right Z.max (day_of first) (map day_of rest) in
      series =
      map (fun d => (localeDate d, events_on d events))
        (days_between earliest (Z.max latest (localDay now)))
  end /\
  sum (Object_values series) = Z.of_nat (List.length events) /\
  (forall extra,
      filledDailyActivity_fuel extra (dailyActivity_raw events) now =
      series).
Proof.
  intros events series.
  pose proof (timeFilteredData_valid data range repo now) as Hv.
  fold events in Hv.
  assert (Hs : series = filledDailyActivity_fuel 0
                          (dailyActivity_raw events) now) by reflexivity.
  split; [exact Hv|].
  destruct events as [|first rest] eqn:E.
  - split; [exact Hs|]. split; [rewrite Hs; reflexivity|].
    intros extra. rewrite Hs. reflexivity.
  - rewrite (filled_series first rest now 0 Hv) in Hs.
    split; [exact Hs|]. split.
    + rewrite Hs. unfold Object_values. rewrite map_map. cbn [snd].
      apply sum_events_on.
      destruct (fold_right_min_le (day_of first) (map day_of rest))
        as [Hm1 Hm2].
      destruct (fold_right_max_ge (day_of first) (map day_of rest))
        as [HM1 HM2].
      rewrite Forall_map in Hm2, HM2.
      constructor.
      * lia.
      * rewrite Forall_forall in *. intros item Hin.
        specialize (Hm2 item Hin). specialize (HM2 item Hin). lia.
    + intros extra. rewrite Hs. apply filled_series, Hv.
Qed.

End Injective.

(** * Further properties *)

(** ** Dictionaries *)

Lemma obj_get_set_same (o : JsObject) (k : string) (v : Z) :
  obj_get (obj_set o k v) k = Some v.
Proof.
  induction o as [|[k0 v0] o IH]; cbn.
  - rewrite String.eqb_refl. reflexivity.
  - destruct (String.eqb_spec k0 k) as [E|NE]; cbn.
    + rewrite (proj2 (String.eqb_eq k0 k) E). reflexivity.
    + rewrite (proj2 (String.eqb_neq k0 k) NE). exact IH.
Qed.

Lemma obj_get_set_other (o : JsObject) (k k' : string) (v : Z) :
  k <> k' -> obj_get (obj_set o k v) k' = obj_get o k'.
Proof.
  intros Hne. induction o as [|[k0 v0] o IH]; cbn.
  - rewrite (proj2 (String.eqb_neq k k') Hne). reflexivity.
  - destruct (String.eqb_spec k0 k) as [E|NE]; cbn.
    + subst k0. rewrite (proj2 (String.eqb_neq k k') Hne). reflexivity.
    + rewrite IH. reflexivity.
Qed.

Lemma obj_get_None (o : JsObject) (k : string) :
  obj_get o k = None <-> ~ In k (Object_keys o).
Proof.
  clear tzOffset localeDate.
  induction o as [|[k0 v0] o IH]; cbn.
  - tauto.
  - destruct (String.eqb_spec k0 k) as [E|NE].
    + split; [discriminate|]. intros H. elim H. left. exact E.
    + rewrite IH. tauto.
Qed.

Lemma keys_obj_set (o : JsObject) (k : string) (v : Z) :
  Object_keys (obj_set o k v) = set_add (Object_keys o) k.
Proof.
  unfold set_add, Object_keys.
  induction o as [|[k0 v0] o IH]; [reflexivity|].
  cbn [obj_set map fst existsb].
  rewrite (String.eqb_sym k k0).
  destruct (String.eqb_spec k0 k) as [E|NE]; cbn [orb map fst].
  - reflexivity.
  - rewrite IH.
    destruct (existsb (String.eqb k) (map fst o)); reflexivity.
Qed.

Lemma NoDup_set_add (s : list string) (x : string) :
  NoDup s -> NoDup (set_add s x).
Proof.
  intros Hs. unfold set_add.
  destruct (existsb (String.eqb x) s) eqn:E; [exact Hs|].
  apply NoDup_app; [exact Hs | repeat constructor; intros [] |].
  intros y Hy [->|[]].
  assert (existsb (String.eqb y) s = true); [|congruence].
  apply existsb_exists. exists y. split; [exact Hy|apply String.eqb_refl].
Qed.

(** Writing a key and reading it back yields the value written, other
    keys read as before, a key that is already present keeps its place and a
    new one goes last, and distinct keys stay distinct. *)
Theorem object_write_read (o : JsObject) (k : string) (v : Z) :
  obj_get (obj_set o k v) k = Some v /\
  (forall k', k <> k' -> obj_get (obj_set o k v) k' = obj_get o k') /\
  Object_keys (obj_set o k v) =
    match obj_get o k with
    | Some _ => Object_keys o
    | None => Object_keys o ++ [k]
    end /\
  (NoDup (Object_keys o) -> NoDup (Object_keys (obj_set o k v))).
Proof.
  split; [apply obj_get_set_same|].
  split; [intros k'; apply obj_get_set_other|].
  split.
  - rewrite keys_obj_set. unfold set_add.
    destruct (obj_get o k) eqn:G.
    + destruct (existsb (String.eqb k) (Object_keys o)) eqn:E; [reflexivity|].
      assert (H : ~ In k (Object_keys o)).
      { intros Hin.
        assert (existsb (String.eqb k) (Object_keys o) = true); [|congruence].
        apply existsb_exists. exists k. split; [exact Hin|apply String.eqb_refl]. }
      apply obj_get_None in H. congruence.
    + apply obj_get_None in G.
      destruct (existsb (String.eqb k) (Object_keys o)) eqn:E; [|reflexivity].
      apply existsb_exists in E. destruct E as [y [Hy E]].
      apply String.eqb_eq in E. subst y. contradiction.
  - intros Hnd. rewrite keys_obj_set. apply NoDup_set_add, Hnd.
Qed.

(** ** Tallies *)

Lemma tally_snoc {A : Type} (key : A -> string) (l : list A) (x : A) :
  tally key (l ++ [x]) = increment (tally key l) (key x).
Proof.
  unfold tally. rewrite fold_left_app. reflexivity.
Qed.

Lemma length_labelled_snoc {A : Type} (key : A -> string) (k : string)
  (l : list A) (x : A) :
  List.length (labelled key k (l ++ [x])) =
  (List.length (labelled key k l) + (if (key x =? k)%string then 1 else 0))%nat.
Proof.
  unfold labelled. rewrite filter_app, length_app. cbn [filter].
  destruct (key x =? k)%string; reflexivity.
Qed.

Lemma tally_get {A : Type} (key : A -> string) (l : list A) (k : string) :
  obj_get (tally key l) k =
  match labelled key k l with
  | [] => None
  | found => Some (Z.of_nat (List.length found))
  end.
Proof.
  assert (H : obj_get (tally key l) k =
              if Nat.eqb (List.length (labelled key k l)) 0 then None
              else Some (Z.of_nat (List.length (labelled key k l)))).
  { induction l as [|x l IH] using rev_ind; [reflexivity|].
    rewrite tally_snoc, obj_get_increment, length_labelled_snoc.
    destruct (String.eqb_spec (key x) k) as [E|NE].
    - rewrite <- E in IH. rewrite IH, <- E.
      destruct (List.length (labelled key (key x) l)) as [|n] eqn:L.
      + reflexivity.
      + cbn [Nat.eqb or_zero]. rewrite Nat.add_1_r. cbn [Nat.eqb].
        f_equal. lia.
    - rewrite IH, Nat.add_0_r. reflexivity. }
  rewrite H. destruct (labelled key k l); reflexivity.
Qed.

(** Association-list layer.  Whatever the categorizer, the tally maps a
    label to the number of events that carry it, and has no entry for a label that no event
    carries. *)
Theorem tally_counts {A : Type} (key : A -> string) (l : list A) (k : string) :
  or_zero (obj_get (tally key l) k) =
    Z.of_nat (List.length (labelled key k l)) /\
  (obj_get (tally key l) k = None <-> forall x, In x l -> key x <> k).
Proof.
  rewrite tally_get. split.
  - destruct (labelled key k l); reflexivity.
  - unfold labelled. destruct (filter _ l) as [|y found] eqn:F.
    + split; [|reflexivity]. intros _ x Hin E.
      assert (Hx : In x (filter (fun x => (key x =? k)%string) l)).
      { apply filter_In. split; [exact Hin|]. apply String.eqb_eq, E. }
      rewrite F in Hx. exact Hx.
    + split; [discriminate|]. intros H.
      assert (Hy : In y (filter (fun x => (key x =? k)%string) l))
        by (rewrite F; left; reflexivity).
      apply filter_In in Hy. destruct Hy as [Hin E].
      apply String.eqb_eq in E. elim (H y Hin E).
Qed.

Lemma keys_tally {A : Type} (key : A -> string) (l : list A) :
  Object_keys (tally key l) = new_Set (map key l).
Proof.
  unfold tally, new_Set.
  change (@nil string) with (Object_keys []) at 1.
  generalize (@nil (string * Z)) as o.
  induction l as [|x l IH]; intros o; [reflexivity|].
  cbn [fold_left map]. rewrite IH. unfold increment.
  rewrite keys_obj_set. reflexivity.
Qed.

Lemma positive_increment (o : JsObject) (k : string) :
  Forall (fun v => 1 <= v) (Object_values o) ->
  Forall (fun v => 1 <= v) (Object_values (increment o k)).
Proof.
  induction o as [|[k0 v0] o IH]; intros H.
  - repeat constructor. cbn. lia.
  - rewrite increment_cons. cbn in H. inversion H as [|? ? Hv Ho]; subst.
    destruct (k0 =? k)%string; cbn; constructor; auto. lia.
Qed.

Lemma positive_tally {A : Type} (key : A -> string) (l : list A) :
  Forall (fun v => 1 <= v) (Object_values (tally key l)).
Proof.
  induction l as [|x l IH] using rev_ind; [constructor|].
  rewrite tally_snoc. apply positive_increment, IH.
Qed.

(** Association-list layer.  The keys of a tally are the labels of the
    events, each once, in the order in which they first occur; every count
    is at least 1. *)
Theorem tally_keys {A : Type} (key : A -> string) (l : list A) :
  Object_keys (tally key l) = new_Set (map key l) /\
  NoDup (Object_keys (tally key l)) /\
  (forall k, In k (Object_keys (tally key l)) <-> exists x, In x l /\ key x = k) /\
  Forall (fun v => 1 <= v) (Object_values (tally key l)).
Proof.
  rewrite keys_tally.
  split; [reflexivity|]. split; [apply NoDup_new_Set|].
  split; [|apply positive_tally].
  intros k. rewrite In_new_Set, in_map_iff.
  split; intros [x [H1 H2]]; exists x; tauto.
Qed.


Lemma In_keys_tally {A : Type} (key : A -> string) (l : list A) (k : string) :
  In k (Object_keys (tally key l)) <-> exists x, In x l /\ key x = k.
Proof.
  clear tzOffset localeDate.
  rewrite keys_tally, In_new_Set, in_map_iff.
  split; intros [x [H1 H2]]; exists x; tauto.
Qed.

Lemma length_new_Set_le (l : list string) :
  (List.length (new_Set l) <= List.length l)%nat.
Proof.
  apply NoDup_incl_length; [apply NoDup_new_Set|].
  intros x. apply In_new_Set.
Qed.

Lemma length_new_Set_map (f : string -> string) (l : list string) :
  (List.length (new_Set (map f l)) <= List.length (new_Set l))%nat.
Proof.
  rewrite <- (length_map f (new_Set l)).
  apply NoDup_incl_length; [apply NoDup_new_Set|].
  intros x Hx. apply In_new_Set, in_map_iff in Hx.
  destruct Hx as [y [E Hy]]. apply in_map_iff. exists y.
  split; [exact E|]. apply In_new_Set, Hy.
Qed.

Lemma new_Set_nil_iff (l : list string) : new_Set l = [] <-> l = [].
Proof.
  split; [|intros ->; reflexivity].
  destruct l as [|x l]; [reflexivity|].
  rewrite new_Set_cons. discriminate.
Qed.

Lemma or_str_nonempty (a : option string) : or_str a "Unknown" <> "".
Proof.
  unfold or_str, or_opt, truthy. destruct a as [s|]; [|discriminate].
  destruct (String.eqb_spec s ""); cbn; [discriminate|assumption].
Qed.

(** Association-list layer.  Each of the three category charts has pairwise
    distinct labels,
    as many values as labels, no value below 1, and values that add up to
    [totalEvents]. *)
Theorem category_charts (st : State) (now : Z) :
  Forall (fun c => NoDup (chart_labels c) /\
                   List.length (chart_data c) = List.length (chart_labels c) /\
                   Forall (fun v => 1 <= v) (chart_data c) /\
                   sum (chart_data c) = totalEvents (bundle st now))
    [eventTypeChartData st now; repoActivityChartData st now;
     teamActivityChartData st now].
Proof.
  assert (H : forall key : Event -> string,
             let c := chart (tally key
                               (timeFilteredData (webhookData st) (timeRange st)
                                  (selectedRepo st) now)) in
             NoDup (chart_labels c) /\
             List.length (chart_data c) = List.length (chart_labels c) /\
             Forall (fun v => 1 <= v) (chart_data c) /\
             sum (chart_data c) = totalEvents (bundle st now)).
  { intros key. cbn [chart chart_labels chart_data].
    split; [rewrite keys_tally; apply NoDup_new_Set|].
    split; [unfold Object_values, Object_keys; rewrite !length_map; reflexivity|].
    split; [apply positive_tally|apply sum_tally]. }
  repeat constructor; apply H.
Qed.

(** Association-list layer.  [uniqueRepos] is the number of distinct
    repository labels among the filtered events; there are at most as many teams as repositories and at
    most as many repositories as events, and no repository exactly when
    there is no event. *)
Theorem unique_counts (data : list Event) (range repo : string) (now : Z) :
  let b := processData data range repo now in
  let events := timeFilteredData data range repo now in
  uniqueRepos b = Z.of_nat (List.length (new_Set (map repoName events))) /\
  uniqueTeams b = Z.of_nat (List.length (new_Set (map teamName events))) /\
  uniqueTeams b <= uniqueRepos b <= totalEvents b /\
  (uniqueRepos b = 0 <-> totalEvents b = 0) /\
  (uniqueTeams b = 0 <-> totalEvents b = 0).
Proof.
  cbn [processData uniqueRepos uniqueTeams totalEvents].
  set (events := timeFilteredData data range repo now).
  rewrite !keys_tally.
  split; [reflexivity|]. split; [reflexivity|].
  assert (Ht : map teamName events = map (string_slice 5) (map repoName events))
    by (rewrite map_map; reflexivity).
  pose proof (length_new_Set_map (string_slice 5) (map repoName events)) as H1.
  pose proof (length_new_Set_le (map repoName events)) as H2.
  rewrite <- Ht in H1. rewrite length_map in H2.
  split; [lia|].
  assert (Hnil : forall f : Event -> string,
             Z.of_nat (List.length (new_Set (map f events))) = 0 <->
             Z.of_nat (List.length events) = 0).
  { intros f. split; intros H.
    - assert (E : new_Set (map f events) = [])
        by (apply length_zero_iff_nil; lia).
      apply (proj1 (new_Set_nil_iff _)), map_eq_nil in E.
      rewrite E. reflexivity.
    - assert (E : events = []) by (apply length_zero_iff_nil; lia).
      rewrite E. reflexivity. }
  split; apply Hnil.
Qed.

(** X5.  The event-type, repository and user mappings never have the empty
    string as a key: an empty field counts as missing. *)
Theorem labels_not_empty (data : list Event) (range repo : string) (now : Z) :
  let b := processData data range repo now in
  ~ In "" (Object_keys (eventTypes b)) /\
  ~ In "" (Object_keys (repoActivity b)) /\
  ~ In "" (Object_keys (userActivity b)).
Proof.
  cbn [processData eventTypes repoActivity userActivity].
  repeat split; intros H; apply In_keys_tally in H;
    destruct H as [x [_ E]]; revert E; apply or_str_nonempty.
Qed.

(** ** Team labels of short names *)

Lemma string_slice_short (n : nat) (s : string) :
  (String.length s <= n)%nat -> string_slice n s = "".
Proof.
  revert s. induction n as [|n IH]; intros s H.
  - destruct s; [reflexivity|cbn in H; lia].
  - destruct s as [|c s]; [reflexivity|]. cbn in *. apply IH. lia.
Qed.

Lemma string_slice_long (n : nat) (s : string) :
  (n < String.length s)%nat -> string_slice n s <> "".
Proof.
  revert s. induction n as [|n IH]; intros s H.
  - destruct s; [cbn in H; lia|discriminate].
  - destruct s as [|c s]; [cbn in H; lia|]. cbn in *. apply IH. lia.
Qed.

(** X6.  A repository name of at most five characters leaves nothing after
    the prefix is removed: the team tally counts the event under the empty
    label, while the team cell of the table shows "Unknown".  For a longer
    name the two agree. *)
Theorem short_repository_names (item : Event) (n : string) :
  repository_name item = Some n ->
  n <> "" ->
  ((String.length n <= 5)%nat ->
   teamName item = "" /\ team_cell item = Ok "Unknown") /\
  ((5 < String.length n)%nat ->
   teamName item = string_slice 5 n /\ teamName item <> "" /\
   team_cell item = Ok (teamName item)).
Proof.
  intros Hn Hne.
  assert (Hrepo : repoName item = n).
  { unfold repoName, or_str, or_opt, truthy. rewrite Hn.
    destruct (String.eqb_spec n ""); [contradiction|reflexivity]. }
  assert (Hcell : team_cell item = Ok (or_str (Some (string_slice 5 n)) "Unknown")).
  { unfold team_cell. unfold repository_name in Hn.
    destruct (repository item) as [r|]; [|discriminate].
    rewrite Hn. reflexivity. }
  unfold teamName. rewrite Hrepo, Hcell. split; intros Hlen.
  - rewrite (string_slice_short 5 n Hlen). split; reflexivity.
  - pose proof (string_slice_long 5 n Hlen) as Hs.
    split; [reflexivity|]. split; [exact Hs|].
    unfold or_str, or_opt, truthy.
    destruct (String.eqb_spec (string_slice 5 n) ""); [contradiction|reflexivity].
Qed.

(** ** The two filters *)

Lemma filter_idem {A : Type} (f : A -> bool) (l : list A) :
  filter f (filter f l) = filter f l.
Proof.
  rewrite filter_filter. apply filter_ext. intros x. apply andb_diag.
Qed.

Lemma filter_comm {A : Type} (f g : A -> bool) (l : list A) :
  filter f (filter g l) = filter g (filter f l).
Proof.
  rewrite !filter_filter. apply filter_ext. intros x. apply andb_comm.
Qed.

(** X7.  The repository filter and the time filter can be applied in either
    order, and applying both a second time changes nothing. *)
Theorem filters_commute (data : list Event) (range repo : string) (now : Z) :
  timeFilteredData data range repo now =
    filteredData (filter (in_range range now) data) repo /\
  filteredData (filteredData data repo) repo = filteredData data repo /\
  timeFilteredData (timeFilteredData data range repo now) range repo now =
    timeFilteredData data range repo now.
Proof.
  unfold timeFilteredData, filteredData. fold (in_range range now).
  destruct (repo =? "all")%string.
  - split; [reflexivity|]. split; [reflexivity|]. apply filter_idem.
  - split; [apply filter_comm|]. split; [apply filter_idem|].
    rewrite !filter_filter. apply filter_ext. intros item.
    destruct (in_range range now item), (repository_name item) as [n|];
      cbn; try reflexivity.
    destruct (n =? repo)%string; reflexivity.
Qed.


Lemma filter_length_mono {A : Type} (f g : A -> bool) (l : list A) :
  (forall x, f x = true -> g x = true) ->
  incl (filter f l) (filter g l) /\
  (List.length (filter f l) <= List.length (filter g l))%nat.
Proof.
  clear tzOffset localeDate.
  intros H. split.
  - intros x Hx. apply filter_In in Hx. apply filter_In.
    split; [tauto|apply H; tauto].
  - induction l as [|x l IH]; [reflexivity|]. cbn [filter].
    destruct (f x) eqn:F.
    + rewrite (H x F). cbn [List.length]. lia.
    + destruct (g x); cbn [List.length]; lia.
Qed.

Lemma in_range_nest (r1 r2 : string) (now : Z) (c1 c2 : Z) :
  cutoffDate r1 now = Some c1 -> cutoffDate r2 now = Some c2 -> c2 <= c1 ->
  forall item, in_range r1 now item = true -> in_range r2 now item = true.
Proof.
  intros H1 H2 Hle item. unfold in_range. rewrite H1, H2.
  destruct (receivedAt item) as [t|]; cbn; [|discriminate].
  rewrite !Z.geb_leb. intros H. apply Z.leb_le in H. apply Z.leb_le. lia.
Qed.

(** X8.  The time ranges are nested: what the 24-hour range keeps the
    7-day range keeps, and what the 7-day range keeps the 30-day range
    keeps, so [totalEvents] cannot decrease along them; once the clock is 30
    days past the epoch the same holds from 30 days to all time. *)
Theorem time_ranges_nest (data : list Event) (repo : string) (now : Z) :
  let kept range := timeFilteredData data range repo now in
  let total range := totalEvents (processData data range repo now) in
  incl (kept "24h") (kept "7d") /\ total "24h" <= total "7d" /\
  incl (kept "7d") (kept "30d") /\ total "7d" <= total "30d" /\
  (30 * msPerDay <= now ->
   incl (kept "30d") (kept "all") /\ total "30d" <= total "all").
Proof.
  cbn [processData totalEvents]. unfold timeFilteredData.
  repeat match goal with
         | |- context [fun item => date_ge (receivedAt item) (cutoffDate ?r now)] =>
             change (fun item => date_ge (receivedAt item) (cutoffDate r now))
               with (in_range r now)
         end.
  assert (N : forall r1 r2 c1 c2,
             cutoffDate r1 now = Some c1 -> cutoffDate r2 now = Some c2 ->
             c2 <= c1 ->
             incl (filter (in_range r1 now) (filteredData data repo))
               (filter (in_range r2 now) (filteredData data repo)) /\
             Z.of_nat (List.length (filter (in_range r1 now)
                                      (filteredData data repo))) <=
             Z.of_nat (List.length (filter (in_range r2 now)
                                      (filteredData data repo)))).
  { intros r1 r2 c1 c2 H1 H2 Hle.
    destruct (filter_length_mono (in_range r1 now) (in_range r2 now)
                (filteredData data repo)
                (in_range_nest r1 r2 now c1 c2 H1 H2 Hle)) as [Hi Hl].
    split; [exact Hi|lia]. }
  destruct (N "24h" "7d" _ _ eq_refl eq_refl) as [A1 A2];
    [unfold msPerDay; lia|].
  destruct (N "7d" "30d" _ _ eq_refl eq_refl) as [B1 B2];
    [unfold msPerDay; lia|].
  repeat split; try assumption;
    destruct (N "30d" "all" _ _ eq_refl eq_refl) as [C1 C2];
    try assumption; unfold msPerDay in *; lia.
Qed.

(** Fixed-offset layer.  An event passes the time filter exactly when it
    passes the repository filter, its date is valid and it is not before
    the cutoff.  The cutoff of the all-time range is the epoch, and an
    event without a valid date passes under no range. *)
Theorem time_filter_membership (data : list Event) (range repo : string)
  (now : Z) (item : Event) :
  (In item (timeFilteredData data range repo now) <->
   In item (filteredData data repo) /\
   exists t c, receivedAt item = Some t /\
               cutoffDate range now = Some c /\ c <= t) /\
  (In item (timeFilteredData data "all" repo now) <->
   In item (filteredData data repo) /\
   exists t, receivedAt item = Some t /\ 0 <= t) /\
  (receivedAt item = None -> ~ In item (timeFilteredData data range repo now)).
Proof.
  assert (G : forall r, In item (timeFilteredData data r repo now) <->
                        In item (filteredData data repo) /\
                        exists t c, receivedAt item = Some t /\
                                    cutoffDate r now = Some c /\ c <= t).
  { intros r. unfold timeFilteredData. rewrite filter_In.
    apply and_iff_compat_l. split.
    - intros H. destruct (receivedAt item) as [t|]; [|discriminate].
      destruct (cutoffDate r now) as [c|]; [|discriminate].
      cbn in H. rewrite Z.geb_leb in H. apply Z.leb_le in H.
      exists t, c. auto.
    - intros (t & c & -> & -> & Hle). cbn. rewrite Z.geb_leb.
      apply Z.leb_le, Hle. }
  split; [apply G|]. split.
  - rewrite G. apply and_iff_compat_l. split.
    + intros (t & c & Ht & Hc & Hle). cbn in Hc. injection Hc as <-.
      exists t. auto.
    + intros (t & Ht & Hle). exists t, 0. auto.
  - intros Hnone Hin. apply G in Hin.
    destruct Hin as (_ & t & c & Ht & _). congruence.
Qed.

(** ** Pages *)

Lemma firstn_plus {A : Type} (a b : nat) (l : list A) :
  firstn (a + b) l = firstn a l ++ firstn b (skipn a l).
Proof.
  revert l. induction a as [|a IH]; intros l; [reflexivity|].
  destruct l as [|x l]; cbn.
  - rewrite firstn_nil. reflexivity.
  - rewrite IH. reflexivity.
Qed.

Lemma slice_page {A : Type} (l : list A) (k : nat) :
  slice l ((Z.of_nat (S k) - 1) * rowsPerPage) (Z.of_nat (S k) * rowsPerPage) =
  firstn 10 (skipn (10 * k) l).
Proof.
  unfold rowsPerPage. rewrite slice_firstn_skipn by lia.
  f_equal; [|f_equal]; lia.
Qed.

Lemma pages_prefix {A : Type} (l : list A) (k : nat) :
  flat_map (fun p => slice l ((p - 1) * rowsPerPage) (p * rowsPerPage))
    (map Z.of_nat (seq 1 k)) =
  firstn (10 * k) l.
Proof.
  induction k as [|k IH]; [reflexivity|].
  rewrite seq_S, map_app, flat_map_app, IH. cbn [map flat_map Nat.add].
  rewrite app_nil_r, slice_page.
  replace (10 * S k)%nat with (10 * k + 10)%nat by lia.
  rewrite firstn_plus. reflexivity.
Qed.

(** X10.  Pages 1 to [totalPages], one after the other, are the paginated
    list: every event of it is shown on exactly one page, in order. *)
Theorem pages_partition (st : State) (now : Z) :
  flat_map (page st now)
    (map Z.of_nat (seq 1 (Z.to_nat (totalPages st now)))) =
  bundle_filteredData (bundle st now).
Proof.
  unfold page, paginatedData. cbn [setCurrentPage currentPage].
  change (bundle (setCurrentPage _ st) now) with (bundle st now).
  rewrite pages_prefix. apply firstn_all2.
  pose proof (totalPages_ceil st now) as Htp.
  pose proof (Nat2Z.is_nonneg
                (List.length (bundle_filteredData (bundle st now)))) as HL.
  assert (Z.of_nat (List.length (bundle_filteredData (bundle st now))) <=
          10 * totalPages st now)
    by (rewrite Htp; Z.to_euclidean_division_equations; lia).
  lia.
Qed.

(** X11.  Every page before the last holds 10 events and the last page
    holds the remaining ones, at least 1. *)
Theorem page_sizes (st : State) (now : Z) (p : Z) :
  1 <= p <= totalPages st now ->
  let L := Z.of_nat (List.length (bundle_filteredData (bundle st now))) in
  let shown := Z.of_nat (List.length (page st now p)) in
  (p < totalPages st now -> shown = 10) /\
  (p = totalPages st now -> shown = L - 10 * (p - 1) /\ 1 <= shown <= 10).
Proof.
  intros Hp L shown.
  pose proof (totalPages_ceil st now) as Htp. fold L in Htp.
  assert (HL : 0 <= L) by apply Nat2Z.is_nonneg.
  assert (Hs : shown = Z.max 0 (Z.min 10 (L - (p - 1) * 10))).
  { unfold shown, page. rewrite length_paginatedData by (cbn; lia).
    reflexivity. }
  rewrite Htp in *.
  split; intros H; rewrite Hs; Z.to_euclidean_division_equations; lia.
Qed.

Lemma setCurrentPage_id (st : State) (f : Z -> Z) :
  f (currentPage st) = currentPage st -> setCurrentPage f st = st.
Proof.
  destruct st as [d r s p]. unfold setCurrentPage.
  cbn [webhookData timeRange selectedRepo currentPage].
  intros H. f_equal. exact H.
Qed.

(** X12.  Within the pages, Previous undoes Next and Next undoes Previous;
    neither touches the data or the filters. *)
Theorem prev_next_inverse (st : State) (now : Z) :
  (1 <= currentPage st < totalPages st now ->
   handlePrevPage (handleNextPage st now) = st) /\
  (1 < currentPage st <= totalPages st now ->
   handleNextPage (handlePrevPage st) now = st) /\
  bundle (handlePrevPage st) now = bundle st now /\
  bundle (handleNextPage st now) now = bundle st now.
Proof.
  destruct st as [d r s p].
  unfold handlePrevPage, handleNextPage, setCurrentPage, totalPages, bundle.
  cbn [webhookData timeRange selectedRepo currentPage].
  split; [|split; [|split; reflexivity]]; intros H; f_equal; lia.
Qed.

(** X13.  The handler behind a disabled button would change nothing, and
    an enabled button within the pages moves by exactly one page. *)
Theorem disabled_buttons (st : State) (now : Z) :
  (prevDisabled st = true -> handlePrevPage st = st) /\
  (nextDisabled st now = true -> handleNextPage st now = st) /\
  (1 <= currentPage st <= totalPages st now ->
   (prevDisabled st = false ->
    currentPage (handlePrevPage st) = currentPage st - 1) /\
   (nextDisabled st now = false ->
    currentPage (handleNextPage st now) = currentPage st + 1)).
Proof.
  unfold prevDisabled, nextDisabled.
  split; [|split].
  - intros H. apply Z.eqb_eq in H. apply setCurrentPage_id. lia.
  - intros H. apply Z.eqb_eq in H. apply setCurrentPage_id. lia.
  - intros Hp. cbn [handlePrevPage handleNextPage setCurrentPage currentPage].
    split; intros H; apply Z.eqb_neq in H; lia.
Qed.

(** X14.  When the paginated list is empty, [totalPages] is 0: on page 1
    the Next button is not disabled, it moves the page index to 0, the table
    stays empty, and Previous brings the index back to 1. *)
Theorem empty_list_navigation (st : State) (now : Z) :
  bundle_filteredData (bundle st now) = [] ->
  currentPage st = 1 ->
  totalPages st now = 0 /\
  paginatedData st now = [] /\
  nextDisabled st now = false /\
  currentPage (handleNextPage st now) = 0 /\
  paginatedData (handleNextPage st now) now = [] /\
  handlePrevPage (handleNextPage st now) = st.
Proof.
  intros He Hp.
  assert (Htp : totalPages st now = 0).
  { rewrite totalPages_ceil, He. reflexivity. }
  assert (Hempty : forall st', bundle st' now = bundle st now ->
                               paginatedData st' now = []).
  { intros st' E. unfold paginatedData. rewrite E, He. unfold slice.
    rewrite skipn_nil, firstn_nil. reflexivity. }
  split; [exact Htp|]. split; [apply Hempty; reflexivity|].
  split; [unfold nextDisabled; rewrite Htp, Hp; reflexivity|].
  split; [cbn; rewrite Htp, Hp; reflexivity|].
  split; [apply Hempty; reflexivity|].
  destruct st as [d r s p]. cbn in Hp. subst p.
  unfold handlePrevPage, handleNextPage, setCurrentPage.
  cbn [webhookData timeRange selectedRepo currentPage].
  rewrite Htp. reflexivity.
Qed.

(** X15.  Every repository that the selector offers has at least one event:
    selecting it gives a non-empty table, all of whose events belong to it
    (unless the repository is itself called "all"). *)
Theorem selector_sound (st : State) (now : Z) (r : string) :
  In r (repositories st) ->
  filteredData (webhookData st) r <> [] /\
  1 <= totalPages (setSelectedRepo r st) now /\
  (r <> "all" ->
   forall item, In item (filteredData (webhookData st) r) ->
                repository_name item = Some r).
Proof.
  intros Hr. unfold repositories in Hr.
  apply In_new_Set, In_present_names in Hr.
  destruct Hr as [Hne [item [Hin Hn]]].
  assert (Hitem : In item (filteredData (webhookData st) r)).
  { unfold filteredData. destruct (r =? "all")%string; [exact Hin|].
    apply filter_In. split; [exact Hin|]. rewrite Hn. apply String.eqb_refl. }
  assert (Hnil : filteredData (webhookData st) r <> [])
    by (intros E; rewrite E in Hitem; exact Hitem).
  split; [exact Hnil|]. split.
  - rewrite totalPages_ceil.
    change (bundle_filteredData (bundle (setSelectedRepo r st) now))
      with (filteredData (webhookData st) r).
    destruct (filteredData (webhookData st) r) as [|x l]; [congruence|].
    cbn [List.length]. Z.to_euclidean_division_equations. lia.
  - intros Hall x Hx. unfold filteredData in Hx.
    destruct (String.eqb_spec r "all") as [Eall|_]; [contradiction|].
    apply filter_In in Hx. destruct Hx as [_ Hx].
    destruct (repository_name x) as [m|]; [|discriminate].
    apply String.eqb_eq in Hx. congruence.
Qed.


(** ** Today's figures and failures *)

Lemma map_js_length {A B : Type} (f : A -> JsResult B) (l : list A) :
  forall ys, map_js f l = Ok ys -> List.length ys = List.length l.
Proof.
  induction l as [|x l IH]; intros ys H; cbn in H.
  - injection H as <-. reflexivity.
  - destruct (f x) as [y|]; [|discriminate]. cbn in H.
    destruct (map_js f l) as [ys'|]; [|discriminate]. cbn in H.
    injection H as <-. cbn. rewrite (IH ys' eq_refl). reflexivity.
Qed.

Lemma map_js_TypeError {A B : Type} (f : A -> JsResult B) (l : list A) :
  map_js f l = TypeError <-> exists x, In x l /\ f x = TypeError.
Proof.
  induction l as [|x l IH]; cbn.
  - split; [discriminate|intros [x [[] _]]].
  - destruct (f x) as [y|] eqn:F; cbn.
    + destruct (map_js f l) as [ys|]; cbn.
      * split; [discriminate|]. intros [z [[<-|Hz] Fz]]; [congruence|].
        assert (C : Ok ys = TypeError :> JsResult (list B))
          by (apply (proj2 IH); exists z; auto).
        discriminate.
      * split; [|reflexivity]. intros _.
        destruct (proj1 IH eq_refl) as [z [Hz Fz]]. exists z. auto.
    + split; [|reflexivity]. intros _. exists x. auto.
Qed.

Lemma team_cell_TypeError (item : Event) :
  team_cell item = TypeError <-> nameless item = true.
Proof.
  unfold team_cell, nameless.
  destruct (repository item) as [r|]; [|split; discriminate].
  destruct (name r); split; try discriminate; reflexivity.
Qed.

Lemma table_row_TypeError (item : Event) :
  table_row item = TypeError <-> nameless item = true.
Proof.
  rewrite <- team_cell_TypeError. unfold table_row.
  destruct (team_cell item); split; try discriminate; reflexivity.
Qed.

(** X16.  When it can be computed, the number of teams that worked today is
    at most the number of today's events, and it is 0 exactly when there is
    no event today. *)
Theorem teams_today_bounds (st : State) (now : Z) (n : Z) :
  teamsWorkedToday st now = Ok n ->
  0 <= n <= todaysActivity st now /\
  (n = 0 <-> todaysActivity st now = 0).
Proof.
  unfold teamsWorkedToday, todaysActivity.
  destruct (map_js team_cell (todaysEvents st now)) as [teams|] eqn:M;
    [|discriminate].
  cbn [bind]. intros H. injection H as <-.
  apply map_js_length in M. rewrite <- M.
  pose proof (length_new_Set_le teams) as Hle.
  split; [lia|]. split; intros H.
  - assert (E : new_Set teams = []) by (apply length_zero_iff_nil; lia).
    apply (proj1 (new_Set_nil_iff teams)) in E. rewrite E. reflexivity.
  - assert (E : teams = []) by (apply length_zero_iff_nil; lia).
    rewrite E. reflexivity.
Qed.

(** X17.  The render throws exactly when one of today's events or one of
    the events on the current page has a [repository] without a [name]; an
    event that is neither of today nor on the page cannot make it fail. *)
Theorem render_throws_iff (st : State) (now : Z) :
  render st now = TypeError <->
  exists item, In item (todaysEvents st now ++ paginatedData st now) /\
               nameless item = true.
Proof.
  assert (Ht : teamsWorkedToday st now = TypeError <->
               exists item, In item (todaysEvents st now) /\
                            nameless item = true).
  { unfold teamsWorkedToday. split.
    - intros H.
      destruct (map_js team_cell (todaysEvents st now)) eqn:M; [discriminate|].
      apply map_js_TypeError in M. destruct M as [item [Hin F]].
      exists item. split; [exact Hin|]. apply team_cell_TypeError, F.
    - intros [item [Hin Hn]].
      assert (M : map_js team_cell (todaysEvents st now) = TypeError).
      { apply map_js_TypeError. exists item. split; [exact Hin|].
        apply team_cell_TypeError, Hn. }
      rewrite M. reflexivity. }
  assert (Hr : map_js table_row (paginatedData st now) = TypeError <->
               exists item, In item (paginatedData st now) /\
                            nameless item = true).
  { rewrite map_js_TypeError. split; intros [item [Hin H]]; exists item;
      (split; [exact Hin|]); apply table_row_TypeError; exact H. }
  split.
  - intros H. unfold render in H.
    destruct (teamsWorkedToday st now) as [n|] eqn:T.
    + cbn in H.
      destruct (map_js table_row (paginatedData st now)) as [rows|] eqn:R;
        [discriminate|].
      destruct (proj1 Hr eq_refl) as [item [Hin Hn]].
      exists item. split; [apply in_or_app; right; exact Hin|exact Hn].
    + destruct (proj1 Ht eq_refl) as [item [Hin Hn]].
      exists item. split; [apply in_or_app; left; exact Hin|exact Hn].
  - intros [item [Hin Hn]]. unfold render.
    apply in_app_or in Hin. destruct Hin as [Hin|Hin].
    + rewrite (proj2 Ht (ex_intro _ item (conj Hin Hn))). reflexivity.
    + rewrite (proj2 Hr (ex_intro _ item (conj Hin Hn))).
      destruct (teamsWorkedToday st now); reflexivity.
Qed.

(** ** The leaderboard *)

Lemma In_entry_get (o : JsObject) (k : string) (v : Z) :
  NoDup (Object_keys o) -> (In (k, v) o <-> obj_get o k = Some v).
Proof.
  induction o as [|[k0 v0] o IH]; intros Hnd; cbn.
  - split; [intros []|discriminate].
  - cbn in Hnd. inversion Hnd as [|? ? Hk0 Hnd']; subst.
    destruct (String.eqb_spec k0 k) as [->|NE].
    + split.
      * intros [E|Hin]; [congruence|].
        elim Hk0. apply (in_map fst) in Hin. exact Hin.
      * intros E. left. congruence.
    + rewrite <- (IH Hnd'). split; [intros [E|Hin]; [congruence|exact Hin]|].
      intros Hin. right. exact Hin.
Qed.

Lemma sum_Permutation (l l' : list Z) : Permutation l l' -> sum l = sum l'.
Proof.
  unfold sum. induction 1; cbn; lia.
Qed.

(** Association-list layer.  Every user of the filtered events is on the
    leaderboard exactly once, with the number of their events; the contributions on the
    leaderboard add up to [totalEvents]. *)
Theorem leaderboard_complete (st : State) (now : Z) :
  let events := timeFilteredData (webhookData st) (timeRange st)
                  (selectedRepo st) now in
  NoDup (map fst (leaderboard st now)) /\
  (forall user count,
      In (user, count) (leaderboard st now) <->
      1 <= count /\
      count = Z.of_nat (List.length (labelled username user events))) /\
  sum (map snd (leaderboard st now)) = totalEvents (bundle st now).
Proof.
  intros events. unfold leaderboard, ranking, Object_entries.
  cbn [bundle processData userActivity totalEvents]. fold events.
  pose proof (sort_perm (tally username events)) as P.
  assert (Hnd : NoDup (Object_keys (tally username events)))
    by (rewrite keys_tally; apply NoDup_new_Set).
  split.
  { eapply Permutation_NoDup; [|exact Hnd].
    symmetry. apply Permutation_map, P. }
  split.
  { intros user count. split.
    - intros Hin. apply (Permutation_in _ P) in Hin.
      apply (In_entry_get _ _ _ Hnd) in Hin. rewrite tally_get in Hin.
      destruct (labelled username user events) as [|x found];
        [discriminate|].
      injection Hin as <-. cbn [List.length]. split; lia.
    - intros [H1 ->]. apply (Permutation_in _ (Permutation_sym P)).
      apply (In_entry_get _ _ _ Hnd). rewrite tally_get.
      destruct (labelled username user events) as [|x found];
        [cbn in H1; lia|reflexivity]. }
  rewrite (sum_Permutation _ _ (Permutation_map snd P)). apply sum_tally.
Qed.



(** ** The component *)

(** X20.  The spinner is shown as long as the subscription has neither
    delivered nor failed, and never again afterwards; a failure leaves the
    data, the filters and the page as they were. *)
Theorem spinner_until_first_signal (now : Z) (signals : list Signal)
  (c : Component) :
  loading (fold_left (receive now) signals c) =
    loading c && forallb from_user signals /\
  (Dashboard (fold_left (receive now) signals c) now = Spinner <->
   loading c && forallb from_user signals = true) /\
  component_state (receive now c Failed) = component_state c.
Proof.
  assert (H : loading (fold_left (receive now) signals c) =
              loading c && forallb from_user signals).
  { revert c. induction signals as [|s signals IH]; intros c.
    - cbn. rewrite andb_true_r. reflexivity.
    - cbn [fold_left forallb]. rewrite IH.
      destruct s; cbn; rewrite ?andb_false_r; reflexivity. }
  split; [exact H|]. split; [|reflexivity].
  unfold Dashboard. rewrite H.
  destruct (loading c && forallb from_user signals);
    split; try reflexivity; discriminate.
Qed.

Lemma totalPages_nonneg (st : State) (now : Z) : 0 <= totalPages st now.
Proof.
  rewrite totalPages_ceil.
  pose proof (Nat2Z.is_nonneg
                (List.length (bundle_filteredData (bundle st now)))).
  Z.to_euclidean_division_equations. lia.
Qed.

Lemma step_page_nonneg (now : Z) (st : State) (a : Action) :
  0 <= currentPage st -> 0 <= currentPage (step now st a).
Proof.
  intros H. pose proof (totalPages_nonneg st now).
  destruct a; cbn; lia.
Qed.

(** X21.  Whatever the user does and whatever the subscription delivers,
    the page index never becomes negative; on page 0 the table is empty. *)
Theorem page_never_negative (now : Z) (actions : list Action) :
  let st := run now initialState actions in
  0 <= currentPage st /\
  (currentPage st = 0 -> paginatedData st now = []).
Proof.
  cbv zeta. split.
  - unfold run.
    assert (G : forall st, 0 <= currentPage st ->
                           0 <= currentPage (fold_left (step now) actions st)).
    { induction actions as [|a actions IH]; intros st H; [exact H|].
      cbn [fold_left]. apply IH, step_page_nonneg, H. }
    apply G. cbn. lia.
  - intros H. unfold paginatedData. rewrite H. unfold slice, relative_index.
    cbn [Z.ltb Z.mul Z.sub Z.compare Z.add Z.opp Z.pos_sub rowsPerPage].
    change ((0 - 1) * rowsPerPage <? 0) with true.
    change (0 * rowsPerPage <? 0) with false.
    cbv iota. rewrite Z.min_l by lia.
    replace (Z.max (0 - _) 0) with 0 by lia. reflexivity.
Qed.


(** ** Today and the daily series; the order of the snapshot *)

Lemma In_days_from (d : Z) (n : nat) :
  forall c, In d (days_from c n) <-> c <= d < c + Z.of_nat n.
Proof.
  induction n as [|n IH]; intros c; cbn [days_from In].
  - lia.
  - rewrite IH. lia.
Qed.

Lemma day_bounds (t : Z) :
  dayStart (localDay t) <= t < dayStart (localDay t) + msPerDay.
Proof.
  unfold dayStart, localDay, msPerDay.
  Z.to_euclidean_division_equations. lia.
Qed.

Lemma cutoffDate_cases (range : string) (now : Z) :
  exists c, cutoffDate range now = Some c /\
            (c = 0 \/ now - 30 * msPerDay <= c <= now - msPerDay).
Proof.
  unfold cutoffDate.
  destruct (range =? "24h")%string; [|destruct (range =? "7d")%string;
    [|destruct (range =? "30d")%string]];
    cbn; eexists; (split; [reflexivity|]); unfold msPerDay; lia.
Qed.

Lemma is_today_in_range (range : string) (now : Z) (item : Event) :
  0 <= dayStart (localDay now) ->
  is_today now item = true -> in_range range now item = true.
Proof.
  intros H0. unfold is_today, in_range.
  destruct (receivedAt item) as [t|]; [|discriminate].
  intros E. apply Z.eqb_eq in E.
  destruct (cutoffDate_cases range now) as [c [-> Hc]].
  cbn. rewrite Z.geb_leb. apply Z.leb_le.
  pose proof (day_bounds t). pose proof (day_bounds now).
  rewrite E in *. lia.
Qed.

Lemma filter_Permutation {A : Type} (f : A -> bool) (l l' : list A) :
  Permutation l l' -> Permutation (filter f l) (filter f l').
Proof.
  induction 1 as [|x l l' P IH|x y l|l l' l'' P1 IH1 P2 IH2]; cbn.
  - constructor.
  - destruct (f x); [constructor|]; exact IH.
  - destruct (f x), (f y); try apply Permutation_refl. apply perm_swap.
  - eapply Permutation_trans; eassumption.
Qed.

Lemma fold_right_min_In (a : Z) (l : list Z) :
  In (fold_right Z.min a l) (a :: l).
Proof.
  induction l as [|y l IH]; [left; reflexivity|].
  cbn [fold_right].
  destruct (Z.min_spec y (fold_right Z.min a l)) as [[_ ->]|[_ ->]].
  - right; left; reflexivity.
  - destruct IH as [E|Hin]; [left; exact E|right; right; exact Hin].
Qed.

Lemma fold_right_max_In (a : Z) (l : list Z) :
  In (fold_right Z.max a l) (a :: l).
Proof.
  induction l as [|y l IH]; [left; reflexivity|].
  cbn [fold_right].
  destruct (Z.max_spec y (fold_right Z.max a l)) as [[_ ->]|[_ ->]].
  - destruct IH as [E|Hin]; [left; exact E|right; right; exact Hin].
  - right; left; reflexivity.
Qed.

Lemma min_lower_bound (a : Z) (l : list Z) (x : Z) :
  In x (a :: l) -> fold_right Z.min a l <= x.
Proof.
  destruct (fold_right_min_le a l) as [H1 H2]. rewrite Forall_forall in H2.
  intros [<-|Hin]; [exact H1|apply H2, Hin].
Qed.

Lemma max_upper_bound (a : Z) (l : list Z) (x : Z) :
  In x (a :: l) -> x <= fold_right Z.max a l.
Proof.
  destruct (fold_right_max_ge a l) as [H1 H2]. rewrite Forall_forall in H2.
  intros [<-|Hin]; [exact H1|apply H2, Hin].
Qed.

Lemma fold_right_min_Permutation (a a' : Z) (l l' : list Z) :
  Permutation (a :: l) (a' :: l') ->
  fold_right Z.min a l = fold_right Z.min a' l'.
Proof.
  intros P.
  pose proof (min_lower_bound a' l' _
                (Permutation_in _ P (fold_right_min_In a l))).
  pose proof (min_lower_bound a l _
                (Permutation_in _ (Permutation_sym P) (fold_right_min_In a' l'))).
  lia.
Qed.

Lemma fold_right_max_Permutation (a a' : Z) (l l' : list Z) :
  Permutation (a :: l) (a' :: l') ->
  fold_right Z.max a l = fold_right Z.max a' l'.
Proof.
  intros P.
  pose proof (max_upper_bound a' l' _
                (Permutation_in _ P (fold_right_max_In a l))).
  pose proof (max_upper_bound a l _
                (Permutation_in _ (Permutation_sym P) (fold_right_max_In a' l'))).
  lia.
Qed.

Lemma events_on_Permutation (d : Z) (l l' : list Event) :
  Permutation l l' -> events_on d l = events_on d l'.
Proof.
  intros P. unfold events_on. f_equal.
  apply Permutation_length, filter_Permutation, P.
Qed.

Lemma timeFilteredData_Permutation (data data' : list Event)
  (range repo : string) (now : Z) :
  Permutation data data' ->
  Permutation (timeFilteredData data range repo now)
    (timeFilteredData data' range repo now).
Proof.
  intros P. unfold timeFilteredData, filteredData.
  destruct (repo =? "all")%string; repeat apply filter_Permutation; exact P.
Qed.

Lemma tally_get_Permutation {A : Type} (key : A -> string) (l l' : list A)
  (k : string) :
  Permutation l l' -> obj_get (tally key l) k = obj_get (tally key l') k.
Proof.
  intros P. rewrite !tally_get.
  pose proof (filter_Permutation (fun x => (key x =? k)%string) l l' P) as Q.
  fold (labelled key k l) in Q. fold (labelled key k l') in Q.
  pose proof (Permutation_length Q) as L.
  destruct (labelled key k l), (labelled key k l'); cbn in L;
    try discriminate; [reflexivity|].
  cbn [List.length]. rewrite L. reflexivity.
Qed.

Lemma filter_nil {A : Type} (f : A -> bool) (l : list A) :
  (forall x, In x l -> f x = false) -> filter f l = [].
Proof.
  induction l as [|x l IH]; intros H; [reflexivity|].
  cbn. rewrite (H x (or_introl eq_refl)). apply IH.
  intros y Hy. apply H. right. exact Hy.
Qed.

Section Locale.
(** Two days are not written alike, and no day is written "Invalid Date". *)
Hypothesis localeDate_inj :
  forall d d', localeDate d = localeDate d' -> d = d'.
Hypothesis localeDate_valid : forall d, localeDate d <> "Invalid Date".

Lemma today_test (now : Z) (item : Event) :
  (toLocaleDateString (setHours0 (receivedAt item)) =?
   toLocaleDateString (setHours0 (Some now)))%string = is_today now item.
Proof.
  rewrite (toLocaleDateString_midnight now). unfold is_today.
  destruct (receivedAt item) as [t|].
  - rewrite toLocaleDateString_midnight.
    apply (localeDate_eqb localeDate_inj).
  - cbn [setHours0 option_map toLocaleDateString].
    apply String.eqb_neq. intros E. symmetry in E.
    revert E. apply localeDate_valid.
Qed.

Lemma obj_get_days (f : Z -> Z) (ds : list Z) (d : Z) :
  or_zero (obj_get (map (fun d' => (localeDate d', f d')) ds) (localeDate d)) =
  if existsb (Z.eqb d) ds then f d else 0.
Proof.
  induction ds as [|d' ds IH]; [reflexivity|].
  cbn [map obj_get existsb]. rewrite (localeDate_eqb localeDate_inj).
  rewrite (Z.eqb_sym d d').
  destruct (Z.eqb_spec d' d) as [->|NE]; [reflexivity|exact IH].
Qed.

(** Fixed-offset layer.  The count of today's events on the card is the
    value of the daily series at today's date, whatever the time range (the
    clock being past the first day of the epoch). *)
Theorem today_agrees_with_series (st : State) (now : Z) :
  0 <= dayStart (localDay now) ->
  todaysActivity st now =
  or_zero (obj_get (dailyActivity (bundle st now))
             (toLocaleDateString (setHours0 (Some now)))).
Proof.
  intros H0.
  set (events := timeFilteredData (webhookData st) (timeRange st)
                   (selectedRepo st) now).
  assert (Hv : Forall valid events) by apply timeFilteredData_valid.
  assert (Hcount : todaysActivity st now = events_on (localDay now) events).
  { unfold todaysActivity, todaysEvents, events_on. f_equal. f_equal.
    rewrite (filter_ext _ _ (today_test now)).
    change (bundle_filteredData (bundle st now))
      with (filteredData (webhookData st) (selectedRepo st)).
    unfold events, timeFilteredData.
    fold (in_range (timeRange st) now).
    rewrite filter_filter. apply filter_ext. intros item.
    assert (D : (day_of item =? localDay now) && negb (is_today now item)
                && in_range (timeRange st) now item = false).
    { unfold is_today, day_of, in_range.
      destruct (receivedAt item); cbn [or_zero date_ge].
      - destruct (localDay z =? localDay now); reflexivity.
      - apply andb_false_r. }
    assert (T : is_today now item = true ->
                (day_of item =? localDay now) = true).
    { unfold is_today, day_of. destruct (receivedAt item); [|discriminate].
      intros T; exact T. }
    destruct (is_today now item) eqn:I.
    - rewrite (is_today_in_range _ _ _ H0 I), (T eq_refl). reflexivity.
    - cbn [negb] in D.
      destruct (in_range (timeRange st) now item),
        (day_of item =? localDay now); try reflexivity; discriminate. }
  rewrite Hcount, toLocaleDateString_midnight.
  change (dailyActivity (bundle st now))
    with (filledDailyActivity_fuel 0 (dailyActivity_raw events) now).
  destruct events as [|first rest] eqn:E; [reflexivity|].
  rewrite (filled_series localeDate_inj first rest now 0 Hv), obj_get_days.
  destruct (existsb (Z.eqb (localDay now)) _) eqn:X; [reflexivity|].
  assert (Hout : ~ In (localDay now)
                   (days_between
                      (fold_right Z.min (day_of first) (map day_of rest))
                      (Z.max (fold_right Z.max (day_of first) (map day_of rest))
                         (localDay now)))).
  { intros Hin.
    assert (existsb (Z.eqb (localDay now))
              (days_between
                 (fold_right Z.min (day_of first) (map day_of rest))
                 (Z.max (fold_right Z.max (day_of first) (map day_of rest))
                    (localDay now))) = true); [|congruence].
    apply existsb_exists. exists (localDay now).
    split; [exact Hin|apply Z.eqb_refl]. }
  unfold days_between in Hout. rewrite In_days_from in Hout.
  unfold events_on. rewrite filter_nil; [reflexivity|].
  intros item Hin. apply Z.eqb_neq. intros D.
  pose proof (min_lower_bound (day_of first) (map day_of rest) (day_of item)
                (in_map day_of _ _ Hin)).
  lia.
Qed.

Lemma keys_tally_Permutation {A : Type} (key : A -> string) (l l' : list A) :
  Permutation l l' ->
  Permutation (Object_keys (tally key l)) (Object_keys (tally key l')).
Proof.
  intros P. rewrite !keys_tally.
  apply NoDup_Permutation; try apply NoDup_new_Set.
  intros k. rewrite !In_new_Set.
  split; apply Permutation_in, Permutation_map;
    [exact P|apply Permutation_sym, P].
Qed.

(** Association-list layer.  A reordered snapshot gives the same
    [totalEvents], the same daily series, the same count for every label of
    every mapping, and the same numbers of repositories and teams. *)
Theorem snapshot_order_irrelevant (data data' : list Event)
  (range repo : string) (now : Z) :
  Permutation data data' ->
  let b := processData data range repo now in
  let b' := processData data' range repo now in
  totalEvents b = totalEvents b' /\
  dailyActivity b = dailyActivity b' /\
  (forall k, obj_get (eventTypes b) k = obj_get (eventTypes b') k) /\
  (forall k, obj_get (repoActivity b) k = obj_get (repoActivity b') k) /\
  (forall k, obj_get (teamActivity b) k = obj_get (teamActivity b') k) /\
  (forall k, obj_get (userActivity b) k = obj_get (userActivity b') k) /\
  uniqueRepos b = uniqueRepos b' /\
  uniqueTeams b = uniqueTeams b'.
Proof.
  intros P.
  pose proof (timeFilteredData_Permutation data data' range repo now P) as Q.
  cbn [processData totalEvents dailyActivity eventTypes repoActivity
       teamActivity userActivity uniqueRepos uniqueTeams].
  set (events := timeFilteredData data range repo now) in *.
  set (events' := timeFilteredData data' range repo now) in *.
  split; [rewrite (Permutation_length Q); reflexivity|].
  split.
  { assert (Hv : Forall valid events) by apply timeFilteredData_valid.
    assert (Hv' : Forall valid events') by apply timeFilteredData_valid.
    unfold filledDailyActivity.
    destruct events as [|first rest], events' as [|first' rest'].
    - reflexivity.
    - apply Permutation_nil in Q. discriminate.
    - apply Permutation_sym, Permutation_nil in Q. discriminate.
    - rewrite (filled_series localeDate_inj first rest now 0 Hv).
      rewrite (filled_series localeDate_inj first' rest' now 0 Hv').
      pose proof (Permutation_map day_of Q) as Qd. cbn [map] in Qd.
      rewrite (fold_right_min_Permutation _ _ _ _ Qd).
      rewrite (fold_right_max_Permutation _ _ _ _ Qd).
      apply map_ext. intros d.
      rewrite (events_on_Permutation d _ _ Q). reflexivity. }
  repeat split; try (intros k; apply tally_get_Permutation, Q);
    f_equal; apply Permutation_length, keys_tally_Permutation, Q.
Qed.

End Locale.


(** * The full semantics *)

(** ** Plain objects with ordinary keys *)

Lemma ordinary_spec (k : string) :
  Plain.ordinary k = true ->
  Plain.inherited k = None /\ Plain.array_index k = None /\
  (k =? "__proto__")%string = false.
Proof.
  unfold Plain.ordinary. intros H.
  destruct (Plain.inherited k) eqn:I; [discriminate|].
  destruct (Plain.array_index k) eqn:X; [discriminate|].
  repeat split. unfold Plain.inherited in I.
  destruct (k =? "__proto__")%string; [discriminate|reflexivity].
Qed.

Lemma lookup_embed (o : JsObject) (k : string) :
  Plain.lookup (embed o) k = option_map Plain.Num (obj_get o k).
Proof.
  induction o as [|[k0 v0] o IH]; [reflexivity|].
  cbn. destruct (k0 =? k)%string; [reflexivity|exact IH].
Qed.

Lemma define_embed (o : JsObject) (k : string) (v : Z) :
  Plain.define (embed o) k (Plain.Num v) = embed (obj_set o k v).
Proof.
  induction o as [|[k0 v0] o IH]; [reflexivity|].
  cbn. destruct (k0 =? k)%string; [reflexivity|].
  cbn. f_equal. exact IH.
Qed.

Lemma get_embed (o : JsObject) (k : string) :
  Plain.ordinary k = true ->
  Plain.or_zero (Plain.get (embed o) k) = Plain.Num (or_zero (obj_get o k)).
Proof.
  intros H. destruct (ordinary_spec k H) as (I & _ & _).
  unfold Plain.get. rewrite lookup_embed, I.
  destruct (obj_get o k) as [v|]; [|reflexivity].
  cbn. destruct (Z.eqb_spec v 0) as [->|_]; reflexivity.
Qed.

Lemma set_embed (o : JsObject) (k : string) (v : Z) :
  Plain.ordinary k = true ->
  Plain.set (embed o) k (Plain.Num v) = embed (obj_set o k v).
Proof.
  intros H. destruct (ordinary_spec k H) as (_ & _ & P).
  unfold Plain.set. rewrite P. apply define_embed.
Qed.

Lemma increment_embed (nativeSource : string -> string) (o : JsObject)
  (k : string) :
  Plain.ordinary k = true ->
  Plain.increment nativeSource (embed o) k = embed (increment o k).
Proof.
  intros H. unfold Plain.increment, increment.
  rewrite (get_embed o k H). cbn [Plain.plus_one]. apply set_embed, H.
Qed.

(** On ordinary labels the tally of the full semantics is the association
    list of the counts. *)
Lemma plain_tally_agrees {A : Type} (nativeSource : string -> string)
  (key : A -> string) (l : list A) :
  Forall (fun x => Plain.ordinary (key x) = true) l ->
  Plain.tally nativeSource key l = embed (tally key l).
Proof.
  unfold Plain.tally, tally.
  change (@nil (string * Plain.Value)) with (embed []).
  generalize (@nil (string * Z)) as o.
  induction l as [|x l IH]; intros o H; [reflexivity|].
  inversion H as [|? ? Hx Hl]; subst.
  cbn [fold_left]. rewrite (increment_embed _ _ _ Hx). apply IH, Hl.
Qed.

Lemma entries_no_index (o : Plain.Obj) :
  Forall (fun e => Plain.array_index (fst e) = None) o ->
  Plain.entries o = o.
Proof.
  intros H. unfold Plain.entries.
  assert (I : Plain.indexed o = []).
  { unfold Plain.indexed. induction H as [|e o He Ho IH]; [reflexivity|].
    cbn. rewrite He. exact IH. }
  rewrite I. cbn.
  induction H as [|e o He Ho IH]; [reflexivity|].
  cbn. rewrite He. f_equal. apply IH.
  unfold Plain.indexed in I. cbn in I. rewrite He in I. exact I.
Qed.

Lemma entries_embed (o : JsObject) :
  Forall (fun k => Plain.ordinary k = true) (Object_keys o) ->
  Plain.entries (embed o) = embed o.
Proof.
  intros H. apply entries_no_index. unfold embed.
  rewrite Forall_map. unfold Object_keys in H. rewrite Forall_map in H.
  eapply Forall_impl; [|exact H]. intros e He. cbn.
  apply (ordinary_spec _ He).
Qed.

Lemma keys_embed (o : JsObject) : map fst (embed o) = Object_keys o.
Proof.
  unfold embed, Object_keys. rewrite map_map. reflexivity.
Qed.

Lemma values_embed (o : JsObject) :
  map snd (embed o) = map Plain.Num (Object_values o).
Proof.
  unfold embed, Object_values. rewrite !map_map. reflexivity.
Qed.

Lemma total_Num (vs : list Z) : Plain.total (map Plain.Num vs) = Some (sum vs).
Proof.
  induction vs as [|v vs IH]; [reflexivity|].
  cbn. rewrite IH. reflexivity.
Qed.

Lemma numbers_embed (o : JsObject) : Plain.numbers (embed o) = Some o.
Proof.
  unfold embed. induction o as [|[k v] o IH]; [reflexivity|].
  cbn. rewrite IH. reflexivity.
Qed.

Lemma tally_keys_ordinary {A : Type} (key : A -> string) (l : list A) :
  Forall (fun x => Plain.ordinary (key x) = true) l ->
  Forall (fun k => Plain.ordinary k = true) (Object_keys (tally key l)).
Proof.
  intros H. apply Forall_forall. intros k Hk.
  apply In_keys_tally in Hk. destruct Hk as [x [Hx <-]].
  rewrite Forall_forall in H. apply H, Hx.
Qed.

Lemma plain_entries_tally {A : Type} (nativeSource : string -> string)
  (key : A -> string) (l : list A) :
  Forall (fun x => Plain.ordinary (key x) = true) l ->
  Plain.entries (Plain.tally nativeSource key l) = embed (tally key l).
Proof.
  intros H. rewrite (plain_tally_agrees _ _ _ H).
  apply entries_embed, tally_keys_ordinary, H.
Qed.

(** X1.  When the labels of the events are ordinary keys, that is, neither
    names that a plain object inherits nor array indices, the tally has as
    own property of a label the number of events that carry it, and no own
    property for a label that no event carries; reading the tally at a label
    that some event carries yields that number. *)
Theorem plain_tally_counts {A : Type} (nativeSource : string -> string)
  (key : A -> string) (l : list A) (k : string) :
  Forall (fun x => Plain.ordinary (key x) = true) l ->
  Plain.lookup (Plain.tally nativeSource key l) k =
    match labelled key k l with
    | [] => None
    | found => Some (Plain.Num (Z.of_nat (List.length found)))
    end /\
  (Plain.lookup (Plain.tally nativeSource key l) k = None <->
   forall x, In x l -> key x <> k) /\
  (In k (map key l) ->
   Plain.get (Plain.tally nativeSource key l) k =
   Some (Plain.Num (Z.of_nat (List.length (labelled key k l))))).
Proof.
  intros H. rewrite (plain_tally_agrees _ _ _ H), lookup_embed, tally_get.
  assert (E : labelled key k l = [] <-> forall x, In x l -> key x <> k).
  { unfold labelled. split.
    - intros F x Hin Ek.
      assert (Hx : In x (filter (fun x => (key x =? k)%string) l)).
      { apply filter_In. split; [exact Hin|]. apply String.eqb_eq, Ek. }
      rewrite F in Hx. exact Hx.
    - intros Hn. apply filter_nil. intros x Hin.
      apply String.eqb_neq, Hn, Hin. }
  split; [destruct (labelled key k l); reflexivity|]. split.
  - rewrite <- E. destruct (labelled key k l); cbn; split;
      try discriminate; reflexivity.
  - intros Hin. unfold Plain.get. rewrite lookup_embed, tally_get.
    destruct (labelled key k l) as [|x found] eqn:F; [|reflexivity].
    apply in_map_iff in Hin. destruct Hin as [x [Ek Hx]].
    elim (proj1 E eq_refl x Hx Ek).
Qed.

(** X2.  When the labels of the events are ordinary keys, [Object.keys] of
    the tally lists them, each once, in the order in which they first occur
    among the events, and every value is a number, at least 1. *)
Theorem plain_tally_keys {A : Type} (nativeSource : string -> string)
  (key : A -> string) (l : list A) :
  Forall (fun x => Plain.ordinary (key x) = true) l ->
  Plain.keys (Plain.tally nativeSource key l) = new_Set (map key l) /\
  NoDup (Plain.keys (Plain.tally nativeSource key l)) /\
  (forall k, In k (Plain.keys (Plain.tally nativeSource key l)) <->
             exists x, In x l /\ key x = k) /\
  forallb positive_count (Plain.values (Plain.tally nativeSource key l)) = true.
Proof.
  intros H. unfold Plain.keys, Plain.values.
  rewrite (plain_entries_tally _ _ _ H), keys_embed, values_embed.
  split; [apply keys_tally|]. split; [rewrite keys_tally; apply NoDup_new_Set|].
  split; [intros k; apply In_keys_tally|].
  apply forallb_forall. intros v Hv. apply in_map_iff in Hv.
  destruct Hv as [n [<- Hn]]. cbn.
  pose proof (positive_tally key l) as P. rewrite Forall_forall in P.
  apply Z.leb_le, P, Hn.
Qed.


(** ** The mappings of [processData] on ordinary labels *)

Lemma ordinary_labels_spec (l : list Event) :
  Forall (fun item => ordinary_labels item = true) l ->
  Forall (fun item => Plain.ordinary (eventType item) = true) l /\
  Forall (fun item => Plain.ordinary (repoName item) = true) l /\
  Forall (fun item => Plain.ordinary (teamName item) = true) l /\
  Forall (fun item => Plain.ordinary (username item) = true) l.
Proof.
  intros H. repeat split; eapply Forall_impl; try exact H;
    intros item Hi; unfold ordinary_labels in Hi;
    apply andb_prop in Hi; destruct Hi as [Hi H4];
    apply andb_prop in Hi; destruct Hi as [Hi H3];
    apply andb_prop in Hi; destruct Hi as [H1 H2]; assumption.
Qed.

Lemma plain_chart_tally {A : Type} (nativeSource : string -> string)
  (key : A -> string) (l : list A) :
  Forall (fun x => Plain.ordinary (key x) = true) l ->
  let c := Faithful.chart (Plain.tally nativeSource key l) in
  NoDup (Faithful.chart_labels c) /\
  List.length (Faithful.chart_data c) = List.length (Faithful.chart_labels c) /\
  forallb positive_count (Faithful.chart_data c) = true /\
  Plain.total (Faithful.chart_data c) = Some (Z.of_nat (List.length l)).
Proof.
  intros H. cbn [Faithful.chart Faithful.chart_labels Faithful.chart_data].
  unfold Plain.keys, Plain.values.
  rewrite (plain_entries_tally _ _ _ H), keys_embed, values_embed.
  split; [rewrite keys_tally; apply NoDup_new_Set|].
  split; [unfold Object_values, Object_keys; rewrite !length_map; reflexivity|].
  split.
  - apply forallb_forall. intros v Hv. apply in_map_iff in Hv.
    destruct Hv as [n [<- Hn]]. cbn.
    pose proof (positive_tally key l) as P. rewrite Forall_forall in P.
    apply Z.leb_le, P, Hn.
  - rewrite total_Num, sum_tally. reflexivity.
Qed.

(** X3.  When the labels of the filtered events are ordinary keys, each of
    the three category charts has pairwise distinct labels, as many values
    as labels, only numbers from 1 upwards as values, and values that add up
    to [totalEvents]. *)
Theorem category_charts_plain (zone : Faithful.TimeZone)
  (nativeSource : string -> string) (fuel : nat) (data : list Event)
  (range repo : string) (now : Z) :
  let b := Faithful.processData zone localeDate nativeSource fuel
             data range repo now in
  Forall (fun item => ordinary_labels item = true)
    (Faithful.timeFilteredData zone data range repo now) ->
  Forall (fun c =>
            NoDup (Faithful.chart_labels c) /\
            List.length (Faithful.chart_data c) =
              List.length (Faithful.chart_labels c) /\
            forallb positive_count (Faithful.chart_data c) = true /\
            Plain.total (Faithful.chart_data c) = Some (Faithful.totalEvents b))
    [Faithful.eventTypeChartData b; Faithful.repoActivityChartData b;
     Faithful.teamActivityChartData b].
Proof.
  intros b H. destruct (ordinary_labels_spec _ H) as (H1 & H2 & H3 & _).
  repeat constructor;
    first [apply (plain_chart_tally nativeSource eventType _ H1)
          |apply (plain_chart_tally nativeSource repoName _ H2)
          |apply (plain_chart_tally nativeSource teamName _ H3)].
Qed.

(** X4.  When the labels of the filtered events are ordinary keys,
    [uniqueRepos] and [uniqueTeams] are the numbers of distinct repository
    and team labels among them; there are at most as many teams as
    repositories and at most as many repositories as events, and each number
    is 0 exactly when there is no event. *)
Theorem unique_counts_plain (zone : Faithful.TimeZone)
  (nativeSource : string -> string) (fuel : nat) (data : list Event)
  (range repo : string) (now : Z) :
  let b := Faithful.processData zone localeDate nativeSource fuel
             data range repo now in
  let events := Faithful.timeFilteredData zone data range repo now in
  Forall (fun item => ordinary_labels item = true) events ->
  Faithful.uniqueRepos b =
    Z.of_nat (List.length (new_Set (map repoName events))) /\
  Faithful.uniqueTeams b =
    Z.of_nat (List.length (new_Set (map teamName events))) /\
  Faithful.uniqueTeams b <= Faithful.uniqueRepos b <= Faithful.totalEvents b /\
  (Faithful.uniqueRepos b = 0 <-> Faithful.totalEvents b = 0) /\
  (Faithful.uniqueTeams b = 0 <-> Faithful.totalEvents b = 0).
Proof.
  intros b events H. destruct (ordinary_labels_spec _ H) as (_ & H2 & H3 & _).
  unfold b.
  cbn [Faithful.processData Faithful.uniqueRepos Faithful.uniqueTeams
       Faithful.totalEvents].
  fold events. unfold Plain.keys.
  rewrite (plain_entries_tally _ _ _ H2), (plain_entries_tally _ _ _ H3).
  rewrite !keys_embed, !keys_tally.
  split; [reflexivity|]. split; [reflexivity|].
  assert (Ht : map teamName events = map (string_slice 5) (map repoName events))
    by (rewrite map_map; reflexivity).
  pose proof (length_new_Set_map (string_slice 5) (map repoName events)) as L1.
  pose proof (length_new_Set_le (map repoName events)) as L2.
  rewrite <- Ht in L1. rewrite length_map in L2.
  split; [lia|].
  assert (Hnil : forall f : Event -> string,
             Z.of_nat (List.length (new_Set (map f events))) = 0 <->
             Z.of_nat (List.length events) = 0).
  { intros f. split; intros E0.
    - assert (E : new_Set (map f events) = [])
        by (apply length_zero_iff_nil; lia).
      apply (proj1 (new_Set_nil_iff _)), map_eq_nil in E.
      rewrite E. reflexivity.
    - assert (E : events = []) by (apply length_zero_iff_nil; lia).
      rewrite E. reflexivity. }
  split; apply Hnil.
Qed.

(** X18.  When the users of the filtered events are ordinary keys, the
    leaderboard is determined: every user is on it exactly once, with the
    number of their events, and its contributions add up to [totalEvents]. *)
Theorem leaderboard_plain (zone : Faithful.TimeZone)
  (nativeSource : string -> string) (fuel : nat) (data : list Event)
  (range repo : string) (now : Z) :
  let b := Faithful.processData zone localeDate nativeSource fuel
             data range repo now in
  let events := Faithful.timeFilteredData zone data range repo now in
  Forall (fun item => Plain.ordinary (username item) = true) events ->
  exists board,
    Faithful.leaderboard b = Some board /\
    NoDup (map fst board) /\
    (forall user count,
        In (user, count) board <->
        1 <= count /\
        count = Z.of_nat (List.length (labelled username user events))) /\
    sum (map snd board) = Faithful.totalEvents b /\
    StronglySorted count_ge board.
Proof.
  intros b events H.
  exists (sort by_count_desc (tally username events)).
  pose proof (sort_perm (tally username events)) as P.
  assert (Hnd : NoDup (Object_keys (tally username events)))
    by (rewrite keys_tally; apply NoDup_new_Set).
  split.
  { unfold Faithful.leaderboard, Faithful.ranking, b.
    cbn [Faithful.processData Faithful.userActivity]. fold events.
    rewrite (plain_entries_tally _ _ _ H), numbers_embed. reflexivity. }
  split.
  { eapply Permutation_NoDup; [|exact Hnd].
    symmetry. apply Permutation_map, P. }
  split.
  { intros user count. split.
    - intros Hin. apply (Permutation_in _ P) in Hin.
      apply (In_entry_get _ _ _ Hnd) in Hin. rewrite tally_get in Hin.
      destruct (labelled username user events) as [|x found];
        [discriminate|].
      injection Hin as <-. cbn [List.length]. split; lia.
    - intros [C1 ->]. apply (Permutation_in _ (Permutation_sym P)).
      apply (In_entry_get _ _ _ Hnd). rewrite tally_get.
      destruct (labelled username user events) as [|x found];
        [cbn in C1; lia|reflexivity]. }
  split; [|apply sort_sorted].
  rewrite (sum_Permutation _ _ (Permutation_map snd P)). apply sum_tally.
Qed.

(** ** The time filter in any zone *)

(** X9.  In any time zone, an event passes the time filter exactly when it
    passes the repository filter, its date is valid and it is not before the
    cutoff of the range.  The cutoff of the all-time range is the epoch, so
    under that range an event dated before 1970 is dropped.  An event without
    a valid date passes under no range. *)
Theorem time_filter_in_zone (zone : Faithful.TimeZone) (data : list Event)
  (range repo : string) (now : Z) (item : Event) :
  (In item (Faithful.timeFilteredData zone data range repo now) <->
   In item (Faithful.filteredData data repo) /\
   exists t c, receivedAt item = Some t /\
               Faithful.cutoffDate zone range now = Some c /\ c <= t) /\
  (In item (Faithful.timeFilteredData zone data "all" repo now) <->
   In item (Faithful.filteredData data repo) /\
   exists t, receivedAt item = Some t /\ 0 <= t) /\
  (receivedAt item = None ->
   ~ In item (Faithful.timeFilteredData zone data range repo now)).
Proof.
  assert (G : forall r, In item (Faithful.timeFilteredData zone data r repo now)
                        <->
                        In item (Faithful.filteredData data repo) /\
                        exists t c, receivedAt item = Some t /\
                                    Faithful.cutoffDate zone r now = Some c /\
                                    c <= t).
  { intros r. unfold Faithful.timeFilteredData. rewrite filter_In.
    apply and_iff_compat_l. split.
    - intros H. destruct (receivedAt item) as [t|]; [|discriminate].
      destruct (Faithful.cutoffDate zone r now) as [c|]; [|discriminate].
      cbn in H. rewrite Z.geb_leb in H. apply Z.leb_le in H.
      exists t, c. auto.
    - intros (t & c & -> & -> & Hle). cbn. rewrite Z.geb_leb.
      apply Z.leb_le, Hle. }
  split; [apply G|]. split.
  - rewrite G. apply and_iff_compat_l. split.
    + intros (t & c & Ht & Hc & Hle). cbn in Hc. injection Hc as <-.
      exists t. auto.
    + intros (t & Ht & Hle). exists t, 0. auto.
  - intros Hnone Hin. apply G in Hin.
    destruct Hin as (_ & t & c & Ht & _). congruence.
Qed.


(** ** A zone that keeps one offset *)

Lemma setHours0_fixed (d : Date) :
  Faithful.setHours0 (Faithful.fixed_offset tzOffset) d = setHours0 d.
Proof. reflexivity. Qed.

Lemma toLocaleDateString_fixed (d : Date) :
  Faithful.toLocaleDateString (Faithful.fixed_offset tzOffset) localeDate d =
  toLocaleDateString d.
Proof. reflexivity. Qed.

Lemma addDays_fixed (d : Date) (n : Z) :
  Faithful.addDays (Faithful.fixed_offset tzOffset) d n = addDays d n.
Proof.
  destruct d as [t|]; [|reflexivity]. cbn. f_equal. lia.
Qed.

Lemma cutoffDate_fixed (range : string) (now : Z) :
  Faithful.cutoffDate (Faithful.fixed_offset tzOffset) range now =
  cutoffDate range now.
Proof.
  unfold Faithful.cutoffDate, cutoffDate. rewrite !addDays_fixed. reflexivity.
Qed.

Lemma timeFilteredData_fixed (data : list Event) (range repo : string)
  (now : Z) :
  Faithful.timeFilteredData (Faithful.fixed_offset tzOffset) data range repo now
  = timeFilteredData data range repo now.
Proof.
  unfold Faithful.timeFilteredData, timeFilteredData.
  rewrite cutoffDate_fixed. reflexivity.
Qed.

Section Agreement.
Variable nativeSource : string -> string.
(** Two days are not written alike, and a day is written as an ordinary
    key. *)
Hypothesis localeDate_inj :
  forall d d', localeDate d = localeDate d' -> d = d'.
Hypothesis localeDate_ordinary : forall d, Plain.ordinary (localeDate d) = true.

Lemma date_key_ordinary (d : Date) :
  Plain.ordinary (toLocaleDateString d) = true.
Proof.
  destruct d as [t|]; [apply localeDate_ordinary|reflexivity].
Qed.

Lemma daily_step_agrees (acc : Daily) (item : Event) :
  Faithful.daily_step (Faithful.fixed_offset tzOffset) localeDate nativeSource
    (embed_daily acc) item =
  embed_daily (daily_step acc item).
Proof.
  unfold Faithful.daily_step, daily_step, embed_daily.
  cbn [Faithful.daily_counts Faithful.minDate Faithful.maxDate
       daily_counts minDate maxDate].
  rewrite setHours0_fixed, toLocaleDateString_fixed.
  rewrite (increment_embed _ _ _ (date_key_ordinary _)). reflexivity.
Qed.

Lemma dailyActivity_raw_agrees (l : list Event) :
  Faithful.dailyActivity_raw (Faithful.fixed_offset tzOffset) localeDate
    nativeSource l =
  embed_daily (dailyActivity_raw l).
Proof.
  unfold Faithful.dailyActivity_raw, dailyActivity_raw.
  change {| Faithful.daily_counts := []; Faithful.minDate := None;
            Faithful.maxDate := None |}
    with (embed_daily {| daily_counts := []; minDate := None;
                         maxDate := None |}).
  generalize {| daily_counts := []; minDate := None; maxDate := None |} as acc.
  induction l as [|x l IH]; intros acc; [reflexivity|].
  cbn [fold_left]. rewrite daily_step_agrees. apply IH.
Qed.

Lemma faithful_fill_loop_days (daily : JsObject) (d1 : Z) (m : nat) :
  forall (c : Z) (filled : JsObject) (n : nat),
    d1 - c + 1 = Z.of_nat m ->
    (m < n)%nat ->
    (forall d, c <= d -> ~ In (localeDate d) (Object_keys filled)) ->
    Faithful.fill_loop (Faithful.fixed_offset tzOffset) localeDate n
      (embed daily) (Some (dayStart d1)) (Some (dayStart c)) (embed filled) =
    Some (embed
            (filled ++
             map (fun d => (localeDate d, or_zero (obj_get daily (localeDate d))))
               (days_from c m))).
Proof.
  induction m as [|m IH]; intros c filled n Hm Hn Hfresh.
  - destruct n as [|n]; [lia|].
    cbn [days_from map]. rewrite app_nil_r.
    cbn [Faithful.fill_loop]. unfold date_le. cbn [date_ge].
    rewrite dayStart_geb.
    destruct (Z.geb_spec d1 c); [lia|reflexivity].
  - destruct n as [|n]; [lia|].
    cbn [Faithful.fill_loop]. unfold date_le. cbn [date_ge].
    rewrite dayStart_geb.
    destruct (Z.geb_spec d1 c); [|lia].
    rewrite toLocaleDateString_fixed, addDays_fixed.
    cbn [toLocaleDateString addDays option_map].
    rewrite localDay_dayStart, dayStart_succ.
    rewrite (get_embed _ _ (localeDate_ordinary c)).
    rewrite (set_embed _ _ _ (localeDate_ordinary c)).
    rewrite obj_set_fresh by (apply Hfresh; lia).
    rewrite IH; [| lia | lia |].
    + rewrite <- app_assoc. reflexivity.
    + intros d Hd Hin. unfold Object_keys in Hin.
      rewrite map_app in Hin. apply in_app_or in Hin.
      destruct Hin as [Hin|[Hin|[]]].
      * apply (Hfresh d); [lia|exact Hin].
      * cbn in Hin. apply localeDate_inj in Hin. lia.
Qed.

Lemma faithful_filled_series (first : Event) (rest : list Event) (now : Z)
  (fuel : nat) :
  Forall valid (first :: rest) ->
  let earliest := fold_right Z.min (day_of first) (map day_of rest) in
  let latest := fold_right Z.max (day_of first) (map day_of rest) in
  Z.max latest (localDay now) - earliest + 1 < Z.of_nat fuel ->
  Faithful.filledDailyActivity (Faithful.fixed_offset tzOffset) localeDate fuel
    (embed_daily (dailyActivity_raw (first :: rest))) now =
  Some (embed
          (map (fun d => (localeDate d, events_on d (first :: rest)))
             (days_between earliest (Z.max latest (localDay now))))).
Proof.
  intros Hv d0 dmax Hfuel.
  destruct (raw_bounds first rest Hv) as [Hmin Hmax].
  fold d0 in Hmin. fold dmax in Hmax.
  assert (Hle : d0 <= dmax).
  { pose proof (proj1 (fold_right_min_le (day_of first) (map day_of rest))).
    pose proof (proj1 (fold_right_max_ge (day_of first) (map day_of rest))).
    unfold d0, dmax. lia. }
  unfold Faithful.filledDailyActivity, embed_daily.
  cbn [Faithful.minDate Faithful.maxDate Faithful.daily_counts].
  rewrite Hmin, Hmax, setHours0_fixed.
  cbn [setHours0 option_map]. unfold date_gt. cbn [date_lt].
  rewrite dayStart_ltb.
  set (d1 := Z.max dmax (localDay now)) in *.
  match goal with
  | |- context [Faithful.fill_loop _ _ _ _ ?e _ _] =>
      assert (Hend : e = Some (dayStart d1))
  end.
  { unfold d1.
    destruct (Z.ltb_spec (localDay now) dmax); f_equal; f_equal; lia. }
  rewrite Hend.
  change (@nil (string * Plain.Value)) with (embed []).
  rewrite (faithful_fill_loop_days _ d1 (Z.to_nat (d1 - d0 + 1)));
    [| lia | lia | intros d _ []].
  cbn [app]. unfold days_between. do 2 f_equal. apply map_ext.
  intros d. rewrite (raw_counts localeDate_inj _ d Hv). reflexivity.
Qed.

Lemma series_length (first : Event) (rest : list Event) (now : Z) :
  Forall valid (first :: rest) ->
  Z.of_nat (List.length
              (filledDailyActivity (dailyActivity_raw (first :: rest)) now)) =
  Z.max (fold_right Z.max (day_of first) (map day_of rest)) (localDay now)
  - fold_right Z.min (day_of first) (map day_of rest) + 1.
Proof.
  intros Hv. unfold filledDailyActivity.
  rewrite (filled_series localeDate_inj first rest now 0 Hv), length_map.
  unfold days_between.
  assert (L : forall n c, List.length (days_from c n) = n).
  { induction n as [|n IH]; intros c; cbn; [reflexivity|]. rewrite IH.
    reflexivity. }
  rewrite L.
  pose proof (proj1 (fold_right_min_le (day_of first) (map day_of rest))).
  pose proof (proj1 (fold_right_max_ge (day_of first) (map day_of rest))).
  lia.
Qed.

(** On ordinary labels, in a zone that keeps one offset and once the loop
    is given more tests than the series has days, the full semantics of
    [processData] yields what the association-list model yields. *)
Lemma processData_agrees (fuel : nat) (data : list Event)
  (range repo : string) (now : Z) :
  Forall (fun item => ordinary_labels item = true)
    (timeFilteredData data range repo now) ->
  (List.length (dailyActivity (processData data range repo now)) < fuel)%nat ->
  Faithful.processData (Faithful.fixed_offset tzOffset) localeDate nativeSource
    fuel data range repo now =
  embed_bundle (processData data range repo now).
Proof.
  intros H Hfuel. destruct (ordinary_labels_spec _ H) as (H1 & H2 & H3 & H4).
  unfold Faithful.processData, embed_bundle.
  cbn [processData eventTypes repoActivity teamActivity userActivity
       dailyActivity totalEvents uniqueRepos uniqueTeams bundle_filteredData].
  rewrite timeFilteredData_fixed.
  set (events := timeFilteredData data range repo now) in *.
  rewrite (plain_tally_agrees _ _ _ H1), (plain_tally_agrees _ _ _ H2),
    (plain_tally_agrees _ _ _ H3), (plain_tally_agrees _ _ _ H4).
  unfold Plain.keys.
  rewrite (entries_embed _ (tally_keys_ordinary _ _ H2)).
  rewrite (entries_embed _ (tally_keys_ordinary _ _ H3)).
  rewrite !keys_embed, dailyActivity_raw_agrees.
  assert (D : Faithful.filledDailyActivity (Faithful.fixed_offset tzOffset)
                localeDate fuel (embed_daily (dailyActivity_raw events)) now =
              Some (embed (filledDailyActivity (dailyActivity_raw events) now))).
  { assert (Hv : Forall valid events) by apply timeFilteredData_valid.
    cbn [processData dailyActivity] in Hfuel. fold events in Hfuel.
    destruct events as [|first rest]; [reflexivity|].
    rewrite faithful_filled_series; [|exact Hv|].
    - unfold filledDailyActivity.
      rewrite (filled_series localeDate_inj first rest now 0 Hv). reflexivity.
    - rewrite <- (series_length first rest now Hv). lia. }
  rewrite D. reflexivity.
Qed.

End Agreement.


(** ** The loop of the daily series *)

Lemma fill_loop_more (zone : Faithful.TimeZone) (n : nat) :
  forall (daily : Plain.Obj) (endDate current : Date) (filled result : Plain.Obj)
         (extra : nat),
    Faithful.fill_loop zone localeDate n daily endDate current filled =
      Some result ->
    Faithful.fill_loop zone localeDate (n + extra) daily endDate current filled
    = Some result.
Proof.
  induction n as [|n IH]; intros daily e c filled result extra H;
    [discriminate|].
  cbn [Nat.add Faithful.fill_loop] in *.
  destruct (date_le c e); [apply IH, H|exact H].
Qed.

Lemma filledDailyActivity_more (zone : Faithful.TimeZone) (n extra : nat)
  (d : Faithful.Daily) (now : Z) (result : Plain.Obj) :
  Faithful.filledDailyActivity zone localeDate n d now = Some result ->
  Faithful.filledDailyActivity zone localeDate (n + extra) d now = Some result.
Proof.
  unfold Faithful.filledDailyActivity.
  destruct (Faithful.minDate d) as [minD|]; [|auto].
  destruct (Faithful.maxDate d) as [maxD|]; [|auto].
  apply fill_loop_more.
Qed.

Lemma fill_loop_ext (zone : Faithful.TimeZone) (daily daily' : Plain.Obj)
  (n : nat) :
  (forall d, Plain.or_zero (Plain.get daily (localeDate d)) =
             Plain.or_zero (Plain.get daily' (localeDate d))) ->
  forall (endDate current : Date) (filled : Plain.Obj),
    Faithful.fill_loop zone localeDate n daily endDate current filled =
    Faithful.fill_loop zone localeDate n daily' endDate current filled.
Proof.
  intros H. induction n as [|n IH]; intros e c filled; [reflexivity|].
  cbn [Faithful.fill_loop].
  destruct c as [t|]; [|destruct e; reflexivity].
  cbn [Faithful.toLocaleDateString]. rewrite H.
  destruct (date_le (Some t) e); [apply IH|reflexivity].
Qed.

Section FixedOffset.
Variable nativeSource : string -> string.
(** Two days are not written alike; a day is written as an ordinary key
    and never as "Invalid Date". *)
Hypothesis localeDate_inj :
  forall d d', localeDate d = localeDate d' -> d = d'.
Hypothesis localeDate_ordinary : forall d, Plain.ordinary (localeDate d) = true.
Hypothesis localeDate_valid : forall d, localeDate d <> "Invalid Date".

Lemma faithful_series (fuel : nat) (data : list Event) (range repo : string)
  (now : Z) (series : Plain.Obj) :
  Faithful.dailyActivity
    (Faithful.processData (Faithful.fixed_offset tzOffset) localeDate
       nativeSource fuel data range repo now) = Some series ->
  series = embed (dailyActivity (processData data range repo now)).
Proof.
  cbn [Faithful.processData Faithful.dailyActivity processData dailyActivity].
  rewrite timeFilteredData_fixed, (dailyActivity_raw_agrees nativeSource
                                     localeDate_ordinary).
  set (events := timeFilteredData data range repo now).
  intros H.
  assert (Hv : Forall valid events) by apply timeFilteredData_valid.
  destruct events as [|first rest]; [cbn in H; injection H as <-; reflexivity|].
  set (days := Z.to_nat
                 (Z.max (fold_right Z.max (day_of first) (map day_of rest))
                    (localDay now)
                  - fold_right Z.min (day_of first) (map day_of rest) + 2)).
  apply (filledDailyActivity_more _ fuel days) in H.
  rewrite (faithful_filled_series localeDate_inj
             localeDate_ordinary first rest now (fuel + days) Hv) in H.
  - injection H as <-. unfold filledDailyActivity.
    rewrite (filled_series localeDate_inj first rest now 0 Hv). reflexivity.
  - unfold days.
    pose proof (proj1 (fold_right_min_le (day_of first) (map day_of rest))).
    pose proof (proj1 (fold_right_max_ge (day_of first) (map day_of rest))).
    lia.
Qed.

(** In such a zone the loop ends: from some number of tests on, the series
    is computed. *)
Lemma faithful_series_computed (data : list Event) (range repo : string)
  (now : Z) :
  exists n, forall fuel, (n <= fuel)%nat ->
    Faithful.dailyActivity
      (Faithful.processData (Faithful.fixed_offset tzOffset) localeDate
         nativeSource fuel data range repo now) =
    Some (embed (dailyActivity (processData data range repo now))).
Proof.
  cbn [Faithful.processData Faithful.dailyActivity processData dailyActivity].
  rewrite timeFilteredData_fixed, (dailyActivity_raw_agrees nativeSource
                                     localeDate_ordinary).
  set (events := timeFilteredData data range repo now).
  assert (Hv : Forall valid events) by apply timeFilteredData_valid.
  destruct events as [|first rest]; [exists O; intros fuel _; reflexivity|].
  exists (Z.to_nat
            (Z.max (fold_right Z.max (day_of first) (map day_of rest))
               (localDay now)
             - fold_right Z.min (day_of first) (map day_of rest) + 2)).
  intros fuel Hfuel.
  rewrite (faithful_filled_series localeDate_inj
             localeDate_ordinary first rest now fuel Hv).
  - unfold filledDailyActivity.
    rewrite (filled_series localeDate_inj first rest now 0 Hv). reflexivity.
  - pose proof (proj1 (fold_right_min_le (day_of first) (map day_of rest))).
    pose proof (proj1 (fold_right_max_ge (day_of first) (map day_of rest))).
    lia.
Qed.

(** X24.  In a zone that keeps one offset from UTC, with a locale that
    writes distinct days differently and as ordinary keys: when no event
    passes the filters the daily series is empty; otherwise, once the loop is
    given more tests than there are days from the earliest event to the
    later of the latest event and today, the series lists exactly those days,
    each once and in ascending order, every day with the number of filtered
    events on it (0 when there is none), and the numbers add up to the
    number of filtered events. *)
Theorem daily_series_fixed_offset (fuel : nat) (data : list Event)
  (range repo : string) (now : Z) :
  let zone := Faithful.fixed_offset tzOffset in
  let events := Faithful.timeFilteredData zone data range repo now in
  let series := Faithful.dailyActivity
                  (Faithful.processData zone localeDate nativeSource fuel
                     data range repo now) in
  match events with
  | [] => series = Some []
  | first :: rest =>
      let earliest := fold_right Z.min (day_of first) (map day_of rest) in
      let latest := fold_right Z.max (day_of first) (map day_of rest) in
      let days := days_between earliest (Z.max latest (localDay now)) in
      Z.max latest (localDay now) - earliest + 1 < Z.of_nat fuel ->
      exists filled,
        series = Some filled /\
        Plain.entries filled =
          map (fun d => (localeDate d, Plain.Num (events_on d events))) days /\
        Plain.total (Plain.values filled) = Some (Z.of_nat (List.length events))
  end.
Proof.
  intros zone events series. unfold series, events, zone.
  cbn [Faithful.processData Faithful.dailyActivity].
  rewrite timeFilteredData_fixed,
    (dailyActivity_raw_agrees nativeSource localeDate_ordinary).
  pose proof (timeFilteredData_valid data range repo now) as Hv.
  destruct (timeFilteredData data range repo now) as [|first rest] eqn:E;
    [reflexivity|].
  intros Hfuel.
  rewrite (faithful_filled_series localeDate_inj
             localeDate_ordinary first rest now fuel Hv Hfuel).
  set (earliest := fold_right Z.min (day_of first) (map day_of rest)) in *.
  set (latest := fold_right Z.max (day_of first) (map day_of rest)) in *.
  set (days := days_between earliest (Z.max latest (localDay now))).
  eexists. split; [reflexivity|].
  assert (Hembed : embed (map (fun d => (localeDate d,
                                         events_on d (first :: rest))) days) =
                   map (fun d => (localeDate d,
                                  Plain.Num (events_on d (first :: rest)))) days).
  { unfold embed. rewrite map_map. reflexivity. }
  rewrite Hembed. split.
  - apply entries_no_index. rewrite Forall_map. apply Forall_forall.
    intros d _. cbn. apply (ordinary_spec _ (localeDate_ordinary d)).
  - unfold Plain.values. rewrite entries_no_index.
    + rewrite map_map. cbn [snd].
      rewrite <- (map_map (fun d => events_on d (first :: rest)) Plain.Num).
      rewrite total_Num. f_equal. apply sum_events_on.
      destruct (fold_right_min_le (day_of first) (map day_of rest))
        as [Hm1 Hm2].
      destruct (fold_right_max_ge (day_of first) (map day_of rest))
        as [HM1 HM2].
      rewrite Forall_map in Hm2, HM2. fold earliest in Hm1, Hm2.
      fold latest in HM1, HM2.
      constructor.
      * lia.
      * rewrite Forall_forall in *. intros item Hin.
        specialize (Hm2 item Hin). specialize (HM2 item Hin). lia.
    + rewrite Forall_map. apply Forall_forall.
      intros d _. cbn. apply (ordinary_spec _ (localeDate_ordinary d)).
Qed.

(** X22.  In a zone that keeps one offset from UTC, with a locale that
    writes distinct days differently, as ordinary keys and never as
    "Invalid Date", and when the current local day starts at or after the
    epoch: the loop of the daily series ends, and the value of the series at
    today's date (0 when the series has no such key) is the Today's Activity
    figure, whatever the time range. *)
Theorem today_agrees_fixed_offset (data : list Event) (range repo : string)
  (now : Z) :
  let zone := Faithful.fixed_offset tzOffset in
  let b fuel := Faithful.processData zone localeDate nativeSource fuel
                  data range repo now in
  0 <= dayStart (localDay now) ->
  (exists n, forall fuel, (n <= fuel)%nat ->
     exists series, Faithful.dailyActivity (b fuel) = Some series) /\
  (forall fuel series,
      Faithful.dailyActivity (b fuel) = Some series ->
      Plain.or_zero
        (Plain.get series
           (Faithful.toLocaleDateString zone localeDate
              (Faithful.setHours0 zone (Some now)))) =
      Plain.Num (Faithful.todaysActivity zone localeDate (b fuel) now)).
Proof.
  intros zone b H0. split.
  - destruct (faithful_series_computed data range repo now) as [n Hn].
    exists n. intros fuel Hfuel. eexists. apply Hn, Hfuel.
  - intros fuel series Hs. apply faithful_series in Hs. subst series.
    unfold zone. rewrite toLocaleDateString_fixed, setHours0_fixed.
    rewrite get_embed by apply (date_key_ordinary localeDate_ordinary).
    f_equal. symmetry.
    exact (today_agrees_with_series localeDate_inj localeDate_valid
             {| webhookData := data; timeRange := range; selectedRepo := repo;
                currentPage := 1 |} now H0).
Qed.

(** X23.  In a zone that keeps one offset from UTC and on ordinary labels,
    the order in which the snapshot lists the events does not matter to the
    figures: a reordered snapshot gives the same [totalEvents], the same
    daily series, the same value for every key read in any of the four
    mappings, and the same numbers of repositories and teams. *)
Theorem snapshot_order_fixed_offset (fuel : nat) (data data' : list Event)
  (range repo : string) (now : Z) :
  let zone := Faithful.fixed_offset tzOffset in
  let b := Faithful.processData zone localeDate nativeSource fuel
             data range repo now in
  let b' := Faithful.processData zone localeDate nativeSource fuel
              data' range repo now in
  Permutation data data' ->
  Forall (fun item => ordinary_labels item = true)
    (Faithful.timeFilteredData zone data range repo now) ->
  Faithful.totalEvents b = Faithful.totalEvents b' /\
  Faithful.dailyActivity b = Faithful.dailyActivity b' /\
  (forall k, Plain.get (Faithful.eventTypes b) k =
             Plain.get (Faithful.eventTypes b') k) /\
  (forall k, Plain.get (Faithful.repoActivity b) k =
             Plain.get (Faithful.repoActivity b') k) /\
  (forall k, Plain.get (Faithful.teamActivity b) k =
             Plain.get (Faithful.teamActivity b') k) /\
  (forall k, Plain.get (Faithful.userActivity b) k =
             Plain.get (Faithful.userActivity b') k) /\
  Faithful.uniqueRepos b = Faithful.uniqueRepos b' /\
  Faithful.uniqueTeams b = Faithful.uniqueTeams b'.
Proof.
  intros zone b b' P H. unfold b, b', zone in *.
  rewrite timeFilteredData_fixed in H.
  pose proof (timeFilteredData_Permutation data data' range repo now P) as Q.
  cbn [Faithful.processData Faithful.totalEvents Faithful.dailyActivity
       Faithful.eventTypes Faithful.repoActivity Faithful.teamActivity
       Faithful.userActivity Faithful.uniqueRepos Faithful.uniqueTeams].
  rewrite !timeFilteredData_fixed.
  set (events := timeFilteredData data range repo now) in *.
  set (events' := timeFilteredData data' range repo now) in *.
  assert (H' : Forall (fun item => ordinary_labels item = true) events')
    by (eapply Permutation_Forall; eassumption).
  destruct (ordinary_labels_spec _ H) as (H1 & H2 & H3 & H4).
  destruct (ordinary_labels_spec _ H') as (H1' & H2' & H3' & H4').
  assert (G : forall (key : Event -> string),
             Forall (fun x => Plain.ordinary (key x) = true) events ->
             Forall (fun x => Plain.ordinary (key x) = true) events' ->
             forall k, Plain.get (Plain.tally nativeSource key events) k =
                       Plain.get (Plain.tally nativeSource key events') k).
  { intros key E E' k. unfold Plain.get.
    rewrite (plain_tally_agrees _ _ _ E), (plain_tally_agrees _ _ _ E').
    rewrite !lookup_embed, (tally_get_Permutation key _ _ k Q). reflexivity. }
  assert (U : forall (key : Event -> string),
             Forall (fun x => Plain.ordinary (key x) = true) events ->
             Forall (fun x => Plain.ordinary (key x) = true) events' ->
             Z.of_nat (List.length
                         (Plain.keys (Plain.tally nativeSource key events))) =
             Z.of_nat (List.length
                         (Plain.keys (Plain.tally nativeSource key events')))).
  { intros key E E'. unfold Plain.keys.
    rewrite (plain_entries_tally _ _ _ E), (plain_entries_tally _ _ _ E').
    rewrite !keys_embed. f_equal.
    apply Permutation_length, keys_tally_Permutation, Q. }
  split; [rewrite (Permutation_length Q); reflexivity|].
  split.
  { rewrite !(dailyActivity_raw_agrees nativeSource localeDate_ordinary).
    assert (Hv : Forall valid events) by apply timeFilteredData_valid.
    assert (Hv' : Forall valid events') by apply timeFilteredData_valid.
    unfold Faithful.filledDailyActivity, embed_daily.
    cbn [Faithful.minDate Faithful.maxDate Faithful.daily_counts].
    destruct events as [|first rest], events' as [|first' rest'].
    - reflexivity.
    - apply Permutation_nil in Q. discriminate.
    - apply Permutation_sym, Permutation_nil in Q. discriminate.
    - destruct (raw_bounds first rest Hv) as [Hmin Hmax].
      destruct (raw_bounds first' rest' Hv') as [Hmin' Hmax'].
      pose proof (Permutation_map day_of Q) as Qd. cbn [map] in Qd.
      rewrite Hmin, Hmax, Hmin', Hmax'.
      rewrite (fold_right_min_Permutation _ _ _ _ Qd).
      rewrite (fold_right_max_Permutation _ _ _ _ Qd).
      apply fill_loop_ext. intros d.
      rewrite !(get_embed _ _ (localeDate_ordinary d)).
      rewrite (raw_counts localeDate_inj _ d Hv).
      rewrite (raw_counts localeDate_inj _ d Hv').
      rewrite (events_on_Permutation d _ _ Q). reflexivity. }
  repeat split; auto.
Qed.

End FixedOffset.

End Host.

(** * The claims on the sample data *)

Lemma dayNumber_inj (d d' : Z) : dayNumber d = dayNumber d' -> d = d'.
Proof.
  unfold dayNumber. intros E.
  apply (f_equal NilEmpty.int_of_string) in E.
  rewrite !NilEmpty.isi in E. injection E as E.
  apply (f_equal Z.of_int) in E. rewrite !DecimalZ.of_to in E. exact E.
Qed.

Example three_days_series :
  dailyActivity (processData utc dayNumber three_days "7d" "all" (noon 20)) =
  [("15", 1); ("16", 0); ("17", 1); ("18", 0); ("19", 1); ("20", 0)].
Proof. vm_compute. reflexivity. Qed.

Example ranking_keeps_ties_in_order :
  ranking [("ann", 1); ("bob", 2); ("cy", 1); ("dee", 2)] =
  [("bob", 2); ("dee", 2); ("ann", 1); ("cy", 1)].
Proof. reflexivity. Qed.

Example repositories_of_sample :
  repositories
    (state_of (three_days ++ [event_no_repository] ++ twelve_events)
       "24h" "team2-web" 3) =
  ["team1-api"; "team2-web"].
Proof. reflexivity. Qed.

(** The daily series of [three_days] under the 7-day range adds up to 3. *)
Lemma daily_series_complete_witness :
  sum (Object_values
         (dailyActivity
            (processData utc dayNumber three_days "7d" "all" (noon 20)))) = 3.
Proof.
  exact (proj1 (proj2 (proj2
           (daily_series_complete utc dayNumber dayNumber_inj
              three_days "7d" "all" (noon 20))))).
Defined.

(** ** Team labels *)

Lemma string_slice_prefix (pre rest : string) :
  string_slice (String.length pre) (pre ++ rest)%string = rest.
Proof.
  induction pre as [|c pre IH]; cbn.
  - destruct rest; reflexivity.
  - exact IH.
Qed.

(** In the team tally the event of repository "teamA-svc" is counted under
    "-svc", not under "svc". *)
Lemma team_label_counterexample :
  teamName event_teamA_svc = "-svc" /\
  teamName event_teamA_svc <> "svc" /\
  teamActivity (processData utc dayNumber [event_teamA_svc] "7d" "all" (noon 20))
  = [("-svc", 1)].
Proof.
  split; [reflexivity|]. split; [discriminate|]. vm_compute. reflexivity.
Qed.

(** C4 (amended).  The team label of an event that has a repository name is
    that name without its first five characters, which for "teamA-svc" is
    "-svc".  An event without a repository name has the repository label
    "Unknown", and an event without a repository has "Unknown" in the team
    column of the table and in the count of teams that worked today. *)
Theorem team_label :
  (forall item pre rest,
      repository_name item = Some (pre ++ rest)%string ->
      String.length pre = 5%nat ->
      teamName item = rest /\ team_cell item = Ok (or_str (Some rest) "Unknown")) /\
  teamName event_teamA_svc = "-svc" /\
  (forall item, repository_name item = None -> repoName item = "Unknown") /\
  (forall item, repository item = None -> team_cell item = Ok "Unknown").
Proof.
  split.
  { intros item pre rest Hn Hlen.
    assert (Hne : ((pre ++ rest)%string =? "")%string = false).
    { destruct pre; [discriminate|reflexivity]. }
    split.
    - unfold teamName, repoName, or_str, or_opt, truthy.
      rewrite Hn, Hne. cbn [negb]. rewrite <- Hlen. apply string_slice_prefix.
    - unfold team_cell. unfold repository_name in Hn.
      destruct (repository item) as [r|]; [|discriminate].
      rewrite Hn, <- Hlen, string_slice_prefix. reflexivity. }
  split; [reflexivity|].
  split.
  - intros item Hn. unfold repoName. rewrite Hn. reflexivity.
  - intros item Hr. unfold team_cell. rewrite Hr. reflexivity.
Qed.

Lemma team_label_witness :
  teamName event_teamA_svc = "-svc" /\
  repoName event_no_repository = "Unknown" /\
  team_cell event_no_repository = Ok "Unknown".
Proof.
  destruct team_label as (Hstrip & _ & Hrepo & Hcell).
  split; [|split].
  - apply (Hstrip event_teamA_svc "teamA" "-svc"); reflexivity.
  - apply Hrepo. reflexivity.
  - apply Hcell. reflexivity.
Defined.

(** ** Pagination *)

(** An event older than the 7-day range is not counted by [totalEvents] but
    is paginated. *)
Lemma pagination_source_counterexample :
  let st := state_of [event_long_ago] "7d" "all" 1 in
  timeFilteredData (webhookData st) (timeRange st) (selectedRepo st) (noon 20)
  = [] /\
  totalEvents (bundle utc dayNumber st (noon 20)) = 0 /\
  totalPages utc dayNumber st (noon 20) = 1 /\
  paginatedData utc dayNumber st (noon 20) = [event_long_ago] /\
  List.length (bundle_filteredData (bundle utc dayNumber st (noon 20))) <>
  List.length
    (timeFilteredData (webhookData st) (timeRange st) (selectedRepo st)
       (noon 20)).
Proof.
  repeat split; try (vm_compute; reflexivity).
  vm_compute. discriminate.
Qed.

(** After the filtered list has shrunk to one page the page index is still 2
    and nothing is shown. *)
Lemma page_navigation_counterexample :
  let st := after_shrink utc dayNumber (noon 20) in
  currentPage st = 2 /\
  totalPages utc dayNumber st (noon 20) = 1 /\
  paginatedData utc dayNumber st (noon 20) = [] /\
  ~ (1 <= currentPage st <= totalPages utc dayNumber st (noon 20)).
Proof.
  repeat split; try (vm_compute; reflexivity).
  vm_compute. intros [_ H]. apply H. reflexivity.
Qed.

Lemma page_navigation_witness :
  let st := state_of twelve_events "7d" "all" 1 in
  1 <= currentPage (handlePrevPage st) <= 2 /\
  1 <= currentPage (handleNextPage utc dayNumber st (noon 20)) <= 2.
Proof.
  cbv zeta.
  destruct (page_navigation utc dayNumber
              (state_of twelve_events "7d" "all" 1) (noon 20))
    as (_ & _ & _ & _ & Hin & _).
  apply Hin. vm_compute. split; discriminate.
Defined.

(** On that page the slice has length 0 while the formula gives -9. *)
Lemma pagination_bounds_counterexample :
  let st := after_shrink utc dayNumber (noon 20) in
  let L := Z.of_nat (List.length
                       (bundle_filteredData (bundle utc dayNumber st (noon 20)))) in
  L = 1 /\
  Z.of_nat (List.length (paginatedData utc dayNumber st (noon 20))) = 0 /\
  Z.min rowsPerPage (L - (currentPage st - 1) * rowsPerPage) = -9 /\
  Z.of_nat (List.length (paginatedData utc dayNumber st (noon 20))) <>
  Z.min rowsPerPage (L - (currentPage st - 1) * rowsPerPage).
Proof.
  repeat split; try (vm_compute; reflexivity).
  vm_compute. discriminate.
Qed.

Lemma pagination_bounds_witness :
  let st := state_of twelve_events "7d" "all" 2 in
  Z.of_nat (List.length (paginatedData utc dayNumber st (noon 20))) = 2.
Proof.
  cbv zeta.
  destruct (pagination_bounds utc dayNumber
              (state_of twelve_events "7d" "all" 2) (noon 20))
    as (_ & _ & _ & _ & Hshown & _).
  rewrite Hshown.
  - vm_compute. reflexivity.
  - vm_compute. discriminate.
  - vm_compute. discriminate.
Defined.

(** ** Missing fields *)

(** C6.  A snapshot whose only event has a [repository] without a [name]:
    the tallies of [processData] count it under "Unknown", but the count of
    teams that worked today and the team column of the table throw, and with
    them the render. *)
Theorem render_throws_without_repository_name :
  let st := state_of [event_nameless_repository] "7d" "all" 1 in
  repoActivity (bundle utc dayNumber st (noon 20)) = [("Unknown", 1)] /\
  teamsWorkedToday utc dayNumber st (noon 20) = TypeError /\
  map_js table_row (paginatedData utc dayNumber st (noon 20)) = TypeError /\
  render utc dayNumber st (noon 20) = TypeError.
Proof.
  repeat split; vm_compute; reflexivity.
Qed.

(** * The further properties on the sample data *)

Lemma dayNumber_valid (d : Z) : dayNumber d <> "Invalid Date".
Proof.
  unfold dayNumber. intros E.
  apply (f_equal NilEmpty.int_of_string) in E.
  rewrite NilEmpty.isi in E. discriminate.
Qed.

Lemma short_repository_names_witness :
  teamName event_short_name = "" /\
  team_cell event_short_name = Ok "Unknown" /\
  team_cell event_teamA_svc = Ok (teamName event_teamA_svc).
Proof.
  destruct (short_repository_names event_short_name "api" eq_refl)
    as [Hshort _]; [discriminate|].
  destruct (short_repository_names event_teamA_svc "teamA-svc" eq_refl)
    as [_ Hlong]; [discriminate|].
  destruct Hshort as [H1 H2]; [cbn; lia|].
  destruct Hlong as (_ & _ & H3); [cbn; lia|].
  auto.
Defined.

Lemma time_ranges_nest_witness :
  totalEvents (processData utc dayNumber (event_long_ago :: three_days)
                 "30d" "all" (noon 40)) <=
  totalEvents (processData utc dayNumber (event_long_ago :: three_days)
                 "all" "all" (noon 40)).
Proof.
  destruct (time_ranges_nest utc dayNumber (event_long_ago :: three_days)
              "all" (noon 40)) as (_ & _ & _ & _ & H).
  apply H. vm_compute. discriminate.
Defined.

Lemma time_filter_membership_witness :
  ~ In event_undated
      (timeFilteredData [event_undated; event_teamA_svc] "all" "all" (noon 20)).
Proof.
  destruct (time_filter_membership [event_undated; event_teamA_svc]
              "all" "all" (noon 20) event_undated) as (_ & _ & H).
  apply H. reflexivity.
Defined.

Lemma page_sizes_witness :
  Z.of_nat (List.length
              (page utc dayNumber (state_of twelve_events "7d" "all" 1)
                 (noon 20) 1)) = 10 /\
  Z.of_nat (List.length
              (page utc dayNumber (state_of twelve_events "7d" "all" 1)
                 (noon 20) 2)) = 12 - 10 * (2 - 1).
Proof.
  split.
  - apply (page_sizes utc dayNumber (state_of twelve_events "7d" "all" 1)
             (noon 20) 1); vm_compute; try reflexivity; split; discriminate.
  - apply (page_sizes utc dayNumber (state_of twelve_events "7d" "all" 1)
             (noon 20) 2); vm_compute; try reflexivity; split; discriminate.
Defined.

Lemma prev_next_inverse_witness :
  handlePrevPage
    (handleNextPage utc dayNumber (state_of twelve_events "7d" "all" 1)
       (noon 20)) =
  state_of twelve_events "7d" "all" 1.
Proof.
  apply (prev_next_inverse utc dayNumber
           (state_of twelve_events "7d" "all" 1) (noon 20)).
  vm_compute. split; [discriminate|reflexivity].
Defined.

Lemma disabled_buttons_witness :
  handlePrevPage (state_of twelve_events "7d" "all" 1) =
  state_of twelve_events "7d" "all" 1 /\
  currentPage (handleNextPage utc dayNumber
                 (state_of twelve_events "7d" "all" 1) (noon 20)) = 1 + 1.
Proof.
  destruct (disabled_buttons utc dayNumber
              (state_of twelve_events "7d" "all" 1) (noon 20))
    as (Hprev & _ & Hin).
  split; [apply Hprev; reflexivity|].
  apply Hin; [vm_compute; split; discriminate|reflexivity].
Defined.

Lemma empty_list_navigation_witness :
  currentPage (handleNextPage utc dayNumber initialState (noon 20)) = 0 /\
  handlePrevPage (handleNextPage utc dayNumber initialState (noon 20)) =
  initialState.
Proof.
  destruct (empty_list_navigation utc dayNumber initialState (noon 20)
              eq_refl eq_refl) as (_ & _ & _ & H1 & _ & H2).
  split; [exact H1|exact H2].
Defined.

Lemma selector_sound_witness :
  1 <= totalPages utc dayNumber
         (setSelectedRepo "team2-web" (state_of twelve_events "7d" "all" 1))
         (noon 20).
Proof.
  apply (selector_sound utc dayNumber (state_of twelve_events "7d" "all" 1)
           (noon 20) "team2-web").
  vm_compute. right; left; reflexivity.
Defined.

Lemma teams_today_bounds_witness :
  0 <= 2 <= todaysActivity utc dayNumber
              (state_of twelve_events "7d" "all" 1) (noon 20).
Proof.
  apply (teams_today_bounds utc dayNumber
           (state_of twelve_events "7d" "all" 1) (noon 20) 2).
  vm_compute. reflexivity.
Defined.

Lemma page_never_negative_witness :
  paginatedData utc dayNumber
    (run utc dayNumber (noon 20) initialState [NextPage]) (noon 20) = [].
Proof.
  apply (page_never_negative utc dayNumber (noon 20) [NextPage]).
  reflexivity.
Defined.

Lemma today_agrees_with_series_witness :
  todaysActivity utc dayNumber (state_of twelve_events "all" "all" 1) (noon 20) =
  or_zero (obj_get
             (dailyActivity
                (bundle utc dayNumber (state_of twelve_events "all" "all" 1)
                   (noon 20)))
             (toLocaleDateString utc dayNumber (setHours0 utc (Some (noon 20))))).
Proof.
  apply (today_agrees_with_series utc dayNumber dayNumber_inj dayNumber_valid).
  vm_compute. discriminate.
Defined.

Lemma snapshot_order_irrelevant_witness :
  dailyActivity (processData utc dayNumber three_days "7d" "all" (noon 20)) =
  dailyActivity (processData utc dayNumber (rev three_days) "7d" "all" (noon 20)).
Proof.
  apply (snapshot_order_irrelevant utc dayNumber dayNumber_inj
           three_days (rev three_days) "7d" "all" (noon 20)).
  apply Permutation_rev.
Defined.

(** * The full semantics on the sample data *)

Lemma dayName_inj (d d' : Z) : dayName d = dayName d' -> d = d'.
Proof.
  unfold dayName. intros E. cbn in E. injection E as E.
  apply dayNumber_inj, E.
Qed.

Lemma dayName_ordinary (d : Z) : Plain.ordinary (dayName d) = true.
Proof. reflexivity. Qed.

Lemma dayName_valid (d : Z) : dayName d <> "Invalid Date".
Proof.
  unfold dayName. cbn. discriminate.
Qed.

(** C1.  In a zone whose clocks skip the midnight of 8 September 2024,
    with one event on 7 September, one event on 9 September and the clock at
    noon of 9 September: both events pass the filters, the latest event's
    day and today are 9 September, yet the loop that fills the series stops
    after 8 September.  Today's date is not a key of the series, and the
    counts of the series add up to 1 while 2 events are filtered and 1 event
    is today's.  More tests of the loop change nothing. *)
Theorem daily_series_stops_before_today :
  let processed extra :=
    Faithful.processData midnight_change enUS nativeCode (3 + extra)
      across_the_change "7d" "all" after_the_change in
  Faithful.timeFilteredData midnight_change across_the_change "7d" "all"
    after_the_change = across_the_change /\
  map (fun item => Faithful.toLocaleDateString midnight_change enUS
                     (receivedAt item)) across_the_change =
    ["9/9/2024"; "9/7/2024"] /\
  Faithful.toLocaleDateString midnight_change enUS (Some after_the_change) =
    "9/9/2024" /\
  (forall extra,
      Faithful.dailyActivity (processed extra) =
      Some [("9/7/2024", Plain.Num 1); ("9/8/2024", Plain.Num 0)]) /\
  Plain.total
    (Plain.values [("9/7/2024", Plain.Num 1); ("9/8/2024", Plain.Num 0)])
  = Some 1 /\
  Faithful.totalEvents (processed O) = 2 /\
  Faithful.todaysActivity midnight_change enUS (processed O)
    after_the_change = 1.
Proof.
  cbv zeta.
  split; [vm_compute; reflexivity|]. split; [vm_compute; reflexivity|].
  split; [vm_compute; reflexivity|]. split.
  - intros extra. cbn [Faithful.processData Faithful.dailyActivity].
    apply filledDailyActivity_more. vm_compute. reflexivity.
  - repeat split; vm_compute; reflexivity.
Qed.

(** The calendar on known days: the epoch, a leap day, the day of the
    change. *)
Example enUS_days :
  map enUS [0; 19782; 19783; 19974] =
  ["1/1/1970"; "2/29/2024"; "3/1/2024"; "9/8/2024"].
Proof. vm_compute. reflexivity. Qed.

(** The day of the change starts at 01:00 local time, that is, at the
    instant of the change. *)
Example midnight_is_skipped :
  Faithful.setHours0 midnight_change (Some (19974 * msPerDay + 50400000)) =
    Some (19974 * msPerDay + 14400000) /\
  Faithful.LocalTime midnight_change (19974 * msPerDay + 14400000) =
    19974 * msPerDay + 3600000.
Proof. split; vm_compute; reflexivity. Qed.

(** The same snapshot in a zone that stays four hours behind UTC. *)
Example series_without_the_change :
  Faithful.dailyActivity
    (Faithful.processData (Faithful.fixed_offset (-14400000)) enUS
       nativeCode 4 across_the_change "7d" "all" after_the_change) =
  Some [("9/7/2024", Plain.Num 1); ("9/8/2024", Plain.Num 0);
        ("9/9/2024", Plain.Num 1)].
Proof. vm_compute. reflexivity. Qed.

(** C2.  With one event of a repository called [__proto__] and one of
    another repository, the repository mapping has a single entry and its
    values add up to 1, while the event-type mapping sums to 2, which is
    [totalEvents].  With two events of a repository called [constructor],
    the value stored under that name is a string, not their number. *)
Theorem counts_lost_on_inherited_names :
  let b := Faithful.processData (Faithful.fixed_offset utc) dayName nativeCode
             2 [event_proto; event_teamA_svc] "all" "all" (noon 20) in
  let b' := Faithful.processData (Faithful.fixed_offset utc) dayName nativeCode
              2 [event_constructor; event_constructor] "all" "all" (noon 20) in
  Faithful.totalEvents b = 2 /\
  Plain.total (Plain.values (Faithful.eventTypes b)) = Some 2 /\
  Plain.entries (Faithful.repoActivity b) = [("teamA-svc", Plain.Num 1)] /\
  Plain.total (Plain.values (Faithful.repoActivity b)) = Some 1 /\
  Faithful.totalEvents b' = 2 /\
  Plain.entries (Faithful.repoActivity b') =
    [("constructor", Plain.Str "function Object() { [native code] }11")] /\
  Plain.total (Plain.values (Faithful.repoActivity b')) = None.
Proof.
  repeat split; vm_compute; reflexivity.
Qed.

(** Users whose logins are numbers are listed by ascending number, before
    the others. *)
Example keys_of_numeric_logins :
  Plain.keys (Plain.tally nativeCode username
                (map event_of_user ["10"; "2"; "b"; "1"])) =
  ["1"; "2"; "10"; "b"].
Proof. vm_compute. reflexivity. Qed.

Lemma three_days_ordinary :
  Forall (fun item => ordinary_labels item = true) three_days.
Proof. repeat constructor. Qed.

Lemma plain_tally_counts_witness :
  Plain.get (Plain.tally nativeCode repoName three_days) "team1-api" =
  Some (Plain.Num 2).
Proof.
  apply (plain_tally_counts nativeCode repoName three_days "team1-api").
  - repeat constructor.
  - left. reflexivity.
Defined.

Lemma plain_tally_keys_witness :
  Plain.keys (Plain.tally nativeCode repoName three_days) =
  new_Set (map repoName three_days).
Proof.
  apply (plain_tally_keys nativeCode repoName three_days).
  repeat constructor.
Defined.

Lemma category_charts_plain_witness :
  Plain.total
    (Faithful.chart_data
       (Faithful.repoActivityChartData
          (Faithful.processData (Faithful.fixed_offset utc) dayName nativeCode
             7 three_days "7d" "all" (noon 20)))) = Some 3.
Proof.
  pose proof (category_charts_plain dayName (Faithful.fixed_offset utc)
                nativeCode 7 three_days "7d" "all" (noon 20)
                three_days_ordinary) as H.
  apply Forall_inv_tail, Forall_inv in H. apply H.
Defined.

Lemma unique_counts_plain_witness :
  Faithful.uniqueTeams
    (Faithful.processData (Faithful.fixed_offset utc) dayName nativeCode
       7 three_days "7d" "all" (noon 20)) <=
  Faithful.uniqueRepos
    (Faithful.processData (Faithful.fixed_offset utc) dayName nativeCode
       7 three_days "7d" "all" (noon 20)).
Proof.
  apply (unique_counts_plain dayName (Faithful.fixed_offset utc) nativeCode
           7 three_days "7d" "all" (noon 20) three_days_ordinary).
Defined.

Lemma leaderboard_plain_witness :
  exists board,
    Faithful.leaderboard
      (Faithful.processData (Faithful.fixed_offset utc) dayName nativeCode
         7 three_days "7d" "all" (noon 20)) = Some board /\
    sum (map snd board) = 3.
Proof.
  destruct (leaderboard_plain dayName (Faithful.fixed_offset utc) nativeCode
              7 three_days "7d" "all" (noon 20))
    as (board & Hb & _ & _ & Hs & _).
  - repeat constructor.
  - exists board. split; [exact Hb|exact Hs].
Defined.

Lemma time_filter_in_zone_witness :
  ~ In event_undated
      (Faithful.timeFilteredData midnight_change
         [event_undated; event_teamA_svc] "30d" "all" after_the_change).
Proof.
  destruct (time_filter_in_zone midnight_change
              [event_undated; event_teamA_svc] "30d" "all" after_the_change
              event_undated) as (_ & _ & H).
  apply H. reflexivity.
Defined.

Lemma daily_series_fixed_offset_witness :
  exists filled,
    Faithful.dailyActivity
      (Faithful.processData (Faithful.fixed_offset utc) dayName nativeCode
         7 three_days "7d" "all" (noon 20)) = Some filled /\
    Plain.total (Plain.values filled) = Some 3.
Proof.
  destruct (daily_series_fixed_offset utc dayName nativeCode dayName_inj
              dayName_ordinary 7 three_days "7d" "all" (noon 20))
    as (filled & Hf & _ & Ht).
  - vm_compute. reflexivity.
  - exists filled. split; [exact Hf|exact Ht].
Defined.

Lemma today_agrees_fixed_offset_witness :
  Plain.or_zero
    (Plain.get
       [("day 20", Plain.Num 12)]
       (Faithful.toLocaleDateString (Faithful.fixed_offset utc) dayName
          (Faithful.setHours0 (Faithful.fixed_offset utc) (Some (noon 20))))) =
  Plain.Num
    (Faithful.todaysActivity (Faithful.fixed_offset utc) dayName
       (Faithful.processData (Faithful.fixed_offset utc) dayName nativeCode
          2 twelve_events "all" "all" (noon 20))
       (noon 20)).
Proof.
  apply (today_agrees_fixed_offset utc dayName nativeCode dayName_inj
           dayName_ordinary dayName_valid twelve_events "all" "all"
           (noon 20)).
  - vm_compute. discriminate.
  - vm_compute. reflexivity.
Defined.

Lemma snapshot_order_fixed_offset_witness :
  Faithful.dailyActivity
    (Faithful.processData (Faithful.fixed_offset utc) dayName nativeCode
       7 three_days "7d" "all" (noon 20)) =
  Faithful.dailyActivity
    (Faithful.processData (Faithful.fixed_offset utc) dayName nativeCode
       7 (rev three_days) "7d" "all" (noon 20)).
Proof.
  apply (snapshot_order_fixed_offset utc dayName nativeCode dayName_inj
           dayName_ordinary 7 three_days (rev three_days) "7d" "all"
           (noon 20)).
  - apply Permutation_rev.
  - repeat constructor.
Defined.
